(** * Boliglånskalkulator: the financial computation engine of boligeie.py

    A shallow embedding of the calculation code of [src/boligeie.py] and
    the properties its specification states about it.

    Number model.  The program computes with Python numbers.  Amounts,
    rates and percentages are modelled as exact rationals [Q], compared
    with [==]; the year counts that the program feeds to [range] are
    integers [Z].  Rounding of binary floating point is outside the
    model: every equation below is an equation of exact arithmetic.
    What the model does keep of Python's arithmetic is its partiality:
    a division by zero raises [ZeroDivisionError], it does not return a
    number. *)

From Stdlib Require Import QArith Qpower Qminmax ZArith List String Bool Lia Lra Psatz.
Import ListNotations.

Local Open Scope Q_scope.

(** ** Python results *)

Inductive PyError : Type :=
| ZeroDivisionError
| TypeError
| KeyError.

Inductive result (A : Type) : Type :=
| Ok (a : A)
| Raise (e : PyError).

Arguments Ok {A} a.
Arguments Raise {A} e.

Definition bind {A B : Type} (r : result A) (k : A -> result B) : result B :=
  match r with
  | Ok a => k a
  | Raise e => Raise e
  end.

Notation "x <- r ;; k" := (bind r (fun x => k))
  (at level 61, r at next level, right associativity).

(** ** Python arithmetic on rationals *)

(** [x < y] as a test. *)
Definition Qlt_bool (x y : Q) : bool := negb (Qle_bool y x).

(** [x / y]: raises on a zero divisor. *)
Definition py_div (x y : Q) : result Q :=
  if Qeq_bool y 0 then Raise ZeroDivisionError else Ok (x / y).

(** [x ** n] for an integer exponent: zero to a negative power raises. *)
Definition py_pow (x : Q) (n : Z) : result Q :=
  if Qeq_bool x 0 && (n <? 0)%Z then Raise ZeroDivisionError else Ok (x ^ n).

(** [min(a, b)] and [max(a, b)] of two numbers: Python keeps the first
    argument unless the second is strictly smaller (resp. larger). *)
Definition py_min (a b : Q) : Q := if Qlt_bool b a then b else a.
Definition py_max (a b : Q) : Q := if Qlt_bool a b then b else a.

(** [list(range(lo, lo + n))]. *)
Fixpoint py_range (lo : Z) (n : nat) : list Z :=
  match n with
  | O => []
  | S n' => lo :: py_range (lo + 1) n'
  end.

(** [sum] of a column. *)
Definition Qsum (l : list Q) : Q := fold_right Qplus 0 l.

(** Norwegian financial constants. *)
Definition SKATTESATS_RENTEFRADRAG : Q := 0.22.


(** ** Annuity engine *)

Module Annuitet.

(** [beregn_terminbelop(laan, rente, nedbetalingstid_aar)]. *)
Definition beregn_terminbelop (laan rente : Q) (nedbetalingstid_aar : Z) : result Q :=
  if Qeq_bool rente 0 then
    py_div laan (inject_Z (nedbetalingstid_aar * 12))
  else
    let maanedlig_rente := rente / 100 / 12 in
    let antall_terminer := (nedbetalingstid_aar * 12)%Z in
    vekst <- py_pow (1 + maanedlig_rente) antall_terminer ;;
    py_div (laan * (maanedlig_rente * vekst)) (vekst - 1).

(** The payment as the specification words it: principal / (termYears*12)
    at rate zero, and otherwise the annuity formula
    principal * (r * (1+r)^n) / ((1+r)^n - 1)
    with r = annualRatePercent/100/12 and n = termYears*12. *)
Definition computeFixedPayment_spec (principal annualRatePercent : Q) (termYears : Z) : Q :=
  if Qeq_bool annualRatePercent 0 then principal / inject_Z (termYears * 12)
  else
    let r := annualRatePercent / 100 / 12 in
    let n := (termYears * 12)%Z in
    principal * (r * (1 + r) ^ n) / ((1 + r) ^ n - 1).

(** One row of the amortisation plan (a dict of the list [plan]). *)
Record PlanRad : Type := mkPlanRad {
  Aar : Z;
  Maaned : Z;
  Terminbelop : Q;
  Renter : Q;
  Avdrag : Q;
  Gjenstaaende : Q;
  Skattefradrag : Q;
  Netto_kostnad : Q
}.

(** The body of [for mnd in range(antall_aar * 12)]: [igjen] counts the
    iterations left, [mnd] is the loop variable and [gjenstaaende] the
    running balance. *)
Fixpoint plan_loop (terminbelop maanedlig_rente : Q) (igjen : nat) (mnd : Z)
    (gjenstaaende : Q) : list PlanRad :=
  match igjen with
  | O => []
  | S igjen' =>
      if Qle_bool gjenstaaende 0 then []
      else
        let renter := gjenstaaende * maanedlig_rente in
        let avdrag := terminbelop - renter in
        let gjenstaaende := gjenstaaende - avdrag in
        mkPlanRad (mnd / 12 + 1)%Z (mnd mod 12 + 1)%Z terminbelop renter avdrag
                  (py_max 0 gjenstaaende)
                  (renter * SKATTESATS_RENTEFRADRAG)
                  (terminbelop - renter * SKATTESATS_RENTEFRADRAG)
        :: plan_loop terminbelop maanedlig_rente igjen' (mnd + 1)%Z gjenstaaende
  end.

(** [beregn_amortiseringsplan(laan, rente, nedbetalingstid_aar,
    antall_aar=None)]; the data frame is the list of its rows. *)
Definition beregn_amortiseringsplan (laan rente : Q) (nedbetalingstid_aar : Z)
    (antall_aar : option Z) : result (list PlanRad) :=
  let antall_aar :=
    match antall_aar with
    | None => Z.min 10 nedbetalingstid_aar
    | Some a => a
    end in
  let maanedlig_rente := rente / 100 / 12 in
  terminbelop <- beregn_terminbelop laan rente nedbetalingstid_aar ;;
  Ok (plan_loop terminbelop maanedlig_rente (Z.to_nat (antall_aar * 12)) 0 laan).

(** The balance a row starts from: the loan for the first row, the
    recorded balance of the row before for the others. *)
Definition gjenstaaende_foer (laan : Q) (plan : list PlanRad) (t : nat) : Q :=
  match t with
  | O => laan
  | S t' => match nth_error plan t' with
            | Some rad => Gjenstaaende rad
            | None => 0
            end
  end.

End Annuitet.

(** ** Rate forecast generator *)

Module Renteprognose.

Local Open Scope string_scope.

(** The data frame [{'År': aar, 'Rente': renter}]. *)
Record Prognose : Type := mkPrognose {
  kol_Aar : list Z;
  kol_Rente : list Q
}.

(** Norges Bank's policy-rate forecast, the dict of the function. *)
Definition styringsrente_prognose : list (Z * Q) :=
  [ (2025%Z, 4.25); (2026%Z, 4.0); (2027%Z, 3.5); (2028%Z, 3.1);
    (2029%Z, 3.0); (2030%Z, 3.0); (2031%Z, 3.0); (2032%Z, 3.0);
    (2033%Z, 3.0); (2034%Z, 3.0) ].

(** [d[key]]: a missing key raises [KeyError]. *)
Fixpoint oppslag (d : list (Z * Q)) (key : Z) : result Q :=
  match d with
  | [] => Raise KeyError
  | (k, v) :: d' => if (k =? key)%Z then Ok v else oppslag d' key
  end.

(** [[f(x) for x in xs]] for an [f] that may raise. *)
Fixpoint for_alle {A B : Type} (f : A -> result B) (xs : list A) : result (list B) :=
  match xs with
  | [] => Ok []
  | x :: xs' => y <- f x ;; ys <- for_alle f xs' ;; Ok (y :: ys)
  end.

(** The loop of the "moderat" model over [i in range(10)]. *)
Fixpoint moderat_loop (indekser : list Z) (current : Q) : list Q :=
  match indekser with
  | [] => []
  | i :: rest =>
      let current :=
        if (i <? 3)%Z then current + 0.2
        else if (i <? 5)%Z then current + 0.1
        else current + 0.05 in
      py_min 6.0 current :: moderat_loop rest current
  end.

(** The loop of the "høy" model over [i in range(10)]. *)
Fixpoint hoy_loop (indekser : list Z) (current : Q) : list Q :=
  match indekser with
  | [] => []
  | i :: rest =>
      let current :=
        if (i <? 2)%Z then current + 0.5
        else if (i <? 5)%Z then current + 0.3
        else current + 0.1 in
      py_min 8.0 current :: hoy_loop rest current
  end.

(** [generer_renteprognose(basis_rente, prognose_type="norges_bank")]. *)
Definition generer_renteprognose (basis_rente : Q) (prognose_type : string)
    : result Prognose :=
  let aar := py_range 2025 10 in
  renter <-
    (if String.eqb prognose_type "norges_bank" then
       let passlag := 1.5 in
       for_alle (fun year => r <- oppslag styringsrente_prognose year ;;
                             Ok (r + passlag)) aar
     else if String.eqb prognose_type "optimistisk" then
       let passlag := 1.0 in
       for_alle (fun year => r <- oppslag styringsrente_prognose year ;;
                             Ok (r + passlag)) aar
     else if String.eqb prognose_type "pessimistisk" then
       let passlag := 2.0 in
       for_alle (fun year => r <- oppslag styringsrente_prognose year ;;
                             Ok (py_min 8.0 (r + 0.5 + passlag))) aar
     else if String.eqb prognose_type "lav" then
       Ok (map (fun i => py_max 1.5 (basis_rente - 0.1 * inject_Z i)) (py_range 0 10))
     else if String.eqb prognose_type "moderat" then
       Ok (moderat_loop (py_range 0 10) basis_rente)
     else
       Ok (hoy_loop (py_range 0 10) basis_rente)) ;;
  Ok (mkPrognose aar renter).

End Renteprognose.

(** ** Cost allocator *)

Module Fordeling.

Local Open Scope string_scope.

(** [beregn_fordeling(total_kostnad, inntekt_a, inntekt_b, fordeling_type,
    custom_split=None)].  [custom_split] is [None] unless the caller
    passes a percentage; dividing [None] by 100 is a [TypeError]. *)
Definition beregn_fordeling (total_kostnad inntekt_a inntekt_b : Q)
    (fordeling_type : string) (custom_split : option Q) : result (Q * Q) :=
  if String.eqb fordeling_type "50/50" then
    Ok (total_kostnad / 2, total_kostnad / 2)
  else if String.eqb fordeling_type "Proporsjonal etter inntekt" then
    if Qeq_bool (inntekt_a + inntekt_b) 0 then Ok (0, 0)
    else
      let andel_a := inntekt_a / (inntekt_a + inntekt_b) in
      Ok (total_kostnad * andel_a, total_kostnad * (1 - andel_a))
  else if String.eqb fordeling_type "Egendefinert" then
    match custom_split with
    | None => Raise TypeError
    | Some custom_split =>
        let andel_a := custom_split / 100 in
        Ok (total_kostnad * andel_a, total_kostnad * (1 - andel_a))
    end
  else
    Ok (total_kostnad / 2, total_kostnad / 2).

End Fordeling.


(** ** Ownership share over time *)

Module Eierandel.

Local Open Scope string_scope.

(** The four lists the loop appends to. *)
Record Utvikling : Type := mkUtvikling {
  eierandel_a_over_tid : list Q;
  eierandel_b_over_tid : list Q;
  total_nedbetalt : list Q;
  gjenstaaende : list Q
}.

(** The share of the instalments that A pays:
    [custom_split / 100 if custom_split else 0.5] takes the default both
    for [None] and for a split of zero. *)
Definition avdrag_andel (fordeling_type : string) (kostnad_a kostnad_b : Q)
    (custom_split : option Q) : Q :=
  if String.eqb fordeling_type "50/50" then 0.5
  else if String.eqb fordeling_type "Proporsjonal etter inntekt" then
    if Qlt_bool 0 (kostnad_a + kostnad_b)
    then kostnad_a / (kostnad_a + kostnad_b) else 0.5
  else
    match custom_split with
    | None => 0.5
    | Some c => if Qeq_bool c 0 then 0.5 else c / 100
    end.

(** The body of [for i, year in enumerate(years)]. *)
Fixpoint utvikling_loop (laanebelop aarlig_avdrag : Q)
    (initial_eierandel_a initial_eierandel_b laaneandel_a laaneandel_b : Q)
    (years : list Z) (i : Z) : Utvikling :=
  match years with
  | [] => mkUtvikling [] [] [] []
  | _ :: years' =>
      let rest := utvikling_loop laanebelop aarlig_avdrag initial_eierandel_a
                    initial_eierandel_b laaneandel_a laaneandel_b years' (i + 1)%Z in
      if (i =? 0)%Z then
        mkUtvikling (initial_eierandel_a :: eierandel_a_over_tid rest)
                    (initial_eierandel_b :: eierandel_b_over_tid rest)
                    (0 :: total_nedbetalt rest)
                    (laanebelop :: gjenstaaende rest)
      else
        let years_passed := inject_Z i in
        let total_nedbetalt_saa_langt := py_min (aarlig_avdrag * years_passed) laanebelop in
        let current_loan := laanebelop - total_nedbetalt_saa_langt in
        let prosent_nedbetalt :=
          if Qlt_bool 0 laanebelop then total_nedbetalt_saa_langt / laanebelop else 1 in
        let ekstra_eierandel_a := laaneandel_a * prosent_nedbetalt in
        let ekstra_eierandel_b := laaneandel_b * prosent_nedbetalt in
        let total_eierandel_a := initial_eierandel_a + ekstra_eierandel_a in
        let total_eierandel_b := initial_eierandel_b + ekstra_eierandel_b in
        mkUtvikling (total_eierandel_a :: eierandel_a_over_tid rest)
                    (total_eierandel_b :: eierandel_b_over_tid rest)
                    (total_nedbetalt_saa_langt :: total_nedbetalt rest)
                    (current_loan :: gjenstaaende rest)
  end.

(** What the loop body computes in iteration [i], taken out of the loop:
    the share of the loan repaid, and a party's ownership. *)
Definition prosent_nedbetalt_ved (laanebelop aarlig_avdrag : Q) (i : Z) : Q :=
  if Qlt_bool 0 laanebelop
  then py_min (aarlig_avdrag * inject_Z i) laanebelop / laanebelop else 1.

Definition eierandel_ved (laanebelop aarlig_avdrag initial_eierandel laaneandel : Q)
    (i : Z) : Q :=
  if (i =? 0)%Z then initial_eierandel
  else initial_eierandel
       + laaneandel * prosent_nedbetalt_ved laanebelop aarlig_avdrag i.

(** The ownership block of the cost tab, as a function of the script
    variables it reads. *)
Definition eierandel_utvikling (nedbetalingstid : Z)
    (egenkapital_a egenkapital_b boligpris laanebelop : Q)
    (fordeling_type : string) (kostnad_a kostnad_b : Q) (custom_split : option Q)
    : result Utvikling :=
  let years := py_range 2025 (Z.to_nat (nedbetalingstid + 1)) in
  andel_a <- py_div egenkapital_a boligpris ;;
  let initial_eierandel_a := andel_a * 100 in
  andel_b <- py_div egenkapital_b boligpris ;;
  let initial_eierandel_b := andel_b * 100 in
  laaneandel <- py_div laanebelop boligpris ;;
  let total_laaneandel := laaneandel * 100 in
  gjennomsnittlig_maanedlig_avdrag <-
    py_div laanebelop (inject_Z (nedbetalingstid * 12)) ;;
  let aarlig_avdrag := gjennomsnittlig_maanedlig_avdrag * 12 in
  let avdrag_andel_a := avdrag_andel fordeling_type kostnad_a kostnad_b custom_split in
  let avdrag_andel_b := 1 - avdrag_andel_a in
  let laaneandel_a := total_laaneandel * avdrag_andel_a in
  let laaneandel_b := total_laaneandel * avdrag_andel_b in
  Ok (utvikling_loop laanebelop aarlig_avdrag initial_eierandel_a initial_eierandel_b
        laaneandel_a laaneandel_b years 0).

End Eierandel.

(** ** Sale settlement *)

Module Salg.

Local Open Scope string_scope.

(** [sub in s]. *)
Definition inneholder (sub s : string) : bool :=
  match String.index 0 sub s with
  | Some _ => true
  | None => false
  end.

(** The options of the radio button [fordelingsmodell]. *)
Definition modell_1 : string := "Modell 1: Proporsjonal etter total investering".
Definition modell_2 : string := "Modell 2: Proporsjonal etter egenkapital".
Definition modell_3 : string := "Modell 3: 50/50 på gevinst".
Definition modell_4 : string :=
  "Modell 4: Hybrid (EK-proporsjonal på gevinst, investering på tap)".

(** The script variables the settlement reads. *)
Record Salgsdata : Type := mkSalgsdata {
  boligpris : Q;
  verdiendring_prosent : Q;
  salgskostnader_prosent : Q;
  gjenstaaende_laan : Q;
  egenkapital : Q;
  egenkapital_a : Q;
  egenkapital_b : Q;
  nedbetalt_a : Q;
  nedbetalt_b : Q
}.

(** How the equity is divided on the first tab: equally, or A's part is
    entered and B's is the rest. *)
Inductive EgenkapitalFordeling : Type :=
| LikFordeling
| UlikFordeling (egenkapital_fra_a : Q).

Definition fordel_egenkapital (egenkapital : Q) (f : EgenkapitalFordeling) : Q * Q :=
  match f with
  | LikFordeling => (egenkapital / 2, egenkapital / 2)
  | UlikFordeling a => (a, egenkapital - a)
  end.

(** How the repaid principal [total_avdrag] is attributed to the two. *)
Definition fordel_avdrag (fordeling_type : string) (kostnad_a kostnad_b : Q)
    (custom_split : option Q) (total_avdrag : Q) : Q * Q :=
  if String.eqb fordeling_type "50/50" then
    (total_avdrag * 0.5, total_avdrag * 0.5)
  else if String.eqb fordeling_type "Proporsjonal etter inntekt" then
    let andel_a :=
      if Qlt_bool 0 (kostnad_a + kostnad_b)
      then kostnad_a / (kostnad_a + kostnad_b) else 0.5 in
    (total_avdrag * andel_a, total_avdrag * (1 - andel_a))
  else
    let andel_a :=
      match custom_split with
      | None => 0.5
      | Some c => if Qeq_bool c 0 then 0.5 else c / 100
      end in
    (total_avdrag * andel_a, total_avdrag * (1 - andel_a)).

(** The variables as the tabs of the script hand them to the sale tab:
    the loan is the price less the equity, the loan left is the loan
    less the instalments of the plan, [total_avdrag]. *)
Definition salgsdata_fra_fanene (boligpris egenkapital : Q)
    (egenkapital_fordeling : EgenkapitalFordeling)
    (fordeling_type : string) (kostnad_a kostnad_b : Q) (custom_split : option Q)
    (total_avdrag verdiendring_prosent salgskostnader_prosent : Q) : Salgsdata :=
  let laanebelop := boligpris - egenkapital in
  let gjenstaaende_laan := laanebelop - total_avdrag in
  let ek := fordel_egenkapital egenkapital egenkapital_fordeling in
  let nedbetalt :=
    fordel_avdrag fordeling_type kostnad_a kostnad_b custom_split total_avdrag in
  mkSalgsdata boligpris verdiendring_prosent salgskostnader_prosent gjenstaaende_laan
    egenkapital (fst ek) (snd ek) (fst nedbetalt) (snd nedbetalt).

(** The sale of the specification's example: price 4 500 000, up 33.3 %,
    costs 2.5 %, 2 000 000 of the loan left, equity 1 300 000 of which A
    brought 520 000. *)
Definition eksempel_salg : Salgsdata :=
  mkSalgsdata 4500000 33.3 2.5 2000000 1300000 520000 780000 0 0.


Section Oppgjor.

Variable d : Salgsdata.

Definition salgspris : Q := boligpris d * (1 + verdiendring_prosent d / 100).
Definition verdiendring_kr : Q := salgspris - boligpris d.
Definition salgskostnader : Q := salgspris * (salgskostnader_prosent d / 100).
Definition netto_salgssum : Q := salgspris - salgskostnader - gjenstaaende_laan d.

Definition total_investert_a : Q := egenkapital_a d + nedbetalt_a d.
Definition total_investert_b : Q := egenkapital_b d + nedbetalt_b d.
Definition total_investert : Q := total_investert_a + total_investert_b.

(** Everything divided by total investment (model 1, and the loss branch
    of the hybrid). *)
Definition etter_investering (netto : Q) : Q * Q :=
  let andel_a :=
    if Qlt_bool 0 total_investert then total_investert_a / total_investert else 0.5 in
  let andel_b :=
    if Qlt_bool 0 total_investert then total_investert_b / total_investert else 0.5 in
  (netto * andel_a, netto * andel_b).

(** The [else] branch of models 2, 3 and 4 when there is no gain. *)
Definition uten_gevinst (netto : Q) : Q * Q :=
  ((if Qlt_bool 0 total_investert
    then netto * (total_investert_a / total_investert) else netto * 0.5),
   (if Qlt_bool 0 total_investert
    then netto * (total_investert_b / total_investert) else netto * 0.5)).

(** Investment back first, the gain divided by equity (model 2, and the
    gain branch of the hybrid). *)
Definition etter_egenkapital (netto : Q) : Q * Q :=
  let ek_andel_a :=
    if Qlt_bool 0 (egenkapital d) then egenkapital_a d / egenkapital d else 0.5 in
  let ek_andel_b :=
    if Qlt_bool 0 (egenkapital d) then egenkapital_b d / egenkapital d else 0.5 in
  if Qlt_bool total_investert netto then
    let gevinst := netto - total_investert in
    (total_investert_a + gevinst * ek_andel_a,
     total_investert_b + gevinst * ek_andel_b)
  else uten_gevinst netto.

(** Investment back first, the gain divided equally (model 3). *)
Definition likt_paa_gevinst (netto : Q) : Q * Q :=
  if Qlt_bool total_investert netto then
    let gevinst := netto - total_investert in
    (total_investert_a + gevinst * 0.5, total_investert_b + gevinst * 0.5)
  else uten_gevinst netto.

(** [(utbetaling_a, utbetaling_b)] of the sale tab for the chosen model. *)
Definition utbetaling (fordelingsmodell : string) : Q * Q :=
  if inneholder "Modell 1" fordelingsmodell then
    etter_investering netto_salgssum
  else if inneholder "Modell 2" fordelingsmodell then
    etter_egenkapital netto_salgssum
  else if inneholder "Modell 3" fordelingsmodell then
    likt_paa_gevinst netto_salgssum
  else
    if Qlt_bool 0 verdiendring_kr then etter_egenkapital netto_salgssum
    else etter_investering netto_salgssum.

(** The hybrid as the specification words it: the switch is the sign of
    netProceeds - totalInvested alone.  Above it each party recovers the
    investment and the surplus is divided by equity; otherwise the
    proceeds are divided by total investment. *)
Definition hybrid_spec (netProceeds : Q) : Q * Q :=
  if Qlt_bool total_investert netProceeds then
    let surplus := netProceeds - total_investert in
    (total_investert_a + surplus
       * (if Qlt_bool 0 (egenkapital d) then egenkapital_a d / egenkapital d else 0.5),
     total_investert_b + surplus
       * (if Qlt_bool 0 (egenkapital d) then egenkapital_b d / egenkapital d else 0.5))
  else etter_investering netProceeds.

(** *** Scenario sweep *)

Definition scenarios : list (string * Q) :=
  [ ("Kraftig fall", -20); ("Moderat fall", -10); ("Ingen endring", 0);
    ("Moderat vekst", 15); ("Normal vekst", 33.3); ("Sterk vekst", 50) ].

Definition scenario_salgspris (endring_prosent : Q) : Q :=
  boligpris d * (1 + endring_prosent / 100).

(** The selling costs are those of the main scenario, not recomputed. *)
Definition scenario_netto (endring_prosent : Q) : Q :=
  scenario_salgspris endring_prosent - salgskostnader - gjenstaaende_laan d.

(** The gain branch of models 2 and 4 in the sweep: B's share of the
    gain is the complement of A's. *)
Definition scenario_etter_egenkapital (netto : Q) : Q * Q :=
  if Qlt_bool total_investert netto then
    let scenario_gevinst := netto - total_investert in
    let ek_andel_a :=
      if Qlt_bool 0 (egenkapital d) then egenkapital_a d / egenkapital d else 0.5 in
    (total_investert_a + scenario_gevinst * ek_andel_a,
     total_investert_b + scenario_gevinst * (1 - ek_andel_a))
  else uten_gevinst netto.

(** [(scenario_a, scenario_b)] for one appreciation assumption. *)
Definition scenario_utbetaling (fordelingsmodell : string) (endring_prosent : Q)
    : Q * Q :=
  let netto := scenario_netto endring_prosent in
  if inneholder "Modell 1" fordelingsmodell then uten_gevinst netto
  else if inneholder "Modell 2" fordelingsmodell then scenario_etter_egenkapital netto
  else if inneholder "Modell 3" fordelingsmodell then likt_paa_gevinst netto
  else
    if Qlt_bool 0 endring_prosent then scenario_etter_egenkapital netto
    else uten_gevinst netto.

End Oppgjor.

End Salg.

(** ** Further definitions for the annuity engine *)

(** The present value of [n] payments of 1, one per period, each period
    discounted by [v]: v + v^2 + ... + v^n. *)
Fixpoint annuitetsfaktor (v : Q) (n : nat) : Q :=
  match n with
  | O => 0
  | S n' => v * (1 + annuitetsfaktor v n')
  end.

(** With [m] payments of [T] left, the balance [g] is what the payments
    still to come are worth: [m * T] at rate zero, their present value
    at a positive monthly rate [mr]. *)
Definition restsaldo_ok (T mr : Q) (m : nat) (g : Q) : Prop :=
  (mr == 0 /\ g == T * inject_Z (Z.of_nat m))
  \/ (0 < mr
      /\ g * mr * (1 + mr) ^ Z.of_nat m == T * ((1 + mr) ^ Z.of_nat m - 1)).

(** The balance the plan ends on: the last row's, or the loan when the
    plan has no rows. *)
Definition sluttsaldo (laan : Q) (plan : list Annuitet.PlanRad) : Q :=
  Annuitet.gjenstaaende_foer laan plan (List.length plan).

(** The repayment analysis of the sale tab: the plan up to the year of
    the sale and its column sums, or, when the plan is empty, the
    straight-line estimate.  Returns total_avdrag, total_renter,
    total_skattefradrag and gjenstaaende_laan. *)
Definition nedbetalingsanalyse (laanebelop rente : Q) (nedbetalingstid salgsaar : Z)
    : result (Q * Q * Q * Q) :=
  amortiseringsplan <-
    Annuitet.beregn_amortiseringsplan laanebelop rente nedbetalingstid (Some salgsaar) ;;
  match amortiseringsplan with
  | _ :: _ =>
      let total_avdrag := Qsum (map Annuitet.Avdrag amortiseringsplan) in
      let total_renter := Qsum (map Annuitet.Renter amortiseringsplan) in
      let total_skattefradrag := Qsum (map Annuitet.Skattefradrag amortiseringsplan) in
      let gjenstaaende_laan := laanebelop - total_avdrag in
      Ok (total_avdrag, total_renter, total_skattefradrag, gjenstaaende_laan)
  | [] =>
      aarlig <- py_div laanebelop (inject_Z nedbetalingstid) ;;
      let total_avdrag := aarlig * inject_Z salgsaar in
      let gjenstaaende_laan := laanebelop - total_avdrag in
      Ok (total_avdrag, 0, 0, gjenstaaende_laan)
  end.

(** ** Tax deduction and debt service ratios *)

Module Belastning.

(** [beregn_skattefradrag(rentekostnad)]. *)
Definition beregn_skattefradrag (rentekostnad : Q) : Q :=
  rentekostnad * SKATTESATS_RENTEFRADRAG.

(** [beregn_belastningsgrad(boligutgifter, nettoinntekt)]. *)
Definition beregn_belastningsgrad (boligutgifter nettoinntekt : Q) : result Q :=
  if Qeq_bool nettoinntekt 0 then Ok 0
  else
    andel <- py_div boligutgifter nettoinntekt ;;
    Ok (andel * 100).

(** [beregn_effektiv_belastning(boligutgifter, nettoinntekt,
    skattefradrag_mnd)]. *)
Definition beregn_effektiv_belastning (boligutgifter nettoinntekt skattefradrag_mnd : Q)
    : result Q :=
  if Qeq_bool nettoinntekt 0 then Ok 0
  else
    andel <- py_div boligutgifter (nettoinntekt + skattefradrag_mnd) ;;
    Ok (andel * 100).

End Belastning.

(** ** The cost tab *)

Module Kostnader.

(** The monthly figures the cost tab computes before it divides them. *)
Record Maanedskostnad : Type := mkMaanedskostnad {
  terminbelop : Q;
  rentekostnad_mnd : Q;
  avdrag_mnd : Q;
  skattefradrag_mnd : Q;
  total_mnd_kostnad : Q;
  kostnad_a : Q;
  kostnad_b : Q;
  skattefradrag_a : Q;
  skattefradrag_b : Q
}.

Definition maanedskostnad (laanebelop rente : Q) (nedbetalingstid : Z)
    (felleskostnader brutto_aar_a brutto_aar_b : Q)
    (fordeling_type : string) (custom_split : option Q) : result Maanedskostnad :=
  terminbelop <- Annuitet.beregn_terminbelop laanebelop rente nedbetalingstid ;;
  let rentekostnad_mnd := (laanebelop * (rente / 100)) / 12 in
  let avdrag_mnd := terminbelop - rentekostnad_mnd in
  let skattefradrag_mnd := Belastning.beregn_skattefradrag rentekostnad_mnd in
  let total_mnd_kostnad := terminbelop + felleskostnader in
  kostnad <- Fordeling.beregn_fordeling total_mnd_kostnad brutto_aar_a brutto_aar_b
               fordeling_type custom_split ;;
  skattefradrag <- Fordeling.beregn_fordeling skattefradrag_mnd brutto_aar_a brutto_aar_b
                     fordeling_type custom_split ;;
  Ok (mkMaanedskostnad terminbelop rentekostnad_mnd avdrag_mnd skattefradrag_mnd
        total_mnd_kostnad (fst kostnad) (snd kostnad)
        (fst skattefradrag) (snd skattefradrag)).

(** What the tab shows for one person. *)
Record Personoversikt : Type := mkPersonoversikt {
  belastning : Q;
  effektiv_belastning : Q;
  disponibel_foer_skatt : Q;
  disponibel_etter_skatt : Q
}.

Definition personoversikt (kostnad netto_mnd skattefradrag : Q) : result Personoversikt :=
  belastning <- Belastning.beregn_belastningsgrad kostnad netto_mnd ;;
  effektiv_belastning <-
    Belastning.beregn_effektiv_belastning kostnad netto_mnd skattefradrag ;;
  let disponibel_foer_skatt := netto_mnd - kostnad in
  let disponibel_etter_skatt := netto_mnd + skattefradrag - kostnad in
  Ok (mkPersonoversikt belastning effektiv_belastning disponibel_foer_skatt
        disponibel_etter_skatt).

End Kostnader.

(** ** Cost effect of rate scenarios (forecast tab) *)

Module Rentescenarier.

Local Open Scope string_scope.

Definition rente_scenarios (rente : Q) : list (string * Q) :=
  [ ("Dagens rente", rente);
    ("2026 (NB prognose)", 3.81 + 1.0);
    ("2027 (NB prognose)", 3.29 + 1.0);
    ("2028 (NB prognose)", 3.1 + 1.0);
    ("2029+ (NB prognose)", 3.0 + 1.0);
    ("+1% fra dagens", rente + 1);
    ("+2% fra dagens", rente + 2);
    ("Krisescenario", 8.0) ].

(** One row of [scenario_data]. *)
Record ScenarioRad : Type := mkScenarioRad {
  Scenario : string;
  Rente : Q;
  Total_mnd : Q;
  Endring : Q;
  Endring_prosent : Q;
  Kostnad_a : Q;
  Kostnad_b : Q;
  Belastning_a : Q;
  Belastning_b : Q;
  Eff_belastning_a : Q;
  Eff_belastning_b : Q
}.

Section Tabell.

Variables laanebelop : Q.
Variable nedbetalingstid : Z.
Variables felleskostnader brutto_aar_a brutto_aar_b netto_mnd_a netto_mnd_b : Q.
Variable fordeling_type : string.
Variable custom_split : option Q.
Variable total_mnd_kostnad : Q.

(** The body of [for scenario_navn, scenario_rente in rente_scenarios]. *)
Definition scenario_rad (scenario : string * Q) : result ScenarioRad :=
  let scenario_navn := fst scenario in
  let scenario_rente := snd scenario in
  scenario_terminbelop <-
    Annuitet.beregn_terminbelop laanebelop scenario_rente nedbetalingstid ;;
  let scenario_rentekostnad := (laanebelop * (scenario_rente / 100)) / 12 in
  let scenario_skattefradrag := Belastning.beregn_skattefradrag scenario_rentekostnad in
  let scenario_total := scenario_terminbelop + felleskostnader in
  kostnad <- Fordeling.beregn_fordeling scenario_total brutto_aar_a brutto_aar_b
               fordeling_type custom_split ;;
  skattefradrag <- Fordeling.beregn_fordeling scenario_skattefradrag brutto_aar_a
                     brutto_aar_b fordeling_type custom_split ;;
  let endring_total := scenario_total - total_mnd_kostnad in
  let endring_prosent :=
    if Qlt_bool 0 total_mnd_kostnad
    then (endring_total / total_mnd_kostnad) * 100 else 0 in
  belastning_a <- Belastning.beregn_belastningsgrad (fst kostnad) netto_mnd_a ;;
  belastning_b <- Belastning.beregn_belastningsgrad (snd kostnad) netto_mnd_b ;;
  eff_a <- Belastning.beregn_effektiv_belastning (fst kostnad) netto_mnd_a
             (fst skattefradrag) ;;
  eff_b <- Belastning.beregn_effektiv_belastning (snd kostnad) netto_mnd_b
             (snd skattefradrag) ;;
  Ok (mkScenarioRad scenario_navn scenario_rente scenario_total endring_total
        endring_prosent (fst kostnad) (snd kostnad) belastning_a belastning_b
        eff_a eff_b).

Definition scenario_data (rente : Q) : result (list ScenarioRad) :=
  Renteprognose.for_alle scenario_rad (rente_scenarios rente).

End Tabell.

End Rentescenarier.

(** ** Stress test *)

Module Stresstest.

Local Open Scope string_scope.

(** A dict display: setting a key that is present replaces its value
    and keeps its place; a new key goes last. *)
Fixpoint dict_sett {V : Type} (d : list (string * V)) (key : string) (v : V)
    : list (string * V) :=
  match d with
  | [] => [(key, v)]
  | (k, w) :: d' =>
      if String.eqb k key then (k, v) :: d' else (k, w) :: dict_sett d' key v
  end.

Definition dict_fra {V : Type} (items : list (string * V)) : list (string * V) :=
  fold_left (fun d kv => dict_sett d (fst kv) (snd kv)) items [].

Record StressParams : Type := mkStressParams {
  inntekt_a : Q;
  inntekt_b : Q;
  rente : Q;
  beskrivelse : string
}.

(** The dict [stress_scenarios], keyed by the scenario names that the
    script builds from the two names. *)
Definition stress_scenarios (navn_a navn_b : string) (netto_mnd_a netto_mnd_b rente : Q)
    : list (string * StressParams) :=
  dict_fra
    [ ("✅ Normal situasjon",
       mkStressParams netto_mnd_a netto_mnd_b rente
         "Begge i full jobb, normal rente");
      ("⚠️ " ++ navn_a ++ " mister jobben",
       mkStressParams (py_min (netto_mnd_a * 0.6) 22000) netto_mnd_b rente
         ("Kun " ++ navn_b ++ " har inntekt"));
      ("⚠️ " ++ navn_b ++ " mister jobben",
       mkStressParams netto_mnd_a (py_min (netto_mnd_b * 0.6) 22000) rente
         ("Kun " ++ navn_a ++ " har inntekt"));
      ("⚠️ Begge mister jobben",
       mkStressParams (py_min (netto_mnd_a * 0.6) 22000)
         (py_min (netto_mnd_b * 0.6) 22000) rente
         "Begge uten jobb, dagpenger");
      ("🤒 " ++ navn_a ++ " langtidssykemeldt",
       mkStressParams (py_min (netto_mnd_a * 0.66) 22000) netto_mnd_b rente
         (navn_a ++ " på 66% sykepenger"));
      ("📈 Rentekrise (+3%)",
       mkStressParams netto_mnd_a netto_mnd_b (rente + 3)
         "Kraftig renteøkning");
      ("🔥 Perfekt storm",
       mkStressParams (py_min (netto_mnd_a * 0.6) 22000)
         (py_min (netto_mnd_b * 0.6) 22000) (rente + 2)
         "Reduserte inntekter + høyere rente") ].

(** One row of [stress_results]. *)
Record StressRad : Type := mkStressRad {
  Scenario : string;
  Beskrivelse : string;
  Total_inntekt : Q;
  Total_kostnad : Q;
  Skattefradrag : Q;
  Margin_foer_fradrag : Q;
  Margin_med_fradrag : Q;
  Status : string
}.

(** The body of [for scenario_navn, params in stress_scenarios.items()]. *)
Definition stress_rad (laanebelop : Q) (nedbetalingstid : Z) (felleskostnader : Q)
    (scenario : string * StressParams) : result StressRad :=
  let scenario_navn := fst scenario in
  let params := snd scenario in
  stress_terminbelop <-
    Annuitet.beregn_terminbelop laanebelop (rente params) nedbetalingstid ;;
  let stress_rentekostnad := (laanebelop * (rente params / 100)) / 12 in
  let stress_skattefradrag := Belastning.beregn_skattefradrag stress_rentekostnad in
  let stress_total := stress_terminbelop + felleskostnader in
  let stress_netto_a := inntekt_a params in
  let stress_netto_b := inntekt_b params in
  let total_netto := stress_netto_a + stress_netto_b in
  let total_netto_med_fradrag := total_netto + stress_skattefradrag in
  let kan_betale := Qle_bool stress_total total_netto in
  let margin := total_netto - stress_total in
  let margin_med_fradrag := total_netto_med_fradrag - stress_total in
  Ok (mkStressRad scenario_navn (beskrivelse params) total_netto stress_total
        stress_skattefradrag margin margin_med_fradrag
        (if kan_betale then "✅ OK" else "❌ KRITISK")).

Definition stress_results (laanebelop : Q) (nedbetalingstid : Z) (felleskostnader : Q)
    (scenarios : list (string * StressParams)) : result (list StressRad) :=
  Renteprognose.for_alle (stress_rad laanebelop nedbetalingstid felleskostnader)
    scenarios.

(** [sum(1 for r in stress_results if r['Margin før fradrag'] < 0)]. *)
Definition kritiske (rader : list StressRad) : nat :=
  List.length (filter (fun r => Qlt_bool (Margin_foer_fradrag r) 0) rader).

(** The three recommendations. *)
Inductive Anbefaling : Type :=
| Utmerket
| AkseptabelRisiko
| HoeyRisiko.

Definition anbefaling (rader : list StressRad) : Anbefaling :=
  if (kritiske rader =? 0)%nat then Utmerket
  else if (kritiske rader <=? 2)%nat then AkseptabelRisiko
  else HoeyRisiko.

End Stresstest.

(** ** Summary tab: milestones of the ownership development *)

Module Oversikt.

(** What the search for the half-way year ends in; [years[i]] past the
    end of [years] is an [IndexError]. *)
Inductive Halvveis : Type :=
| HalvveisAar (aar : Z)
| IkkeInnenPeriode
| IndexError.

(** [for i, nedbetalt in enumerate(total_nedbetalt)] with its [break];
    [years] is the part of the list of years from index [i] on. *)
Fixpoint halvveis_aar (years : list Z) (total_nedbetalt : list Q) (laanebelop : Q)
    : Halvveis :=
  match total_nedbetalt with
  | [] => IkkeInnenPeriode
  | nedbetalt :: rest =>
      if Qle_bool (laanebelop / 2) nedbetalt then
        match years with
        | aar :: _ => HalvveisAar aar
        | [] => IndexError
        end
      else halvveis_aar (tl years) rest laanebelop
  end.

End Oversikt.

(** ** Budget tab *)

Module Budsjett.

Local Open Scope string_scope.




Record Oversikt : Type := mkOversikt {
  total_utgifter_a : Q;
  total_utgifter_b : Q;
  disponibelt_etter_alt_a : Q;
  disponibelt_etter_alt_b : Q;
  spareevne_a : Q;
  spareevne_b : Q;
  total_netto : Q;
  total_utgifter : Q;
  total_disponibelt : Q;
  samlet_spareevne : Q
}.


End Budsjett.

(** ** Sale tab: the cash-flow chart *)

Module Pengestroem.

(** The loop that accumulates [y_values] into [cumulative]. *)
Fixpoint cumulative_loop (y_values : list Q) (running_total : Q) : list Q :=
  match y_values with
  | [] => []
  | val :: rest =>
      if negb (Qeq_bool val 0) then
        (running_total + val) :: cumulative_loop rest (running_total + val)
      else
        running_total :: cumulative_loop rest running_total
  end.

Definition y_values (d : Salg.Salgsdata) (fordelingsmodell : string) : list Q :=
  [ Salg.salgspris d; - Salg.salgskostnader d; - Salg.gjenstaaende_laan d; 0;
    - fst (Salg.utbetaling d fordelingsmodell);
    - snd (Salg.utbetaling d fordelingsmodell) ].

Definition cumulative (d : Salg.Salgsdata) (fordelingsmodell : string) : list Q :=
  cumulative_loop (y_values d fordelingsmodell) 0.

End Pengestroem.

(** ** Extra repayment tab *)

Module Ekstra.

Local Open Scope string_scope.

Record Effekt : Type := mkEffekt {
  total_ekstra_a : Q;
  total_ekstra_b : Q;
  total_ekstra : Q;
  rentesparing : Q;
  ny_nedbetalingstid : Q;
  roi : Q
}.

(** The effect of the extra repayments as the tab estimates it. *)
Definition effekt (laanebelop rente : Q) (nedbetalingstid ekstra_nedbetaling_aar : Z)
    (ekstra_per_mnd_a ekstra_per_mnd_b : Q) : result Effekt :=
  let total_ekstra_a := ekstra_per_mnd_a * 12 * inject_Z ekstra_nedbetaling_aar in
  let total_ekstra_b := ekstra_per_mnd_b * 12 * inject_Z ekstra_nedbetaling_aar in
  let total_ekstra := total_ekstra_a + total_ekstra_b in
  let gjennomsnittlig_gjenstaaende := laanebelop * 0.6 in
  andel <- py_div total_ekstra laanebelop ;;
  let rentesparing :=
    gjennomsnittlig_gjenstaaende * (rente / 100) * inject_Z ekstra_nedbetaling_aar
    * andel in
  forhold <- py_div laanebelop (laanebelop + total_ekstra) ;;
  let ny_nedbetalingstid := inject_Z nedbetalingstid * forhold in
  let roi :=
    if Qlt_bool 0 total_ekstra then rentesparing / total_ekstra * 100 else 0 in
  Ok (mkEffekt total_ekstra_a total_ekstra_b total_ekstra rentesparing
        ny_nedbetalingstid roi).

(** Model A: the new ownership shares, [(ny_eierandel_a, ny_eierandel_b)]. *)
Definition ny_eierandel (laanebelop : Q) (nedbetalingstid ekstra_nedbetaling_aar : Z)
    (fordeling_type : string) (kostnad_a kostnad_b : Q)
    (egenkapital_a egenkapital_b boligpris total_ekstra_a total_ekstra_b : Q)
    : result (Q * Q) :=
  aarlig <- py_div laanebelop (inject_Z nedbetalingstid) ;;
  let normal_nedbetaling_a := aarlig * inject_Z ekstra_nedbetaling_aar * 0.5 in
  let normal_nedbetaling_b := aarlig * inject_Z ekstra_nedbetaling_aar * 0.5 in
  let normal :=
    if String.eqb fordeling_type "Proporsjonal etter inntekt" then
      let andel :=
        if Qlt_bool 0 (kostnad_a + kostnad_b)
        then kostnad_a / (kostnad_a + kostnad_b) else 0.5 in
      (normal_nedbetaling_a * (andel / 0.5), normal_nedbetaling_b * ((1 - andel) / 0.5))
    else (normal_nedbetaling_a, normal_nedbetaling_b) in
  let total_investert_inkl_ekstra_a := egenkapital_a + fst normal + total_ekstra_a in
  let total_investert_inkl_ekstra_b := egenkapital_b + snd normal + total_ekstra_b in
  andel_a <- py_div total_investert_inkl_ekstra_a boligpris ;;
  andel_b <- py_div total_investert_inkl_ekstra_b boligpris ;;
  Ok (andel_a * 100, andel_b * 100).

End Ekstra.

(** ** Quick saves *)

Module Rasklagring.

Record QuickSave : Type := mkQuickSave {
  navn : string;
  tid : string;
  boligpris : Q;
  rente : Q;
  kostnad : Q
}.

(** The button "Rask-lagre": nothing happens without a name; otherwise
    the save is appended and, past five, the oldest is popped. *)
Definition rask_lagre (quick_saves : list QuickSave) (quick_save : QuickSave)
    : list QuickSave :=
  match navn quick_save with
  | EmptyString => quick_saves
  | _ =>
      let quick_saves := quick_saves ++ [quick_save] in
      if (5 <? List.length quick_saves)%nat then tl quick_saves else quick_saves
  end.

(** The button "Tøm alle". *)
Definition toem_alle (quick_saves : list QuickSave) : list QuickSave := [].

Inductive Knapp : Type :=
| RaskLagre (quick_save : QuickSave)
| ToemAlle.

Definition trykk (quick_saves : list QuickSave) (k : Knapp) : list QuickSave :=
  match k with
  | RaskLagre q => rask_lagre quick_saves q
  | ToemAlle => toem_alle quick_saves
  end.

(** The session: the list starts empty, then the buttons are pressed. *)
Definition sesjon (knapper : list Knapp) : list QuickSave :=
  fold_left trykk knapper [].

End Rasklagring.

(** * Properties *)

(** ** The tests of the arithmetic model *)

Lemma Qlt_bool_iff (x y : Q) : Qlt_bool x y = true <-> x < y.
Proof.
  unfold Qlt_bool. rewrite negb_true_iff.
  split; intro H.
  - apply Qnot_le_lt. intro Hle. apply Qle_bool_iff in Hle. congruence.
  - destruct (Qle_bool y x) eqn:E; [|reflexivity].
    apply Qle_bool_iff in E. exfalso. apply (Qlt_not_le _ _ H E).
Qed.

Lemma Qlt_bool_false_iff (x y : Q) : Qlt_bool x y = false <-> y <= x.
Proof.
  unfold Qlt_bool. rewrite negb_false_iff. apply Qle_bool_iff.
Qed.

Lemma Qle_bool_false_iff (x y : Q) : Qle_bool x y = false <-> y < x.
Proof.
  rewrite <- Qlt_bool_iff. unfold Qlt_bool.
  destruct (Qle_bool x y); simpl; split; congruence.
Qed.

Lemma Qeq_bool_false_iff (x y : Q) : Qeq_bool x y = false <-> ~ x == y.
Proof.
  split.
  - intros H E. apply Qeq_bool_iff in E. congruence.
  - intro H. destruct (Qeq_bool x y) eqn:E; [|reflexivity].
    apply Qeq_bool_iff in E. contradiction.
Qed.

Lemma py_div_ok (x y : Q) : ~ y == 0 -> py_div x y = Ok (x / y).
Proof.
  intro H. unfold py_div. apply Qeq_bool_false_iff in H. now rewrite H.
Qed.

Lemma py_div_zero (x y : Q) : y == 0 -> py_div x y = Raise ZeroDivisionError.
Proof.
  intro H. unfold py_div. apply Qeq_bool_iff in H. now rewrite H.
Qed.

Lemma py_max_0 (x : Q) : py_max 0 x == Qmax 0 x.
Proof.
  unfold py_max. destruct (Qlt_bool 0 x) eqn:E.
  - apply Qlt_bool_iff in E. symmetry. apply Q.max_r. now apply Qlt_le_weak.
  - apply Qlt_bool_false_iff in E. symmetry. now apply Q.max_l.
Qed.

Lemma py_min_le_l (a b : Q) : py_min a b <= a.
Proof.
  unfold py_min. destruct (Qlt_bool b a) eqn:E.
  - apply Qlt_bool_iff in E. now apply Qlt_le_weak.
  - apply Qle_refl.
Qed.

Lemma py_min_le_r (a b : Q) : py_min a b <= b.
Proof.
  unfold py_min. destruct (Qlt_bool b a) eqn:E.
  - apply Qle_refl.
  - now apply Qlt_bool_false_iff in E.
Qed.

Lemma py_min_glb (a b c : Q) : c <= a -> c <= b -> c <= py_min a b.
Proof.
  intros Ha Hb. unfold py_min. now destruct (Qlt_bool b a).
Qed.

(** ** Cost allocator *)

Section FordelingProps.

Import Fordeling.
Local Open Scope string_scope.

Variables total_kostnad inntekt_a inntekt_b : Q.

Lemma beregn_fordeling_lik (custom_split : option Q) :
  beregn_fordeling total_kostnad inntekt_a inntekt_b "50/50" custom_split
  = Ok (total_kostnad / 2, total_kostnad / 2).
Proof. reflexivity. Qed.

Lemma beregn_fordeling_uten_inntekt (custom_split : option Q) :
  inntekt_a + inntekt_b == 0 ->
  beregn_fordeling total_kostnad inntekt_a inntekt_b
    "Proporsjonal etter inntekt" custom_split = Ok (0, 0).
Proof.
  intro H. unfold beregn_fordeling. simpl.
  apply Qeq_bool_iff in H. now rewrite H.
Qed.


(** C9.  A policy string that is none of the three known ones raises no
    error: the function falls through to the equal split. *)
Theorem beregn_fordeling_fallback (fordeling_type : string) (custom_split : option Q) :
  fordeling_type <> "50/50" ->
  fordeling_type <> "Proporsjonal etter inntekt" ->
  fordeling_type <> "Egendefinert" ->
  beregn_fordeling total_kostnad inntekt_a inntekt_b fordeling_type custom_split
  = Ok (total_kostnad / 2, total_kostnad / 2).
Proof.
  intros N1 N2 N3. unfold beregn_fordeling.
  apply String.eqb_neq in N1, N2, N3. now rewrite N1, N2, N3.
Qed.

End FordelingProps.



Lemma beregn_fordeling_fallback_witness :
  Fordeling.beregn_fordeling 21500 37900 58500 "Etter avtale" None
  = Ok (21500 / 2, 21500 / 2).
Proof.
  apply beregn_fordeling_fallback; intro H; discriminate H.
Defined.

(** ** Annuity engine *)

Section AnnuitetProps.

Import Annuitet.

Lemma maanedlig_rente_pos (rente : Q) : 0 < rente -> 0 < rente / 100 / 12.
Proof.
  intro H. unfold Qdiv. repeat apply Qmult_lt_0_compat; try assumption; reflexivity.
Qed.

Lemma maanedlig_rente_zero (rente : Q) : rente == 0 -> rente / 100 / 12 == 0.
Proof. intro H. rewrite H. reflexivity. Qed.

Lemma rente_cases (rente : Q) :
  0 <= rente -> Qeq_bool rente 0 = false -> 0 < rente.
Proof.
  intros H0 E. apply Qeq_bool_false_iff in E.
  apply Qlt_leneq. split; [assumption|]. intro H. apply E. now symmetry.
Qed.

(** Whatever [beregn_terminbelop] returns is the value of the formula. *)
Lemma beregn_terminbelop_formula (laan rente : Q) (n : Z) (v : Q) :
  beregn_terminbelop laan rente n = Ok v ->
  v = computeFixedPayment_spec laan rente n.
Proof.
  unfold beregn_terminbelop, computeFixedPayment_spec, py_div, py_pow.
  destruct (Qeq_bool rente 0).
  - destruct (Qeq_bool (inject_Z (n * 12)) 0); intro H; now inversion H.
  - destruct (Qeq_bool (1 + rente / 100 / 12) 0 && (n * 12 <? 0)%Z); simpl;
      [discriminate|].
    destruct (Qeq_bool ((1 + rente / 100 / 12) ^ (n * 12) - 1) 0);
      intro H; now inversion H.
Qed.

(** On a positive term and a rate that is not negative it does return. *)
Lemma beregn_terminbelop_returns (laan rente : Q) (n : Z) :
  0 <= rente -> (0 < n)%Z ->
  beregn_terminbelop laan rente n = Ok (computeFixedPayment_spec laan rente n).
Proof.
  intros Hr Hn.
  unfold beregn_terminbelop, computeFixedPayment_spec.
  destruct (Qeq_bool rente 0) eqn:E.
  - apply py_div_ok. intro H.
    assert (inject_Z 0 < inject_Z (n * 12)) as Hpos
      by (rewrite <- Zlt_Qlt; lia).
    rewrite H in Hpos. now apply Qlt_irrefl in Hpos.
  - pose proof (maanedlig_rente_pos _ (rente_cases _ Hr E)) as Hm.
    unfold py_pow.
    replace (n * 12 <? 0)%Z with false by (symmetry; apply Z.ltb_ge; lia).
    rewrite andb_false_r. simpl.
    apply py_div_ok. intro H.
    assert (1 < (1 + rente / 100 / 12) ^ (n * 12)) as Hpow
      by (apply Qpower_1_lt; [lra | lia]).
    lra.
Qed.

(** A term of zero years is a division by zero, whatever the rate. *)
Lemma beregn_terminbelop_null (laan rente : Q) :
  beregn_terminbelop laan rente 0 = Raise ZeroDivisionError.
Proof.
  unfold beregn_terminbelop. destruct (Qeq_bool rente 0); [reflexivity|].
  unfold py_pow. simpl (0 * 12 <? 0)%Z. rewrite andb_false_r. simpl.
  reflexivity.
Qed.

(** A negative term is not refused: the formula is evaluated at it. *)
Lemma beregn_terminbelop_negativ (laan rente : Q) (n : Z) :
  0 <= rente -> (n < 0)%Z ->
  beregn_terminbelop laan rente n = Ok (computeFixedPayment_spec laan rente n).
Proof.
  intros Hr Hn.
  unfold beregn_terminbelop, computeFixedPayment_spec.
  destruct (Qeq_bool rente 0) eqn:E.
  - apply py_div_ok. intro H.
    assert (inject_Z (n * 12) < inject_Z 0) as Hneg
      by (rewrite <- Zlt_Qlt; lia).
    rewrite H in Hneg. now apply Qlt_irrefl in Hneg.
  - pose proof (maanedlig_rente_pos _ (rente_cases _ Hr E)) as Hm.
    unfold py_pow.
    replace (Qeq_bool (1 + rente / 100 / 12) 0) with false
      by (symmetry; apply Qeq_bool_false_iff; lra).
    simpl.
    apply py_div_ok. intro H.
    set (q := 1 + rente / 100 / 12) in *.
    assert (1 < q ^ (- (n * 12))) as Hpow
      by (apply Qpower_1_lt; [unfold q; lra | lia]).
    rewrite Qpower_opp in Hpow.
    assert (q ^ (n * 12) == 1) as H1 by lra.
    rewrite H1 in Hpow. now apply Qlt_irrefl in Hpow.
Qed.

(** *** The loop of the plan *)

Lemma plan_loop_step (T mr : Q) (igjen : nat) (mnd : Z) (g : Q) :
  0 < g ->
  plan_loop T mr (S igjen) mnd g
  = mkPlanRad (mnd / 12 + 1)%Z (mnd mod 12 + 1)%Z T (g * mr) (T - g * mr)
      (py_max 0 (g - (T - g * mr)))
      (g * mr * SKATTESATS_RENTEFRADRAG)
      (T - g * mr * SKATTESATS_RENTEFRADRAG)
    :: plan_loop T mr igjen (mnd + 1)%Z (g - (T - g * mr)).
Proof.
  intro Hg. simpl. apply Qle_bool_false_iff in Hg. now rewrite Hg.
Qed.

Lemma plan_loop_stop (T mr : Q) (igjen : nat) (mnd : Z) (g : Q) :
  g <= 0 -> plan_loop T mr igjen mnd g = [].
Proof.
  intro Hg. destruct igjen; [reflexivity|].
  simpl. apply Qle_bool_iff in Hg. now rewrite Hg.
Qed.

Lemma inject_Z_succ (m : nat) :
  inject_Z (Z.of_nat (S m)) == inject_Z (Z.of_nat m) + 1.
Proof.
  rewrite Nat2Z.inj_succ, <- Z.add_1_r, inject_Z_plus. reflexivity.
Qed.

Lemma Qpower_succ (q : Q) (m : nat) :
  q ^ Z.of_nat (S m) == q * q ^ Z.of_nat m.
Proof.
  rewrite Nat2Z.inj_succ, <- Z.add_1_r.
  destruct m as [|m].
  - simpl. ring.
  - rewrite Qpower_plus' by lia. rewrite Qpower_1_r. ring.
Qed.

(** Rate zero: with [m] payments of [T] left the balance is [m * T]; the
    loop then runs exactly [m] times and repays the balance. *)
Lemma plan_loop_rentefri (T mr : Q) :
  mr == 0 -> 0 < T ->
  forall (m : nat) (mnd : Z) (g : Q),
    g == T * inject_Z (Z.of_nat m) ->
    List.length (plan_loop T mr m mnd g) = m
    /\ Qsum (map Avdrag (plan_loop T mr m mnd g)) == g.
Proof.
  intros Hmr HT. induction m as [|m IH]; intros mnd g Hg.
  - simpl. split; [reflexivity|]. rewrite Hg. simpl. ring.
  - rewrite inject_Z_succ in Hg.
    assert (0 <= inject_Z (Z.of_nat m)) as Hm
      by (change 0 with (inject_Z 0); rewrite <- Zle_Qle; lia).
    assert (0 < g) as Hpos by (rewrite Hg; nra).
    rewrite plan_loop_step by assumption.
    destruct (IH (mnd + 1)%Z (g - (T - g * mr))) as [Hlen Hsum].
    { rewrite Hg, Hmr. ring. }
    split.
    + simpl. now rewrite Hlen.
    + simpl. rewrite Hsum. ring.
Qed.

(** Positive rate: with [m] payments of [T] left the balance [g] is
    their present value, [g * mr * (1+mr)^m = T * ((1+mr)^m - 1)]; the
    loop then runs exactly [m] times and repays the balance. *)
Lemma plan_loop_annuitet (T mr : Q) :
  0 < mr -> 0 < T ->
  forall (m : nat) (mnd : Z) (g : Q),
    g * mr * (1 + mr) ^ Z.of_nat m == T * ((1 + mr) ^ Z.of_nat m - 1) ->
    List.length (plan_loop T mr m mnd g) = m
    /\ Qsum (map Avdrag (plan_loop T mr m mnd g)) == g.
Proof.
  intros Hmr HT. induction m as [|m IH]; intros mnd g Hg.
  - simpl in *. split; [reflexivity|].
    assert (g * mr == 0) as H0 by lra.
    apply Qmult_integral in H0. destruct H0 as [H0|H0]; [now rewrite H0|lra].
  - rewrite Qpower_succ in Hg.
    assert (1 <= (1 + mr) ^ Z.of_nat m) as HX
      by (apply Qpower_1_le; [lra | lia]).
    set (X := (1 + mr) ^ Z.of_nat m) in *.
    assert (0 < mr * X) as HmX by (apply Qmult_lt_0_compat; lra).
    assert (0 < (1 + mr) * X - 1) as Hvekst
      by (setoid_replace ((1 + mr) * X - 1) with (X - 1 + mr * X) by ring; lra).
    assert (0 < g) as Hpos.
    { apply Qnot_le_lt. intro Hle.
      pose proof (Qmult_lt_0_compat _ _ HT Hvekst) as H1.
      assert (0 <= (- g) * (mr * ((1 + mr) * X))) as H2.
      { apply Qmult_le_0_compat; [lra|].
        apply Qmult_le_0_compat; lra. }
      lra. }
    rewrite plan_loop_step by assumption.
    destruct (IH (mnd + 1)%Z (g - (T - g * mr))) as [Hlen Hsum].
    { fold X. lra. }
    split.
    + simpl. now rewrite Hlen.
    + simpl. rewrite Hsum. ring.
Qed.

(** What each row records, relative to the balance the iteration starts
    from. *)
Lemma plan_loop_rad (T mr : Q) (m : nat) (mnd : Z) (g : Q) (t : nat) (rad : PlanRad) :
  nth_error (plan_loop T mr m mnd g) t = Some rad ->
  let foer := gjenstaaende_foer g (plan_loop T mr m mnd g) t in
  0 < foer
  /\ Terminbelop rad = T
  /\ Renter rad = foer * mr
  /\ Avdrag rad = T - Renter rad
  /\ Gjenstaaende rad = py_max 0 (foer - Avdrag rad).
Proof.
  revert mnd g t. induction m as [|m IH]; intros mnd g t Hnth.
  - simpl in Hnth. destruct t; discriminate Hnth.
  - destruct (Qle_bool g 0) eqn:E.
    + apply Qle_bool_iff in E. rewrite plan_loop_stop in Hnth by assumption.
      destruct t; discriminate Hnth.
    + apply Qle_bool_false_iff in E.
      rewrite plan_loop_step in * by assumption.
      destruct t as [|t].
      * simpl in Hnth. inversion Hnth; subst rad; clear Hnth. simpl.
        repeat split; try reflexivity; assumption.
      * simpl in Hnth. specialize (IH _ _ _ Hnth). simpl in IH.
        replace (gjenstaaende_foer g (_ :: plan_loop T mr m (mnd + 1)%Z
                   (g - (T - g * mr))) (S t))
          with (gjenstaaende_foer (g - (T - g * mr))
                  (plan_loop T mr m (mnd + 1)%Z (g - (T - g * mr))) t);
          [exact IH|].
        destruct t as [|t]; [|reflexivity].
        simpl. destruct IH as [Hpos _]. simpl in Hpos.
        unfold py_max. apply Qlt_bool_iff in Hpos. now rewrite Hpos.
Qed.

(** C4.  For a positive loan, a rate that is not negative and a positive
    term, the plan built over the full term is returned, has exactly
    twelve rows per year of the term, and its instalments add up to the
    loan (in exact arithmetic, so within every tolerance). *)
Theorem amortiseringsplan_full_term (laan rente : Q) (n : Z) :
  0 < laan -> 0 <= rente -> (0 < n)%Z ->
  exists plan,
    beregn_amortiseringsplan laan rente n (Some n) = Ok plan
    /\ List.length plan = Z.to_nat (n * 12)
    /\ Qsum (map Avdrag plan) == laan.
Proof.
  intros Hl Hr Hn.
  unfold beregn_amortiseringsplan.
  rewrite beregn_terminbelop_returns by assumption. simpl bind.
  eexists. split; [reflexivity|].
  assert (Z.of_nat (Z.to_nat (n * 12)) = (n * 12)%Z) as HN by (apply Z2Nat.id; lia).
  assert (inject_Z 0 < inject_Z (n * 12)) as HnQ by (rewrite <- Zlt_Qlt; lia).
  unfold computeFixedPayment_spec.
  destruct (Qeq_bool rente 0) eqn:E.
  - apply Qeq_bool_iff in E.
    apply plan_loop_rentefri.
    + now apply maanedlig_rente_zero.
    + apply Qlt_shift_div_l; [exact HnQ | lra].
    + rewrite HN. field. intro H. rewrite H in HnQ. now apply Qlt_irrefl in HnQ.
  - pose proof (maanedlig_rente_pos _ (rente_cases _ Hr E)) as Hm.
    set (mr := rente / 100 / 12) in *.
    assert (1 < (1 + mr) ^ (n * 12)) as Hpow by (apply Qpower_1_lt; [lra | lia]).
    apply plan_loop_annuitet.
    + exact Hm.
    + apply Qlt_shift_div_l; [lra|].
      setoid_replace (0 * ((1 + mr) ^ (n * 12) - 1)) with 0 by ring.
      apply Qmult_lt_0_compat; [exact Hl|].
      apply Qmult_lt_0_compat; lra.
    + rewrite HN. field. lra.
Qed.

(** C5.  In every row of a plan the program returns, the interest is
    the balance the month starts from times the monthly rate, the
    recorded balance is that balance less the instalment, floored at
    zero, and instalment plus interest is the fixed payment; the balance
    a month starts from is the loan in the first row and the recorded
    balance of the row before in the others. *)
Theorem amortiseringsplan_rad (laan rente : Q) (n : Z) (antall_aar : option Z)
    (plan : list PlanRad) (t : nat) (rad : PlanRad) :
  beregn_amortiseringsplan laan rente n antall_aar = Ok plan ->
  nth_error plan t = Some rad ->
  let foer := gjenstaaende_foer laan plan t in
  Renter rad == foer * (rente / 100 / 12)
  /\ Gjenstaaende rad == Qmax 0 (foer - Avdrag rad)
  /\ Avdrag rad + Renter rad == Terminbelop rad
  /\ beregn_terminbelop laan rente n = Ok (Terminbelop rad).
Proof.
  unfold beregn_amortiseringsplan.
  destruct (beregn_terminbelop laan rente n) as [T|e] eqn:ET; simpl bind;
    [|discriminate].
  intros Hplan Hnth. inversion Hplan; subst plan; clear Hplan.
  destruct (plan_loop_rad _ _ _ _ _ _ _ Hnth) as (_ & HT & HR & HA & HG).
  simpl. rewrite HG, HA, HR, HT.
  repeat split; try reflexivity.
  - apply py_max_0.
  - ring.
Qed.

(** C6.  Whatever [beregn_terminbelop] returns is the value the
    specification gives: principal / (termYears*12) at rate zero, the
    annuity formula otherwise; it does return for a positive term and a
    rate that is not negative.  For a loan of 3 200 000 at 4.99 % over 25
    years the payment is within one krone of 18 688, and the first month
    of the plan has interest within one krone of 13 307 and instalment
    within one krone of 5 381. *)
Theorem beregn_terminbelop_annuitetsformel :
  (forall laan rente n v,
      beregn_terminbelop laan rente n = Ok v ->
      v = computeFixedPayment_spec laan rente n)
  /\ (forall laan rente n,
      0 <= rente -> (0 < n)%Z ->
      beregn_terminbelop laan rente n = Ok (computeFixedPayment_spec laan rente n))
  /\ (exists terminbelop plan rad,
      beregn_terminbelop 3200000 4.99 25 = Ok terminbelop
      /\ 18687 < terminbelop < 18689
      /\ beregn_amortiseringsplan 3200000 4.99 25 None = Ok plan
      /\ nth_error plan 0 = Some rad
      /\ Terminbelop rad = terminbelop
      /\ 13306 < Renter rad < 13308
      /\ 5380 < Avdrag rad < 5382).
Proof.
  split; [exact beregn_terminbelop_formula|].
  split; [exact beregn_terminbelop_returns|].
  assert (beregn_terminbelop 3200000 4.99 25
          = Ok (computeFixedPayment_spec 3200000 4.99 25)) as HT
    by (apply beregn_terminbelop_returns; [discriminate | reflexivity]).
  set (T := computeFixedPayment_spec 3200000 4.99 25) in *.
  assert (18688 < T < 37377 # 2) as HTb by (split; vm_compute; reflexivity).
  exists T.
  exists (plan_loop T (4.99 / 100 / 12) 120 0 3200000).
  eexists.
  split; [exact HT|].
  split; [destruct HTb; split; lra|].
  split; [unfold beregn_amortiseringsplan; rewrite HT; reflexivity|].
  split; [rewrite plan_loop_step by reflexivity; reflexivity|].
  simpl Terminbelop. simpl Renter. simpl Avdrag.
  split; [reflexivity|].
  assert (3200000 * (4.99 / 100 / 12) == 39920 # 3) as HR by reflexivity.
  rewrite HR.
  destruct HTb as [H1 H2].
  assert (13306 < 39920 # 3 < 13307) as [H3 H4] by (split; reflexivity).
  split; split; lra.
Qed.

(** C7, as amended.  A term of zero years makes [beregn_terminbelop]
    fail with a division by zero, whatever the loan and the rate.  A
    negative term is not refused: for every rate that is not negative
    the function returns the value of the formula at that term (at rate
    zero, the loan divided by the negative number of months). *)
Theorem beregn_terminbelop_ugyldig_tid :
  (forall laan rente, beregn_terminbelop laan rente 0 = Raise ZeroDivisionError)
  /\ (forall laan rente n,
      0 <= rente -> (n < 0)%Z ->
      beregn_terminbelop laan rente n = Ok (computeFixedPayment_spec laan rente n)).
Proof.
  split; [exact beregn_terminbelop_null | exact beregn_terminbelop_negativ].
Qed.

End AnnuitetProps.

Lemma amortiseringsplan_rad_witness :
  exists plan rad,
    Annuitet.beregn_amortiseringsplan 1200 0 1 (Some 1%Z) = Ok plan
    /\ nth_error plan 1 = Some rad
    /\ Annuitet.Renter rad
       == Annuitet.gjenstaaende_foer 1200 plan 1 * (0 / 100 / 12)
    /\ Annuitet.Avdrag rad + Annuitet.Renter rad == Annuitet.Terminbelop rad.
Proof.
  set (plan := Annuitet.plan_loop (1200 / inject_Z (1 * 12)) (0 / 100 / 12) 12 0 1200).
  assert (Annuitet.beregn_amortiseringsplan 1200 0 1 (Some 1%Z) = Ok plan) as H1
    by reflexivity.
  assert (exists rad, nth_error plan 1 = Some rad) as [rad H2]
    by (eexists; reflexivity).
  destruct (amortiseringsplan_rad 1200 0 1 (Some 1%Z) plan 1 rad H1 H2)
    as (HR & _ & HS & _).
  exists plan, rad. repeat split; assumption.
Defined.

Lemma beregn_terminbelop_annuitetsformel_witness :
  Annuitet.beregn_terminbelop 1200 0 1
  = Ok (Annuitet.computeFixedPayment_spec 1200 0 1).
Proof.
  apply (proj1 (proj2 beregn_terminbelop_annuitetsformel));
    [discriminate | reflexivity].
Defined.

(** C7, the claim as stated fails: a term of minus one year at rate zero
    returns the finite payment -100 for a loan of 1200. *)
Lemma beregn_terminbelop_ugyldig_tid_counterexample :
  (-1 <= 0)%Z
  /\ exists v, Annuitet.beregn_terminbelop 1200 0 (-1) = Ok v /\ v == -100.
Proof.
  split; [lia|]. eexists. split; reflexivity.
Qed.

Lemma beregn_terminbelop_ugyldig_tid_witness :
  Annuitet.beregn_terminbelop 1200 (5 # 2) (-1)
  = Ok (Annuitet.computeFixedPayment_spec 1200 (5 # 2) (-1)).
Proof.
  apply (proj2 beregn_terminbelop_ugyldig_tid); [discriminate | reflexivity].
Defined.

Lemma amortiseringsplan_full_term_witness :
  exists plan,
    Annuitet.beregn_amortiseringsplan 1200 0 1 (Some 1%Z) = Ok plan
    /\ List.length plan = 12%nat
    /\ Qsum (map Annuitet.Avdrag plan) == 1200.
Proof.
  apply (amortiseringsplan_full_term 1200 0 1); [reflexivity | discriminate | reflexivity].
Defined.

(** ** Rate forecast generator *)

Section RenteprognoseProps.

Import Renteprognose.
Local Open Scope string_scope.

(** C10.  For the three table-based policies the forecast is one fixed
    table of ten (year, rate) rows, the same for every base rate; each
    of the three legacy policies does depend on the base rate: base
    rates 3 and 4 already give different rates for the first year. *)
Theorem generer_renteprognose_basis_rente (prognose_type : string) :
  (In prognose_type ["norges_bank"; "optimistisk"; "pessimistisk"] ->
   exists tabell,
     List.length (kol_Aar tabell) = 10%nat
     /\ List.length (kol_Rente tabell) = 10%nat
     /\ forall basis_rente,
         generer_renteprognose basis_rente prognose_type = Ok tabell)
  /\ (In prognose_type ["lav"; "moderat"; "høy"] ->
      exists tabell_3 tabell_4,
        generer_renteprognose 3 prognose_type = Ok tabell_3
        /\ generer_renteprognose 4 prognose_type = Ok tabell_4
        /\ kol_Aar tabell_3 = kol_Aar tabell_4
        /\ ~ nth 0 (kol_Rente tabell_3) 0 == nth 0 (kol_Rente tabell_4) 0).
Proof.
  split; intro Hin; simpl in Hin.
  - destruct Hin as [H|[H|[H|[]]]]; subst prognose_type;
      eexists; (split; [|split; [|intro basis_rente; lazy; reflexivity]]);
      reflexivity.
  - destruct Hin as [H|[H|[H|[]]]]; subst prognose_type;
      do 2 eexists; (split; [lazy; reflexivity|]);
      (split; [lazy; reflexivity|]); (split; [reflexivity|]);
      intro H; discriminate H.
Qed.

End RenteprognoseProps.

Lemma generer_renteprognose_basis_rente_witness :
  Renteprognose.generer_renteprognose 4.99 "norges_bank"
  = Renteprognose.generer_renteprognose 7 "norges_bank".
Proof.
  destruct (proj1 (generer_renteprognose_basis_rente "norges_bank"))
    as (tabell & _ & _ & H).
  - left. reflexivity.
  - now rewrite (H 4.99), (H 7).
Defined.

(** ** Ownership share over time *)

Section EierandelProps.

Import Eierandel.
Local Open Scope string_scope.

(** The entries of the two ownership lists are the loop body's values at
    their index. *)
Lemma utvikling_loop_nth (laanebelop aarlig_avdrag ia ib la lb : Q)
    (years : list Z) :
  forall (i : Z) (t : nat), (t < List.length years)%nat ->
    nth t (eierandel_a_over_tid
             (utvikling_loop laanebelop aarlig_avdrag ia ib la lb years i)) 0
    = eierandel_ved laanebelop aarlig_avdrag ia la (i + Z.of_nat t)
    /\ nth t (eierandel_b_over_tid
                (utvikling_loop laanebelop aarlig_avdrag ia ib la lb years i)) 0
       = eierandel_ved laanebelop aarlig_avdrag ib lb (i + Z.of_nat t).
Proof.
  induction years as [|year years IH]; intros i t Ht; simpl in Ht; [lia|].
  destruct t as [|t].
  - rewrite Z.add_0_r. unfold eierandel_ved, prosent_nedbetalt_ved. simpl.
    destruct (i =? 0)%Z; simpl; split; reflexivity.
  - replace (i + Z.of_nat (S t))%Z with ((i + 1) + Z.of_nat t)%Z by lia.
    destruct (IH (i + 1)%Z t ltac:(lia)) as [Ha Hb].
    simpl. destruct (i =? 0)%Z; simpl; split; assumption.
Qed.

Lemma utvikling_loop_length (laanebelop aarlig_avdrag ia ib la lb : Q)
    (years : list Z) (i : Z) :
  List.length (eierandel_a_over_tid
                 (utvikling_loop laanebelop aarlig_avdrag ia ib la lb years i))
  = List.length years
  /\ List.length (eierandel_b_over_tid
                    (utvikling_loop laanebelop aarlig_avdrag ia ib la lb years i))
     = List.length years.
Proof.
  revert i. induction years as [|year years IH]; intro i; [split; reflexivity|].
  destruct (IH (i + 1)%Z) as [Ha Hb].
  simpl. destruct (i =? 0)%Z; simpl; split; congruence.
Qed.

Lemma py_range_length (lo : Z) (n : nat) : List.length (py_range lo n) = n.
Proof.
  revert lo. induction n as [|n IH]; intro lo; simpl; [reflexivity|].
  now rewrite IH.
Qed.

(** The repaid share of the loan lies between 0 and 1 and does not
    decrease from one year to the next. *)
Lemma prosent_nedbetalt_grenser (laanebelop aarlig_avdrag : Q) (i : Z) :
  0 <= aarlig_avdrag -> (0 <= i)%Z ->
  0 <= prosent_nedbetalt_ved laanebelop aarlig_avdrag i <= 1.
Proof.
  intros Ha Hi. unfold prosent_nedbetalt_ved.
  destruct (Qlt_bool 0 laanebelop) eqn:E; [|split; discriminate].
  apply Qlt_bool_iff in E.
  assert (inject_Z 0 <= inject_Z i) as HiQ by (rewrite <- Zle_Qle; lia).
  assert (0 <= aarlig_avdrag * inject_Z i) as Hp
    by (apply Qmult_le_0_compat; assumption).
  split.
  - apply Qle_shift_div_l; [assumption|].
    setoid_replace (0 * laanebelop) with 0 by ring.
    apply py_min_glb; [assumption | now apply Qlt_le_weak].
  - apply Qle_shift_div_r; [assumption|].
    setoid_replace (1 * laanebelop) with laanebelop by ring.
    apply py_min_le_r.
Qed.

Lemma prosent_nedbetalt_voksende (laanebelop aarlig_avdrag : Q) (i : Z) :
  0 <= aarlig_avdrag -> (0 <= i)%Z ->
  prosent_nedbetalt_ved laanebelop aarlig_avdrag i
  <= prosent_nedbetalt_ved laanebelop aarlig_avdrag (i + 1).
Proof.
  intros Ha Hi. unfold prosent_nedbetalt_ved.
  destruct (Qlt_bool 0 laanebelop) eqn:E; [|apply Qle_refl].
  apply Qlt_bool_iff in E.
  apply Qle_shift_div_l; [assumption|].
  setoid_replace (py_min (aarlig_avdrag * inject_Z i) laanebelop / laanebelop
                  * laanebelop)
    with (py_min (aarlig_avdrag * inject_Z i) laanebelop) by (field; lra).
  apply py_min_glb; [|apply py_min_le_r].
  apply Qle_trans with (aarlig_avdrag * inject_Z i); [apply py_min_le_l|].
  rewrite inject_Z_plus.
  setoid_replace (aarlig_avdrag * (inject_Z i + inject_Z 1))
    with (aarlig_avdrag * inject_Z i + aarlig_avdrag) by ring.
  lra.
Qed.

(** The share of the instalments attributed to A is a fraction. *)
Lemma avdrag_andel_grenser (fordeling_type : string) (kostnad_a kostnad_b : Q)
    (custom_split : option Q) :
  0 <= kostnad_a -> 0 <= kostnad_b ->
  (forall c, custom_split = Some c -> 0 <= c <= 100) ->
  0 <= avdrag_andel fordeling_type kostnad_a kostnad_b custom_split <= 1.
Proof.
  intros Hka Hkb Hc. unfold avdrag_andel.
  destruct (String.eqb fordeling_type "50/50"); [split; discriminate|].
  destruct (String.eqb fordeling_type "Proporsjonal etter inntekt").
  - destruct (Qlt_bool 0 (kostnad_a + kostnad_b)) eqn:E; [|split; discriminate].
    apply Qlt_bool_iff in E. split.
    + apply Qle_shift_div_l; [assumption | lra].
    + apply Qle_shift_div_r; [assumption | lra].
  - destruct custom_split as [c|]; [|split; discriminate].
    destruct (Qeq_bool c 0); [split; discriminate|].
    destruct (Hc c eq_refl) as [H0 H100]. split.
    + apply Qle_shift_div_l; [reflexivity | lra].
    + apply Qle_shift_div_r; [reflexivity | lra].
Qed.

Lemma Qmult_andel (a p : Q) : 0 <= a -> 0 <= p <= 1 -> 0 <= a * p <= a.
Proof.
  intros Ha [Hp0 Hp1]. split.
  - now apply Qmult_le_0_compat.
  - setoid_replace a with (a * 1) at 2 by ring.
    rewrite (Qmult_comm a p), (Qmult_comm a 1).
    now apply Qmult_le_compat_r.
Qed.

(** A party's ownership in year [i]: at least the share bought with
    equity, at most that plus the party's whole share of the loan, and
    not decreasing from year to year. *)
Lemma eierandel_ved_grenser (laanebelop aarlig_avdrag ia la : Q) (i : Z) :
  0 <= aarlig_avdrag -> 0 <= la -> (0 <= i)%Z ->
  ia <= eierandel_ved laanebelop aarlig_avdrag ia la i <= ia + la
  /\ eierandel_ved laanebelop aarlig_avdrag ia la i
     <= eierandel_ved laanebelop aarlig_avdrag ia la (i + 1).
Proof.
  intros HA Hla Hi. unfold eierandel_ved.
  replace (i + 1 =? 0)%Z with false by (symmetry; apply Z.eqb_neq; lia).
  pose proof (prosent_nedbetalt_grenser laanebelop aarlig_avdrag (i + 1) HA
                ltac:(lia)) as Hnext.
  pose proof (Qmult_andel _ _ Hla Hnext) as [Hn0 Hn1].
  destruct (i =? 0)%Z.
  - split; [split|]; lra.
  - pose proof (prosent_nedbetalt_grenser laanebelop aarlig_avdrag i HA Hi) as Hnow.
    pose proof (Qmult_andel _ _ Hla Hnow) as [Hi0 Hi1].
    pose proof (prosent_nedbetalt_voksende laanebelop aarlig_avdrag i HA Hi) as Hmono.
    split; [split; lra|].
    apply Qplus_le_r.
    rewrite (Qmult_comm la _), (Qmult_comm la _).
    now apply Qmult_le_compat_r.
Qed.

(** C8.  With the inputs in the ranges the program admits (a positive
    price and term, equity parts and loan that are not negative and
    together do not exceed the price, costs that are not negative, a
    custom split between 0 and 100), the ownership block returns its
    lists, and in every year t from 0 to the term each party's ownership
    lies in [0, 100], the two together are at most 100, and neither
    decreases from year t to year t+1. *)
Theorem eierandel_utvikling_grenser (nedbetalingstid : Z)
    (egenkapital_a egenkapital_b boligpris laanebelop : Q)
    (fordeling_type : string) (kostnad_a kostnad_b : Q) (custom_split : option Q) :
  (0 < nedbetalingstid)%Z ->
  0 < boligpris ->
  0 <= egenkapital_a -> 0 <= egenkapital_b -> 0 <= laanebelop ->
  egenkapital_a + egenkapital_b + laanebelop <= boligpris ->
  0 <= kostnad_a -> 0 <= kostnad_b ->
  (forall c, custom_split = Some c -> 0 <= c <= 100) ->
  exists u,
    eierandel_utvikling nedbetalingstid egenkapital_a egenkapital_b boligpris
      laanebelop fordeling_type kostnad_a kostnad_b custom_split = Ok u
    /\ forall t : nat, (t <= Z.to_nat nedbetalingstid)%nat ->
       let a := nth t (eierandel_a_over_tid u) 0 in
       let b := nth t (eierandel_b_over_tid u) 0 in
       0 <= a <= 100 /\ 0 <= b <= 100 /\ a + b <= 100
       /\ ((t < Z.to_nat nedbetalingstid)%nat ->
           a <= nth (S t) (eierandel_a_over_tid u) 0
           /\ b <= nth (S t) (eierandel_b_over_tid u) 0).
Proof.
  intros Hn Hbp Hea Heb Hl Hsum Hka Hkb Hc.
  assert (~ boligpris == 0) as Hbp0 by lra.
  assert (inject_Z 0 < inject_Z (nedbetalingstid * 12)) as HnQ
    by (rewrite <- Zlt_Qlt; lia).
  assert (~ inject_Z (nedbetalingstid * 12) == 0) as Hn0
    by (intro H; rewrite H in HnQ; now apply Qlt_irrefl in HnQ).
  unfold eierandel_utvikling.
  rewrite !(py_div_ok _ boligpris) by assumption.
  rewrite py_div_ok by assumption. simpl bind.
  eexists. split; [reflexivity|].
  set (s := avdrag_andel fordeling_type kostnad_a kostnad_b custom_split).
  pose proof (avdrag_andel_grenser fordeling_type _ _ _ Hka Hkb Hc) as Hs.
  fold s in Hs.
  set (ia := egenkapital_a / boligpris * 100).
  set (ib := egenkapital_b / boligpris * 100).
  set (tl := laanebelop / boligpris * 100).
  set (aarlig := laanebelop / inject_Z (nedbetalingstid * 12) * 12).
  assert (0 <= egenkapital_a / boligpris) as Hxa
    by (apply Qle_shift_div_l; [assumption | lra]).
  assert (0 <= egenkapital_b / boligpris) as Hxb
    by (apply Qle_shift_div_l; [assumption | lra]).
  assert (0 <= laanebelop / boligpris) as Hxl
    by (apply Qle_shift_div_l; [assumption | lra]).
  assert ((egenkapital_a + egenkapital_b + laanebelop) / boligpris <= 1) as Hx1
    by (apply Qle_shift_div_r; [assumption | lra]).
  assert (ia + ib + tl <= 100) as Htot.
  { setoid_replace (ia + ib + tl)
      with ((egenkapital_a + egenkapital_b + laanebelop) / boligpris * 100)
      by (unfold ia, ib, tl; field; assumption).
    lra. }
  assert (0 <= ia) as Hia by (unfold ia; lra).
  assert (0 <= ib) as Hib by (unfold ib; lra).
  assert (0 <= tl) as Htl by (unfold tl; lra).
  assert (0 <= aarlig) as Haarlig.
  { unfold aarlig.
    assert (0 <= laanebelop / inject_Z (nedbetalingstid * 12))
      by (apply Qle_shift_div_l; [exact HnQ | lra]).
    lra. }
  pose proof (Qmult_andel tl s Htl Hs) as [Hla0 Hla1].
  assert (0 <= 1 - s <= 1) as Hs' by (destruct Hs; split; lra).
  pose proof (Qmult_andel tl (1 - s) Htl Hs') as [Hlb0 Hlb1].
  assert (tl * s + tl * (1 - s) == tl) as Hlab by ring.
  intros t Ht.
  assert (List.length (py_range 2025 (Z.to_nat (nedbetalingstid + 1)))
          = S (Z.to_nat nedbetalingstid)) as Hlen
    by (rewrite py_range_length, Z2Nat.inj_add by lia; simpl; lia).
  destruct (utvikling_loop_nth laanebelop aarlig ia ib (tl * s) (tl * (1 - s))
              (py_range 2025 (Z.to_nat (nedbetalingstid + 1))) 0 t ltac:(lia))
    as [Ea Eb].
  simpl. rewrite Ea, Eb. simpl (0 + Z.of_nat t)%Z.
  destruct (eierandel_ved_grenser laanebelop aarlig ia (tl * s) (Z.of_nat t)
              Haarlig Hla0 ltac:(lia)) as [[Ha0 Ha1] Ham].
  destruct (eierandel_ved_grenser laanebelop aarlig ib (tl * (1 - s)) (Z.of_nat t)
              Haarlig Hlb0 ltac:(lia)) as [[Hb0 Hb1] Hbm].
  split; [split; lra|]. split; [split; lra|]. split; [lra|].
  intro Hlt.
  destruct (utvikling_loop_nth laanebelop aarlig ia ib (tl * s) (tl * (1 - s))
              (py_range 2025 (Z.to_nat (nedbetalingstid + 1))) 0 (S t) ltac:(lia))
    as [Ea' Eb'].
  rewrite Ea', Eb'.
  replace (0 + Z.of_nat (S t))%Z with (Z.of_nat t + 1)%Z by lia.
  split; assumption.
Qed.

(** The bounds come from the ranges of the inputs: the block itself
    does not clamp.  Equity of 2000 in a price of 1000 is recorded as an
    ownership of 200 per cent. *)
Remark eierandel_utvikling_uten_klemming :
  exists u,
    eierandel_utvikling 5 2000 0 1000 0 "50/50" 0 0 None = Ok u
    /\ nth 0 (eierandel_a_over_tid u) 0 == 200.
Proof.
  eexists. split; reflexivity.
Qed.

End EierandelProps.

Lemma eierandel_utvikling_grenser_witness :
  exists u,
    Eierandel.eierandel_utvikling 25 520000 780000 4500000 3200000
      "Proporsjonal etter inntekt" 8000 12000 None = Ok u
    /\ 0 <= nth 10 (Eierandel.eierandel_a_over_tid u) 0 <= 100
    /\ nth 10 (Eierandel.eierandel_a_over_tid u) 0
       <= nth 11 (Eierandel.eierandel_a_over_tid u) 0.
Proof.
  destruct (eierandel_utvikling_grenser 25 520000 780000 4500000 3200000
              "Proporsjonal etter inntekt" 8000 12000 None)
    as (u & Hu & H); try reflexivity; try discriminate.
  exists u. split; [exact Hu|].
  destruct (H 10%nat) as (Ha & _ & _ & Hm).
  - apply Nat.leb_le. reflexivity.
  - split; [exact Ha|]. apply Hm. apply Nat.ltb_lt. reflexivity.
Defined.

(** ** Sale settlement *)

Section SalgProps.

Import Salg.
Local Open Scope string_scope.

Variable d : Salgsdata.

Lemma halvparten (x : Q) : x * 0.5 + x * 0.5 == x.
Proof. field. Qed.

Lemma etter_investering_sum (netto : Q) :
  fst (etter_investering d netto) + snd (etter_investering d netto) == netto.
Proof.
  unfold etter_investering. simpl.
  destruct (Qlt_bool 0 (total_investert d)) eqn:E.
  - apply Qlt_bool_iff in E. unfold total_investert in *. field. lra.
  - apply halvparten.
Qed.

Lemma uten_gevinst_sum (netto : Q) :
  fst (uten_gevinst d netto) + snd (uten_gevinst d netto) == netto.
Proof.
  unfold uten_gevinst. simpl.
  destruct (Qlt_bool 0 (total_investert d)) eqn:E.
  - apply Qlt_bool_iff in E. unfold total_investert in *. field. lra.
  - apply halvparten.
Qed.

(** Without a gain, models 2, 3 and 4 pay what model 1 pays. *)
Lemma uten_gevinst_etter_investering (netto : Q) :
  uten_gevinst d netto = etter_investering d netto.
Proof.
  unfold uten_gevinst, etter_investering.
  now destruct (Qlt_bool 0 (total_investert d)).
Qed.

Lemma likt_paa_gevinst_sum (netto : Q) :
  fst (likt_paa_gevinst d netto) + snd (likt_paa_gevinst d netto) == netto.
Proof.
  unfold likt_paa_gevinst.
  destruct (Qlt_bool (total_investert d) netto); [|apply uten_gevinst_sum].
  simpl. unfold total_investert. field.
Qed.

(** The equity shares add up to one because the equity parts add up to
    the equity. *)
Lemma ek_andel_sum :
  egenkapital_a d + egenkapital_b d == egenkapital d ->
  (if Qlt_bool 0 (egenkapital d) then egenkapital_a d / egenkapital d else 0.5)
  + (if Qlt_bool 0 (egenkapital d) then egenkapital_b d / egenkapital d else 0.5)
  == 1.
Proof.
  intro Hek. destruct (Qlt_bool 0 (egenkapital d)) eqn:E; [|reflexivity].
  apply Qlt_bool_iff in E.
  setoid_replace (egenkapital_a d / egenkapital d + egenkapital_b d / egenkapital d)
    with ((egenkapital_a d + egenkapital_b d) / egenkapital d) by (field; lra).
  rewrite Hek. field. lra.
Qed.

Lemma etter_egenkapital_sum (netto : Q) :
  egenkapital_a d + egenkapital_b d == egenkapital d ->
  fst (etter_egenkapital d netto) + snd (etter_egenkapital d netto) == netto.
Proof.
  intro Hek. unfold etter_egenkapital.
  destruct (Qlt_bool (total_investert d) netto); [|apply uten_gevinst_sum].
  pose proof (ek_andel_sum Hek) as H1. simpl.
  set (ea := if Qlt_bool 0 (egenkapital d)
             then egenkapital_a d / egenkapital d else 0.5) in *.
  set (eb := if Qlt_bool 0 (egenkapital d)
             then egenkapital_b d / egenkapital d else 0.5) in *.
  setoid_replace (total_investert_a d + (netto - total_investert d) * ea
                  + (total_investert_b d + (netto - total_investert d) * eb))
    with (total_investert d + (netto - total_investert d) * (ea + eb))
    by (unfold total_investert; ring).
  rewrite H1. ring.
Qed.


(** The same holds row by row in the scenario sweep, where B's share of
    the gain is computed as the complement of A's. *)
Lemma scenario_utbetaling_sum (fordelingsmodell : string) (endring_prosent : Q) :
  fst (scenario_utbetaling d fordelingsmodell endring_prosent)
  + snd (scenario_utbetaling d fordelingsmodell endring_prosent)
  == scenario_netto d endring_prosent.
Proof.
  assert (forall netto,
             fst (scenario_etter_egenkapital d netto)
             + snd (scenario_etter_egenkapital d netto) == netto) as Hek.
  { intro netto. unfold scenario_etter_egenkapital.
    destruct (Qlt_bool (total_investert d) netto); [|apply uten_gevinst_sum].
    simpl. unfold total_investert. ring. }
  unfold scenario_utbetaling.
  destruct (inneholder "Modell 1" fordelingsmodell); [apply uten_gevinst_sum|].
  destruct (inneholder "Modell 2" fordelingsmodell); [apply Hek|].
  destruct (inneholder "Modell 3" fordelingsmodell); [apply likt_paa_gevinst_sum|].
  destruct (Qlt_bool 0 endring_prosent); [apply Hek | apply uten_gevinst_sum].
Qed.

(** So every row of the sweep's table divides its own net proceeds. *)
Lemma scenarios_sum (fordelingsmodell : string) :
  Forall (fun scenario =>
            fst (scenario_utbetaling d fordelingsmodell (snd scenario))
            + snd (scenario_utbetaling d fordelingsmodell (snd scenario))
            == scenario_netto d (snd scenario))
         scenarios.
Proof.
  apply Forall_forall. intros scenario _. apply scenario_utbetaling_sum.
Qed.

(** The four options of the radio button select the four branches. *)
Lemma utbetaling_modeller :
  utbetaling d modell_1 = etter_investering d (netto_salgssum d)
  /\ utbetaling d modell_2 = etter_egenkapital d (netto_salgssum d)
  /\ utbetaling d modell_3 = likt_paa_gevinst d (netto_salgssum d)
  /\ utbetaling d modell_4
     = if Qlt_bool 0 (verdiendring_kr d)
       then etter_egenkapital d (netto_salgssum d)
       else etter_investering d (netto_salgssum d).
Proof. repeat split. Qed.

(** Model 2 is the rule of [hybrid_spec]. *)
Lemma etter_egenkapital_hybrid_spec (netto : Q) :
  etter_egenkapital d netto = hybrid_spec d netto.
Proof.
  unfold etter_egenkapital, hybrid_spec.
  destruct (Qlt_bool (total_investert d) netto); [reflexivity|].
  apply uten_gevinst_etter_investering.
Qed.


(** The hybrid of the sale tab, with its two tests spelled out. *)
Lemma utbetaling_hybrid :
  utbetaling d modell_4
  = (if Qlt_bool 0 (verdiendring_kr d)
     then hybrid_spec d (netto_salgssum d)
     else etter_investering d (netto_salgssum d)).
Proof.
  destruct utbetaling_modeller as (_ & _ & _ & H4). rewrite H4.
  now rewrite etter_egenkapital_hybrid_spec.
Qed.


(** Where the two keys cannot disagree the hybrid is the rule of the
    specification: with a positive appreciation, and without a gain. *)
Lemma hybrid_ved_verdistigning :
  0 < verdiendring_kr d ->
  utbetaling d modell_4 = hybrid_spec d (netto_salgssum d).
Proof.
  intro H. rewrite utbetaling_hybrid.
  apply Qlt_bool_iff in H. now rewrite H.
Qed.

Lemma hybrid_uten_gevinst :
  netto_salgssum d <= total_investert d ->
  utbetaling d modell_4 = hybrid_spec d (netto_salgssum d).
Proof.
  intro H. rewrite utbetaling_hybrid.
  destruct (Qlt_bool 0 (verdiendring_kr d)); [reflexivity|].
  unfold hybrid_spec. apply Qlt_bool_false_iff in H. now rewrite H.
Qed.

End SalgProps.

(** *** The sale tab on the values the other tabs compute *)

Section Salgsfane.

Import Salg.
Local Open Scope string_scope.

Lemma fordel_egenkapital_sum (egenkapital : Q) (f : EgenkapitalFordeling) :
  fst (fordel_egenkapital egenkapital f) + snd (fordel_egenkapital egenkapital f)
  == egenkapital.
Proof. destruct f; simpl; field. Qed.

Lemma fordel_avdrag_sum (fordeling_type : string) (kostnad_a kostnad_b : Q)
    (custom_split : option Q) (total_avdrag : Q) :
  fst (fordel_avdrag fordeling_type kostnad_a kostnad_b custom_split total_avdrag)
  + snd (fordel_avdrag fordeling_type kostnad_a kostnad_b custom_split total_avdrag)
  == total_avdrag.
Proof.
  unfold fordel_avdrag.
  destruct (String.eqb fordeling_type "50/50"); [apply halvparten|].
  destruct (String.eqb fordeling_type "Proporsjonal etter inntekt"); simpl; ring.
Qed.

Variables boligpris egenkapital : Q.
Variable egenkapital_fordeling : EgenkapitalFordeling.
Variable fordeling_type : string.
Variables kostnad_a kostnad_b : Q.
Variable custom_split : option Q.
Variables total_avdrag verdiendring_prosent salgskostnader_prosent : Q.

Let d : Salgsdata :=
  salgsdata_fra_fanene boligpris egenkapital egenkapital_fordeling fordeling_type
    kostnad_a kostnad_b custom_split total_avdrag verdiendring_prosent
    salgskostnader_prosent.

(** The payouts add up to the net proceeds, with nothing assumed. *)
Lemma salgsfane_utbetaling_sum (fordelingsmodell : string) :
  fst (utbetaling d fordelingsmodell) + snd (utbetaling d fordelingsmodell)
  == netto_salgssum d.
Proof.
  unfold utbetaling.
  pose proof (fordel_egenkapital_sum egenkapital egenkapital_fordeling) as Hek.
  destruct (inneholder "Modell 1" fordelingsmodell); [apply etter_investering_sum|].
  destruct (inneholder "Modell 2" fordelingsmodell);
    [now apply etter_egenkapital_sum|].
  destruct (inneholder "Modell 3" fordelingsmodell); [apply likt_paa_gevinst_sum|].
  destruct (Qlt_bool 0 (verdiendring_kr d));
    [now apply etter_egenkapital_sum | apply etter_investering_sum].
Qed.

(** What is invested is the equity plus the instalments, so the gain
    over the investment is the appreciation less the selling costs. *)
Lemma salgsfane_gevinst :
  netto_salgssum d - total_investert d == verdiendring_kr d - salgskostnader d.
Proof.
  pose proof (fordel_egenkapital_sum egenkapital egenkapital_fordeling) as Hek.
  pose proof (fordel_avdrag_sum fordeling_type kostnad_a kostnad_b custom_split
                total_avdrag) as Hned.
  unfold netto_salgssum, total_investert, total_investert_a, total_investert_b,
    verdiendring_kr.
  generalize (salgspris d) (salgskostnader d). intros pris kostnader.
  unfold d, salgsdata_fra_fanene. simpl.
  lra.
Qed.

(** With a price that is not negative, an appreciation of at least
    -100 % and selling costs of at least 0 %, the ranges of the input
    fields, the hybrid of the sale tab follows the rule keyed on
    netProceeds - totalInvested on every input. *)
Lemma salgsfane_hybrid :
  0 <= boligpris -> -100 <= verdiendring_prosent -> 0 <= salgskostnader_prosent ->
  utbetaling d modell_4 = hybrid_spec d (netto_salgssum d).
Proof.
  intros Hbp Hv Hc.
  pose proof salgsfane_gevinst as Hg.
  assert (0 <= salgskostnader d) as Hkost.
  { unfold salgskostnader, salgspris, d, salgsdata_fra_fanene. simpl.
    assert (-1 <= verdiendring_prosent / 100) as Hv'
      by (apply Qle_shift_div_l; [reflexivity | lra]).
    assert (0 <= salgskostnader_prosent / 100) as Hc'
      by (apply Qle_shift_div_l; [reflexivity | lra]).
    apply Qmult_le_0_compat; [|assumption].
    apply Qmult_le_0_compat; [assumption | lra]. }
  destruct (Qlt_le_dec 0 (verdiendring_kr d)) as [Hpos|Hneg].
  - now apply hybrid_ved_verdistigning.
  - apply hybrid_uten_gevinst. lra.
Qed.

End Salgsfane.




(** * Further properties of the code *)

(** ** Annuity engine: the rows of the plan *)

Section PlanRader.

Import Annuitet.

Variables T mr : Q.

Lemma plan_loop_length (igjen : nat) (mnd : Z) (g : Q) :
  (List.length (plan_loop T mr igjen mnd g) <= igjen)%nat.
Proof.
  revert mnd g. induction igjen as [|igjen IH]; intros mnd g; simpl; [lia|].
  destruct (Qle_bool g 0); simpl; [lia|].
  specialize (IH (mnd + 1)%Z (g - (T - g * mr))). lia.
Qed.

(** A shorter horizon gives the first rows of a longer one. *)
Lemma plan_loop_firstn (m k : nat) (mnd : Z) (g : Q) :
  plan_loop T mr m mnd g = firstn m (plan_loop T mr (m + k) mnd g).
Proof.
  revert mnd g. induction m as [|m IH]; intros mnd g; [reflexivity|].
  simpl. destruct (Qle_bool g 0); [reflexivity|].
  simpl. now rewrite <- IH.
Qed.

(** The labels and the tax columns of row [t]. *)
Lemma plan_loop_kolonner (igjen : nat) (mnd : Z) (g : Q) (t : nat) (rad : PlanRad) :
  nth_error (plan_loop T mr igjen mnd g) t = Some rad ->
  Aar rad = ((mnd + Z.of_nat t) / 12 + 1)%Z
  /\ Maaned rad = ((mnd + Z.of_nat t) mod 12 + 1)%Z
  /\ Skattefradrag rad = Renter rad * SKATTESATS_RENTEFRADRAG
  /\ Netto_kostnad rad = Terminbelop rad - Skattefradrag rad.
Proof.
  revert mnd g t. induction igjen as [|igjen IH]; intros mnd g t Hnth.
  - destruct t; discriminate Hnth.
  - simpl in Hnth. destruct (Qle_bool g 0); [destruct t; discriminate Hnth|].
    destruct t as [|t]; simpl in Hnth.
    + inversion Hnth; subst rad; simpl. rewrite Z.add_0_r. repeat split.
    + replace (mnd + Z.of_nat (S t))%Z with (mnd + 1 + Z.of_nat t)%Z by lia.
      now apply IH with (g := g - (T - g * mr)).
Qed.

(** The balance a row starts from is positive, and it is what the row
    before recorded. *)
Lemma plan_loop_neste (igjen : nat) (mnd : Z) (g : Q) (t : nat) (r1 r2 : PlanRad) :
  nth_error (plan_loop T mr igjen mnd g) t = Some r1 ->
  nth_error (plan_loop T mr igjen mnd g) (S t) = Some r2 ->
  Avdrag r2 == (1 + mr) * Avdrag r1
  /\ Renter r2 == Renter r1 - mr * Avdrag r1
  /\ Gjenstaaende r1 == gjenstaaende_foer g (plan_loop T mr igjen mnd g) t - Avdrag r1.
Proof.
  intros H1 H2.
  destruct (plan_loop_rad _ _ _ _ _ _ _ H1) as (Hp1 & _ & HR1 & HA1 & HG1).
  destruct (plan_loop_rad _ _ _ _ _ _ _ H2) as (Hp2 & _ & HR2 & HA2 & _).
  simpl in Hp2, HR2. rewrite H1 in Hp2, HR2.
  assert (Gjenstaaende r1
          = gjenstaaende_foer g (plan_loop T mr igjen mnd g) t - Avdrag r1) as HG.
  { rewrite HG1 in Hp2 |- *. unfold py_max in *.
    destruct (Qlt_bool 0 (gjenstaaende_foer g (plan_loop T mr igjen mnd g) t
                          - Avdrag r1)); [reflexivity|].
    now apply Qlt_irrefl in Hp2. }
  rewrite HA2, HR2, HG, HA1, HR1.
  repeat split; ring.
Qed.

(** Per row the payment is interest plus instalment, so the columns add
    up likewise. *)
Lemma plan_loop_kolonnesum (igjen : nat) (mnd : Z) (g : Q) :
  Qsum (map Renter (plan_loop T mr igjen mnd g))
  + Qsum (map Avdrag (plan_loop T mr igjen mnd g))
  == inject_Z (Z.of_nat (List.length (plan_loop T mr igjen mnd g))) * T.
Proof.
  revert mnd g. induction igjen as [|igjen IH]; intros mnd g.
  - simpl. ring.
  - simpl. destruct (Qle_bool g 0); [simpl; ring|].
    cbn [map Qsum fold_right List.length Renter Avdrag].
    fold (Qsum (map Renter (plan_loop T mr igjen (mnd + 1)%Z (g - (T - g * mr))))).
    fold (Qsum (map Avdrag (plan_loop T mr igjen (mnd + 1)%Z (g - (T - g * mr))))).
    rewrite inject_Z_succ.
    specialize (IH (mnd + 1)%Z (g - (T - g * mr))).
    lra.
Qed.

End PlanRader.

(** ** Annuity engine: the plan of a valid loan *)

Section PlanGyldig.

Import Annuitet.

Variables T mr : Q.
Hypothesis T_pos : 0 < T.

Lemma restsaldo_null (g : Q) : restsaldo_ok T mr 0 g -> g == 0.
Proof.
  intros [[_ H]|[Hmr H]]; simpl in H.
  - rewrite H. ring.
  - assert (g * mr == 0) as H0 by lra.
    apply Qmult_integral in H0. destruct H0 as [H0|H0]; [assumption|lra].
Qed.

Lemma restsaldo_steg (m : nat) (g : Q) :
  restsaldo_ok T mr (S m) g ->
  0 < g /\ 0 <= g * mr /\ 0 < T - g * mr
  /\ restsaldo_ok T mr m (g - (T - g * mr)).
Proof.
  intros [[Hmr H]|[Hmr H]].
  - rewrite inject_Z_succ in H.
    assert (0 <= inject_Z (Z.of_nat m)) as Hm
      by (change 0 with (inject_Z 0); rewrite <- Zle_Qle; lia).
    assert (0 <= T * inject_Z (Z.of_nat m)) as Hp
      by (apply Qmult_le_0_compat; lra).
    assert (g * mr == 0) as H0 by (rewrite Hmr; ring).
    repeat split; try lra.
    left. split; [assumption|]. rewrite H0. lra.
  - rewrite Qpower_succ in H.
    assert (1 <= (1 + mr) ^ Z.of_nat m) as HX
      by (apply Qpower_1_le; [lra | lia]).
    set (X := (1 + mr) ^ Z.of_nat m) in *.
    assert (0 < mr * X) as HmX by (apply Qmult_lt_0_compat; lra).
    assert (0 < (1 + mr) * X - 1) as Hvekst
      by (setoid_replace ((1 + mr) * X - 1) with (X - 1 + mr * X) by ring; lra).
    assert (0 < g) as Hpos.
    { apply Qnot_le_lt. intro Hle.
      pose proof (Qmult_lt_0_compat _ _ T_pos Hvekst) as H1.
      assert (0 <= (- g) * (mr * ((1 + mr) * X))) as H2.
      { apply Qmult_le_0_compat; [lra|].
        apply Qmult_le_0_compat; lra. }
      lra. }
    assert (0 <= g * mr) as Hrente by (apply Qmult_le_0_compat; lra).
    assert (0 < T - g * mr) as Havdrag.
    { apply Qnot_le_lt. intro Hle.
      assert (0 <= (g * mr - T) * ((1 + mr) * X)) as H2
        by (apply Qmult_le_0_compat; lra).
      lra. }
    repeat split; try assumption.
    right. split; [assumption|]. fold X. lra.
Qed.

Lemma restsaldo_ikke_negativ (m : nat) (g : Q) : restsaldo_ok T mr m g -> 0 <= g.
Proof.
  destruct m as [|m]; intro H.
  - apply restsaldo_null in H. lra.
  - apply restsaldo_steg in H. lra.
Qed.

Lemma py_max_0_ikke_negativ (x : Q) : 0 <= x -> py_max 0 x == x.
Proof.
  intro H. unfold py_max. destruct (Qlt_bool 0 x) eqn:E; [reflexivity|].
  apply Qlt_bool_false_iff in E. lra.
Qed.

(** From a balance that is worth [m] payments the loop makes
    [min igjen m] rows; every instalment is positive and at most the
    payment; the instalments are the balance repaid. *)
Lemma plan_loop_gyldig (igjen : nat) :
  forall (m : nat) (mnd : Z) (g : Q),
    restsaldo_ok T mr m g ->
    List.length (plan_loop T mr igjen mnd g) = Nat.min igjen m
    /\ Forall (fun rad => 0 <= Renter rad /\ 0 < Avdrag rad <= T)
         (plan_loop T mr igjen mnd g)
    /\ Qsum (map Avdrag (plan_loop T mr igjen mnd g))
       == g - sluttsaldo g (plan_loop T mr igjen mnd g)
    /\ 0 <= sluttsaldo g (plan_loop T mr igjen mnd g)
    /\ restsaldo_ok T mr (m - Nat.min igjen m)
         (sluttsaldo g (plan_loop T mr igjen mnd g)).
Proof.
  unfold sluttsaldo.
  induction igjen as [|igjen IH]; intros m mnd g Hok.
  - simpl. rewrite Nat.sub_0_r.
    split; [reflexivity|]. split; [apply Forall_nil|].
    split; [ring|]. split; [now apply restsaldo_ikke_negativ with m | assumption].
  - destruct m as [|m].
    + pose proof (restsaldo_null _ Hok) as H0.
      rewrite plan_loop_stop by lra. simpl.
      split; [reflexivity|]. split; [apply Forall_nil|].
      split; [ring|]. split; [lra | assumption].
    + destruct (restsaldo_steg _ _ Hok) as (Hg & Hr & Ha & Hok').
      rewrite plan_loop_step by assumption.
      destruct (IH m (mnd + 1)%Z _ Hok') as (Hlen & Hrows & Hsum & Hslutt & Hrest).
      set (rest := plan_loop T mr igjen (mnd + 1)%Z (g - (T - g * mr))) in *.
      assert (gjenstaaende_foer g
                (mkPlanRad (mnd / 12 + 1)%Z (mnd mod 12 + 1)%Z T (g * mr) (T - g * mr)
                   (py_max 0 (g - (T - g * mr))) (g * mr * SKATTESATS_RENTEFRADRAG)
                   (T - g * mr * SKATTESATS_RENTEFRADRAG) :: rest)
                (S (List.length rest))
              == gjenstaaende_foer (g - (T - g * mr)) rest (List.length rest)) as Hfoer.
      { destruct (List.length rest) as [|j] eqn:El.
        - simpl. simpl in Hslutt. now apply py_max_0_ikke_negativ.
        - reflexivity. }
      cbn [List.length map Qsum fold_right Avdrag].
      fold (Qsum (map Avdrag rest)).
      split; [simpl; now rewrite Hlen|].
      split; [apply Forall_cons; [simpl; split; [|split]; lra | assumption]|].
      split; [rewrite Hfoer, Hsum; ring|].
      split; [now rewrite Hfoer|].
      simpl Nat.min. simpl Nat.sub.
      destruct Hrest as [[H1 H2]|[H1 H2]]; [left|right]; split;
        try assumption; now rewrite Hfoer.
Qed.

End PlanGyldig.

(** ** Annuity engine: the payment as a present value *)

Section Annuitetsfaktor.

Import Annuitet.

Lemma annuitetsfaktor_ikke_negativ (v : Q) (n : nat) :
  0 <= v -> 0 <= annuitetsfaktor v n.
Proof.
  intro Hv. induction n as [|n IH]; simpl; [apply Qle_refl|].
  apply Qmult_le_0_compat; lra.
Qed.

Lemma annuitetsfaktor_positiv (v : Q) (n : nat) :
  0 < v -> (0 < n)%nat -> 0 < annuitetsfaktor v n.
Proof.
  intros Hv Hn. destruct n as [|n]; [lia|]. simpl.
  pose proof (annuitetsfaktor_ikke_negativ v n (Qlt_le_weak _ _ Hv)).
  apply Qmult_lt_0_compat; lra.
Qed.

Lemma annuitetsfaktor_voksende (v w : Q) (n : nat) :
  0 <= v <= w -> annuitetsfaktor v n <= annuitetsfaktor w n.
Proof.
  intros [Hv Hvw]. induction n as [|n IH]; simpl; [apply Qle_refl|].
  pose proof (annuitetsfaktor_ikke_negativ v n Hv).
  apply Qmult_le_compat_nonneg; split; lra.
Qed.

Lemma annuitetsfaktor_uten_rente (v : Q) (n : nat) :
  v == 1 -> annuitetsfaktor v n == inject_Z (Z.of_nat n).
Proof.
  intro Hv. induction n as [|n IH]; [reflexivity|].
  rewrite inject_Z_succ. simpl. rewrite IH, Hv. ring.
Qed.

Lemma annuitetsfaktor_med_rente (mr : Q) (n : nat) :
  0 < mr ->
  annuitetsfaktor (/ (1 + mr)) n * mr == 1 - (/ (1 + mr)) ^ Z.of_nat n.
Proof.
  intro Hmr.
  assert ((1 + mr) * / (1 + mr) == 1) as Hinv by (apply Qmult_inv_r; lra).
  induction n as [|n IH]; [simpl; ring|].
  rewrite Qpower_succ. simpl.
  set (v := / (1 + mr)) in *. set (a := annuitetsfaktor v n) in *.
  set (p := v ^ Z.of_nat n) in *.
  setoid_replace (v * (1 + a) * mr) with (v * mr + v * (a * mr)) by ring.
  rewrite IH.
  setoid_replace (v * mr + v * (1 - p)) with ((1 + mr) * v - v * p) by ring.
  rewrite Hinv. ring.
Qed.

(** The payment times the present value of one krone a month is the
    loan. *)
Lemma terminbelop_naaverdi (laan rente : Q) (n : Z) :
  0 <= rente -> (0 < n)%Z ->
  computeFixedPayment_spec laan rente n
  * annuitetsfaktor (/ (1 + rente / 100 / 12)) (Z.to_nat (n * 12)) == laan.
Proof.
  intros Hr Hn.
  assert (Z.of_nat (Z.to_nat (n * 12)) = (n * 12)%Z) as HN by (apply Z2Nat.id; lia).
  assert (inject_Z 0 < inject_Z (n * 12)) as HnQ by (rewrite <- Zlt_Qlt; lia).
  unfold computeFixedPayment_spec.
  destruct (Qeq_bool rente 0) eqn:E.
  - apply Qeq_bool_iff in E.
    rewrite annuitetsfaktor_uten_rente.
    + rewrite HN. field. intro H. rewrite H in HnQ. now apply Qlt_irrefl in HnQ.
    + rewrite E. reflexivity.
  - pose proof (maanedlig_rente_pos _ (rente_cases _ Hr E)) as Hm.
    set (mr := rente / 100 / 12) in *.
    assert (1 < (1 + mr) ^ (n * 12)) as Hpow by (apply Qpower_1_lt; [lra | lia]).
    apply (Qmult_inj_r _ _ mr); [lra|].
    rewrite <- Qmult_assoc, annuitetsfaktor_med_rente by assumption.
    rewrite HN, Qinv_power. field. split; lra.
Qed.

Lemma terminbelop_ikke_negativt (laan rente : Q) (n : Z) :
  0 <= laan -> 0 <= rente -> (0 < n)%Z ->
  0 <= computeFixedPayment_spec laan rente n.
Proof.
  intros Hl Hr Hn.
  pose proof (terminbelop_naaverdi laan rente n Hr Hn) as H.
  assert (0 < 1 + rente / 100 / 12) as Hq.
  { destruct (Qeq_bool rente 0) eqn:E.
    - apply Qeq_bool_iff in E. rewrite E. reflexivity.
    - pose proof (maanedlig_rente_pos _ (rente_cases _ Hr E)). lra. }
  assert (0 < annuitetsfaktor (/ (1 + rente / 100 / 12)) (Z.to_nat (n * 12))) as Ha
    by (apply annuitetsfaktor_positiv; [now apply Qinv_lt_0_compat | lia]).
  apply Qnot_lt_le. intro Hneg.
  assert (0 < (- computeFixedPayment_spec laan rente n)
              * annuitetsfaktor (/ (1 + rente / 100 / 12)) (Z.to_nat (n * 12))) as Hp
    by (apply Qmult_lt_0_compat; lra).
  lra.
Qed.

(** A higher rate never lowers the payment. *)
Lemma terminbelop_voksende (laan rente_1 rente_2 : Q) (n : Z) :
  0 <= laan -> 0 <= rente_1 -> rente_1 <= rente_2 -> (0 < n)%Z ->
  computeFixedPayment_spec laan rente_1 n <= computeFixedPayment_spec laan rente_2 n.
Proof.
  intros Hl Hr1 Hr12 Hn.
  assert (0 <= rente_2) as Hr2 by lra.
  pose proof (terminbelop_naaverdi laan rente_1 n Hr1 Hn) as H1.
  pose proof (terminbelop_naaverdi laan rente_2 n Hr2 Hn) as H2.
  pose proof (terminbelop_ikke_negativt laan rente_1 n Hl Hr1 Hn) as HT1.
  set (T1 := computeFixedPayment_spec laan rente_1 n) in *.
  set (T2 := computeFixedPayment_spec laan rente_2 n) in *.
  assert (0 <= rente_1 / 100 / 12) as Hm1
    by (unfold Qdiv; repeat apply Qmult_le_0_compat; try assumption; discriminate).
  assert (rente_1 / 100 / 12 <= rente_2 / 100 / 12) as Hm12
    by (unfold Qdiv; repeat apply Qmult_le_compat_r; try assumption; discriminate).
  set (m1 := rente_1 / 100 / 12) in *. set (m2 := rente_2 / 100 / 12) in *.
  assert (0 < / (1 + m2)) as Hv2 by (apply Qinv_lt_0_compat; lra).
  assert (/ (1 + m2) <= / (1 + m1)) as Hv.
  { apply Qnot_lt_le. intro Hlt.
    apply Qinv_lt_contravar in Hlt; lra. }
  pose proof (annuitetsfaktor_voksende _ _ (Z.to_nat (n * 12))
                (conj (Qlt_le_weak _ _ Hv2) Hv)) as Ha.
  assert (0 < annuitetsfaktor (/ (1 + m2)) (Z.to_nat (n * 12))) as Ha2
    by (apply annuitetsfaktor_positiv; [assumption | lia]).
  set (a1 := annuitetsfaktor (/ (1 + m1)) (Z.to_nat (n * 12))) in *.
  set (a2 := annuitetsfaktor (/ (1 + m2)) (Z.to_nat (n * 12))) in *.
  apply Qmult_lt_0_le_reg_r with a2; [assumption|].
  assert (T1 * a2 <= T1 * a1) as Hle.
  { rewrite (Qmult_comm T1 a2), (Qmult_comm T1 a1).
    now apply Qmult_le_compat_r. }
  lra.
Qed.

(** A valid loan starts the plan on a balance that is worth the whole
    term of payments. *)
Lemma terminbelop_gyldig (laan rente : Q) (n : Z) :
  0 < laan -> 0 <= rente -> (0 < n)%Z ->
  0 < computeFixedPayment_spec laan rente n
  /\ restsaldo_ok (computeFixedPayment_spec laan rente n) (rente / 100 / 12)
       (Z.to_nat (n * 12)) laan.
Proof.
  intros Hl Hr Hn.
  assert (Z.of_nat (Z.to_nat (n * 12)) = (n * 12)%Z) as HN by (apply Z2Nat.id; lia).
  assert (inject_Z 0 < inject_Z (n * 12)) as HnQ by (rewrite <- Zlt_Qlt; lia).
  unfold computeFixedPayment_spec, restsaldo_ok.
  destruct (Qeq_bool rente 0) eqn:E.
  - apply Qeq_bool_iff in E. split.
    + apply Qlt_shift_div_l; [exact HnQ | lra].
    + left. split; [now apply maanedlig_rente_zero|].
      rewrite HN. field. intro H. rewrite H in HnQ. now apply Qlt_irrefl in HnQ.
  - pose proof (maanedlig_rente_pos _ (rente_cases _ Hr E)) as Hm.
    set (mr := rente / 100 / 12) in *.
    assert (1 < (1 + mr) ^ (n * 12)) as Hpow by (apply Qpower_1_lt; [lra | lia]).
    split.
    + apply Qlt_shift_div_l; [lra|].
      setoid_replace (0 * ((1 + mr) ^ (n * 12) - 1)) with 0 by ring.
      apply Qmult_lt_0_compat; [exact Hl|].
      apply Qmult_lt_0_compat; lra.
    + right. split; [exact Hm|]. rewrite HN. field. lra.
Qed.

End Annuitetsfaktor.

(** ** Annuity engine: what the plan shows *)

Section PlanEgenskaper.

Import Annuitet.

Lemma beregn_amortiseringsplan_inv (laan rente : Q) (n : Z) (antall_aar : option Z)
    (plan : list PlanRad) :
  beregn_amortiseringsplan laan rente n antall_aar = Ok plan ->
  exists T,
    beregn_terminbelop laan rente n = Ok T
    /\ plan = plan_loop T (rente / 100 / 12)
               (Z.to_nat (match antall_aar with
                          | None => Z.min 10 n
                          | Some a => a
                          end * 12)) 0 laan.
Proof.
  unfold beregn_amortiseringsplan.
  destruct (beregn_terminbelop laan rente n) as [T|e]; simpl bind; [|discriminate].
  intro H. inversion H. now exists T.
Qed.

Lemma beregn_amortiseringsplan_gyldig (laan rente : Q) (n a : Z) :
  0 <= rente -> (0 < n)%Z ->
  beregn_amortiseringsplan laan rente n (Some a)
  = Ok (plan_loop (computeFixedPayment_spec laan rente n) (rente / 100 / 12)
          (Z.to_nat (a * 12)) 0 laan).
Proof.
  intros Hr Hn. unfold beregn_amortiseringsplan.
  now rewrite beregn_terminbelop_returns by assumption.
Qed.

Lemma Qsum_ikke_negativ {A : Type} (f : A -> Q) (l : list A) :
  Forall (fun x => 0 <= f x) l -> 0 <= Qsum (map f l).
Proof.
  induction 1 as [|x l Hx _ IH]; simpl; [apply Qle_refl|].
  fold (Qsum (map f l)). lra.
Qed.

Lemma Qsum_positiv {A : Type} (f : A -> Q) (l : list A) :
  Forall (fun x => 0 < f x) l -> l <> [] -> 0 < Qsum (map f l).
Proof.
  intros H Hne. destruct H as [|x l Hx Hl]; [contradiction|].
  simpl. fold (Qsum (map f l)).
  assert (0 <= Qsum (map f l)) as H0.
  { apply Qsum_ikke_negativ. eapply Forall_impl; [|exact Hl].
    intros y Hy. now apply Qlt_le_weak. }
  lra.
Qed.

Lemma plan_loop_skattefradrag (T mr : Q) (igjen : nat) (mnd : Z) (g : Q) :
  Qsum (map Skattefradrag (plan_loop T mr igjen mnd g))
  == Qsum (map Renter (plan_loop T mr igjen mnd g)) * SKATTESATS_RENTEFRADRAG.
Proof.
  revert mnd g. induction igjen as [|igjen IH]; intros mnd g; simpl; [ring|].
  destruct (Qle_bool g 0); simpl; [ring|].
  fold (Qsum (map Skattefradrag (plan_loop T mr igjen (mnd + 1)%Z (g - (T - g * mr))))).
  fold (Qsum (map Renter (plan_loop T mr igjen (mnd + 1)%Z (g - (T - g * mr))))).
  rewrite IH. ring.
Qed.

(** X1.  For a positive loan, a rate that is not negative and a positive
    term, whatever the horizon: in every row of the plan the interest
    is not negative, the instalment is positive and at most the
    payment, and the recorded balance is below the balance the month
    started from. *)
Theorem amortiseringsplan_avdrag_positivt (laan rente : Q) (n : Z)
    (antall_aar : option Z) :
  0 < laan -> 0 <= rente -> (0 < n)%Z ->
  exists plan,
    beregn_amortiseringsplan laan rente n antall_aar = Ok plan
    /\ forall t rad, nth_error plan t = Some rad ->
         0 <= Renter rad
         /\ 0 < Avdrag rad <= Terminbelop rad
         /\ 0 <= Gjenstaaende rad < gjenstaaende_foer laan plan t.
Proof.
  intros Hl Hr Hn.
  destruct (terminbelop_gyldig laan rente n Hl Hr Hn) as [HT Hok].
  unfold beregn_amortiseringsplan.
  rewrite beregn_terminbelop_returns by assumption. simpl bind.
  eexists. split; [reflexivity|].
  intros t rad Hnth.
  destruct (plan_loop_gyldig _ _ HT
              (Z.to_nat (match antall_aar with
                         | None => Z.min 10 n
                         | Some a => a
                         end * 12)) _ 0%Z _ Hok) as (_ & Hrows & _).
  rewrite Forall_forall in Hrows.
  destruct (Hrows rad (nth_error_In _ _ Hnth)) as (HR & HA0 & HA1).
  destruct (plan_loop_rad _ _ _ _ _ _ _ Hnth) as (Hfoer & HTr & _ & _ & HG).
  simpl in Hfoer.
  split; [assumption|]. split; [rewrite HTr; split; assumption|].
  rewrite HG. unfold py_max.
  destruct (Qlt_bool 0 (_ - Avdrag rad)) eqn:E.
  - apply Qlt_bool_iff in E. split; lra.
  - split; [apply Qle_refl | assumption].
Qed.

(** X2.  In every plan the program returns, each instalment is the one
    before times (1 + monthly rate), and the interest falls by the
    monthly rate times the instalment before. *)
Theorem amortiseringsplan_avdrag_vekst (laan rente : Q) (n : Z)
    (antall_aar : option Z) (plan : list PlanRad) (t : nat) (r1 r2 : PlanRad) :
  beregn_amortiseringsplan laan rente n antall_aar = Ok plan ->
  nth_error plan t = Some r1 ->
  nth_error plan (S t) = Some r2 ->
  Avdrag r2 == (1 + rente / 100 / 12) * Avdrag r1
  /\ Renter r2 == Renter r1 - rente / 100 / 12 * Avdrag r1.
Proof.
  intros Hplan H1 H2.
  destruct (beregn_amortiseringsplan_inv _ _ _ _ _ Hplan) as (T & _ & ->).
  destruct (plan_loop_neste _ _ _ _ _ _ _ _ H1 H2) as (HA & HR & _).
  now split.
Qed.

(** X3.  The plan of a shorter horizon is the beginning of the plan of a
    longer one: its rows are the first 12 * antall_aar rows. *)
Theorem amortiseringsplan_kortere_horisont (laan rente : Q) (n a b : Z)
    (plan_a plan_b : list PlanRad) :
  (a <= b)%Z ->
  beregn_amortiseringsplan laan rente n (Some a) = Ok plan_a ->
  beregn_amortiseringsplan laan rente n (Some b) = Ok plan_b ->
  plan_a = firstn (Z.to_nat (a * 12)) plan_b.
Proof.
  intros Hab Ha Hb.
  destruct (beregn_amortiseringsplan_inv _ _ _ _ _ Ha) as (T & HT & ->).
  destruct (beregn_amortiseringsplan_inv _ _ _ _ _ Hb) as (T' & HT' & ->).
  rewrite HT in HT'. inversion HT'; subst T'.
  replace (Z.to_nat (b * 12))
    with (Z.to_nat (a * 12) + (Z.to_nat (b * 12) - Z.to_nat (a * 12)))%nat by lia.
  apply plan_loop_firstn.
Qed.


(** X6.  A loan that is not positive, or a horizon that is not positive,
    gives a plan without rows; no plan has more than 12 rows per year
    of its horizon. *)
Theorem amortiseringsplan_tom (laan rente : Q) (n a : Z) (plan : list PlanRad) :
  beregn_amortiseringsplan laan rente n (Some a) = Ok plan ->
  (List.length plan <= Z.to_nat (a * 12))%nat
  /\ (laan <= 0 \/ (a <= 0)%Z -> plan = []).
Proof.
  intro Hplan.
  destruct (beregn_amortiseringsplan_inv _ _ _ _ _ Hplan) as (T & _ & ->).
  split; [apply plan_loop_length|].
  intros [H|H].
  - now apply plan_loop_stop.
  - replace (Z.to_nat (a * 12)) with 0%nat by lia. reflexivity.
Qed.

(** X7.  Row t of a plan (counting from 0) is labelled year t div 12 + 1
    and month t mod 12 + 1, a month from 1 to 12; its tax deduction is
    22 per cent of its interest and its net cost the payment less the
    deduction. *)
Theorem amortiseringsplan_kolonner (laan rente : Q) (n : Z) (antall_aar : option Z)
    (plan : list PlanRad) (t : nat) (rad : PlanRad) :
  beregn_amortiseringsplan laan rente n antall_aar = Ok plan ->
  nth_error plan t = Some rad ->
  Aar rad = (Z.of_nat t / 12 + 1)%Z
  /\ Maaned rad = (Z.of_nat t mod 12 + 1)%Z
  /\ (1 <= Maaned rad <= 12)%Z
  /\ Skattefradrag rad == Renter rad * 0.22
  /\ Netto_kostnad rad == Terminbelop rad - Skattefradrag rad.
Proof.
  intros Hplan Hnth.
  destruct (beregn_amortiseringsplan_inv _ _ _ _ _ Hplan) as (T & _ & ->).
  destruct (plan_loop_kolonner _ _ _ _ _ _ _ Hnth) as (HA & HM & HS & HN).
  simpl in HA, HM. rewrite HA, HM, HN, HS.
  pose proof (Z.mod_pos_bound (Z.of_nat t) 12 ltac:(lia)).
  split; [reflexivity|]. split; [reflexivity|]. split; [lia|].
  split; reflexivity.
Qed.

(** X8.  Over the full term of a valid loan the interest column sums to
    the payments less the loan, 12 * term * payment - loan; it is not
    negative, and positive when the rate is. *)
Theorem amortiseringsplan_rentekostnad (laan rente : Q) (n : Z) :
  0 < laan -> 0 <= rente -> (0 < n)%Z ->
  exists terminbelop plan,
    beregn_terminbelop laan rente n = Ok terminbelop
    /\ beregn_amortiseringsplan laan rente n (Some n) = Ok plan
    /\ Qsum (map Renter plan) == inject_Z (n * 12) * terminbelop - laan
    /\ 0 <= Qsum (map Renter plan)
    /\ (0 < rente -> 0 < Qsum (map Renter plan)).
Proof.
  intros Hl Hr Hn.
  destruct (terminbelop_gyldig laan rente n Hl Hr Hn) as [HT Hok].
  exists (computeFixedPayment_spec laan rente n). eexists.
  split; [now apply beregn_terminbelop_returns|].
  split; [now apply beregn_amortiseringsplan_gyldig|].
  set (T := computeFixedPayment_spec laan rente n) in *.
  set (mr := rente / 100 / 12) in *.
  destruct (plan_loop_gyldig _ _ HT (Z.to_nat (n * 12)) _ 0%Z _ Hok)
    as (Hlen & Hrows & Hsum & _ & Hrest).
  rewrite Nat.min_id in Hlen. rewrite Nat.min_id, Nat.sub_diag in Hrest.
  apply restsaldo_null in Hrest.
  pose proof (plan_loop_kolonnesum T mr (Z.to_nat (n * 12)) 0 laan) as Hkol.
  rewrite Hlen, Z2Nat.id in Hkol by lia.
  assert (0 <= Qsum (map Renter (plan_loop T mr (Z.to_nat (n * 12)) 0 laan))) as H0.
  { apply Qsum_ikke_negativ. eapply Forall_impl; [|exact Hrows].
    intros rad H. apply H. }
  split; [lra|]. split; [assumption|].
  intro Hpos.
  assert (0 < mr) as Hmr by (now apply maanedlig_rente_pos).
  destruct (Z.to_nat (n * 12)) as [|N] eqn:EN; [lia|].
  rewrite plan_loop_step in * by assumption.
  cbn [map Qsum fold_right Renter] in *.
  fold (Qsum (map Renter (plan_loop T mr N (0 + 1)%Z (laan - (T - laan * mr))))) in *.
  inversion Hrows as [|rad rest _ Hrest']; subst.
  assert (0 <= Qsum (map Renter (plan_loop T mr N (0 + 1)%Z (laan - (T - laan * mr)))))
    as H1.
  { apply Qsum_ikke_negativ. eapply Forall_impl; [|exact Hrest'].
    intros rad H. apply H. }
  pose proof (Qmult_lt_0_compat _ _ Hl Hmr). lra.
Qed.

(** X9.  For a loan that is not negative and a positive term, a higher
    rate never gives a lower payment: the payment at rate rente_1 is at
    most the payment at rente_2 when 0 <= rente_1 <= rente_2. *)
Theorem beregn_terminbelop_voksende_i_rente (laan rente_1 rente_2 : Q) (n : Z) :
  0 <= laan -> 0 <= rente_1 -> rente_1 <= rente_2 -> (0 < n)%Z ->
  exists T1 T2,
    beregn_terminbelop laan rente_1 n = Ok T1
    /\ beregn_terminbelop laan rente_2 n = Ok T2
    /\ 0 <= T1 <= T2.
Proof.
  intros Hl Hr1 Hr12 Hn.
  do 2 eexists.
  split; [now apply beregn_terminbelop_returns|].
  split; [apply beregn_terminbelop_returns; [lra | assumption]|].
  split; [now apply terminbelop_ikke_negativt | now apply terminbelop_voksende].
Qed.

(** X5.  The repayment analysis of the sale tab, for a positive loan, a
    rate that is not negative, a positive term and a sale after at
    least one year, uses the plan and not the straight-line estimate:
    the loan left is the balance the plan ends on, not negative and
    below the loan; instalments and loan left add up to the loan; the
    tax deduction is 22 per cent of the interest. *)
Theorem nedbetalingsanalyse_gyldig (laanebelop rente : Q) (nedbetalingstid salgsaar : Z) :
  0 < laanebelop -> 0 <= rente -> (0 < nedbetalingstid)%Z -> (1 <= salgsaar)%Z ->
  exists plan total_avdrag total_renter total_skattefradrag gjenstaaende_laan,
    beregn_amortiseringsplan laanebelop rente nedbetalingstid (Some salgsaar) = Ok plan
    /\ nedbetalingsanalyse laanebelop rente nedbetalingstid salgsaar
       = Ok (total_avdrag, total_renter, total_skattefradrag, gjenstaaende_laan)
    /\ total_avdrag == Qsum (map Avdrag plan)
    /\ gjenstaaende_laan == sluttsaldo laanebelop plan
    /\ 0 <= gjenstaaende_laan < laanebelop
    /\ total_avdrag + gjenstaaende_laan == laanebelop
    /\ total_skattefradrag == total_renter * 0.22.
Proof.
  intros Hl Hr Hn Ha.
  destruct (terminbelop_gyldig laanebelop rente nedbetalingstid Hl Hr Hn) as [HT Hok].
  unfold nedbetalingsanalyse.
  rewrite beregn_amortiseringsplan_gyldig by assumption. simpl bind.
  set (T := computeFixedPayment_spec laanebelop rente nedbetalingstid) in *.
  set (mr := rente / 100 / 12) in *.
  destruct (plan_loop_gyldig _ _ HT (Z.to_nat (salgsaar * 12)) _ 0%Z _ Hok)
    as (Hlen & Hrows & Hsum & Hslutt & _).
  pose proof (plan_loop_skattefradrag T mr (Z.to_nat (salgsaar * 12)) 0 laanebelop)
    as Hskatt.
  assert (0 < Qsum (map Avdrag (plan_loop T mr (Z.to_nat (salgsaar * 12)) 0 laanebelop)))
    as Hpos.
  { apply Qsum_positiv.
    - eapply Forall_impl; [|exact Hrows]. intros rad H. apply H.
    - intro E. rewrite E in Hlen. simpl in Hlen. lia. }
  destruct (plan_loop T mr (Z.to_nat (salgsaar * 12)) 0 laanebelop)
    as [|rad rest] eqn:E.
  - simpl in Hlen. lia.
  - do 5 eexists. split; [reflexivity|]. split; [reflexivity|].
    split; [reflexivity|]. split; [lra|]. split; [split; lra|].
    split; [ring | exact Hskatt].
Qed.

End PlanEgenskaper.

Lemma amortiseringsplan_avdrag_positivt_witness :
  exists plan,
    Annuitet.beregn_amortiseringsplan 1200 0 1 None = Ok plan
    /\ forall t rad, nth_error plan t = Some rad ->
         0 <= Annuitet.Renter rad
         /\ 0 < Annuitet.Avdrag rad <= Annuitet.Terminbelop rad
         /\ 0 <= Annuitet.Gjenstaaende rad < Annuitet.gjenstaaende_foer 1200 plan t.
Proof.
  apply (amortiseringsplan_avdrag_positivt 1200 0 1 None);
    [reflexivity | discriminate | reflexivity].
Defined.

Lemma amortiseringsplan_avdrag_vekst_witness :
  exists plan r1 r2,
    Annuitet.beregn_amortiseringsplan 1200 0 1 (Some 1%Z) = Ok plan
    /\ nth_error plan 0 = Some r1
    /\ nth_error plan 1 = Some r2
    /\ Annuitet.Avdrag r2 == (1 + 0 / 100 / 12) * Annuitet.Avdrag r1.
Proof.
  set (plan := Annuitet.plan_loop (1200 / inject_Z (1 * 12)) (0 / 100 / 12) 12 0 1200).
  assert (Annuitet.beregn_amortiseringsplan 1200 0 1 (Some 1%Z) = Ok plan) as Hplan
    by reflexivity.
  assert (exists rad, nth_error plan 0 = Some rad) as [r1 H1]
    by (eexists; reflexivity).
  assert (exists rad, nth_error plan 1 = Some rad) as [r2 H2]
    by (eexists; reflexivity).
  exists plan, r1, r2.
  split; [exact Hplan|]. split; [exact H1|]. split; [exact H2|].
  exact (proj1 (amortiseringsplan_avdrag_vekst 1200 0 1 (Some 1%Z) plan 0 r1 r2
                  Hplan H1 H2)).
Defined.

Lemma amortiseringsplan_kortere_horisont_witness :
  exists plan_a plan_b,
    Annuitet.beregn_amortiseringsplan 2400 0 2 (Some 1%Z) = Ok plan_a
    /\ Annuitet.beregn_amortiseringsplan 2400 0 2 (Some 2%Z) = Ok plan_b
    /\ plan_a = firstn 12 plan_b.
Proof.
  set (plan_a := Annuitet.plan_loop (2400 / inject_Z (2 * 12)) (0 / 100 / 12) 12 0 2400).
  set (plan_b := Annuitet.plan_loop (2400 / inject_Z (2 * 12)) (0 / 100 / 12) 24 0 2400).
  assert (Annuitet.beregn_amortiseringsplan 2400 0 2 (Some 1%Z) = Ok plan_a) as Ha
    by reflexivity.
  assert (Annuitet.beregn_amortiseringsplan 2400 0 2 (Some 2%Z) = Ok plan_b) as Hb
    by reflexivity.
  exists plan_a, plan_b.
  split; [exact Ha|]. split; [exact Hb|].
  apply (amortiseringsplan_kortere_horisont 2400 0 2 1 2 plan_a plan_b);
    [discriminate | exact Ha | exact Hb].
Defined.


Lemma nedbetalingsanalyse_gyldig_witness :
  exists plan total_avdrag total_renter total_skattefradrag gjenstaaende_laan,
    Annuitet.beregn_amortiseringsplan 3200000 4.99 25 (Some 5%Z) = Ok plan
    /\ nedbetalingsanalyse 3200000 4.99 25 5
       = Ok (total_avdrag, total_renter, total_skattefradrag, gjenstaaende_laan)
    /\ total_avdrag == Qsum (map Annuitet.Avdrag plan)
    /\ gjenstaaende_laan == sluttsaldo 3200000 plan
    /\ 0 <= gjenstaaende_laan < 3200000
    /\ total_avdrag + gjenstaaende_laan == 3200000
    /\ total_skattefradrag == total_renter * 0.22.
Proof.
  apply (nedbetalingsanalyse_gyldig 3200000 4.99 25 5);
    [reflexivity | discriminate | reflexivity | discriminate].
Defined.

Lemma amortiseringsplan_tom_witness :
  exists plan,
    Annuitet.beregn_amortiseringsplan 0 0 25 (Some 10%Z) = Ok plan /\ plan = [].
Proof.
  assert (Annuitet.beregn_amortiseringsplan 0 0 25 (Some 10%Z) = Ok []) as H
    by reflexivity.
  exists []. split; [exact H|].
  apply (proj2 (amortiseringsplan_tom 0 0 25 10 [] H)).
  left. discriminate.
Defined.

Lemma amortiseringsplan_kolonner_witness :
  exists plan rad,
    Annuitet.beregn_amortiseringsplan 1200 0 2 (Some 2%Z) = Ok plan
    /\ nth_error plan 1 = Some rad
    /\ Annuitet.Aar rad = 1%Z /\ Annuitet.Maaned rad = 2%Z.
Proof.
  set (plan := Annuitet.plan_loop (1200 / inject_Z (2 * 12)) (0 / 100 / 12) 24 0 1200).
  assert (Annuitet.beregn_amortiseringsplan 1200 0 2 (Some 2%Z) = Ok plan) as Hplan
    by reflexivity.
  assert (exists rad, nth_error plan 1 = Some rad) as [rad H1]
    by (eexists; reflexivity).
  destruct (amortiseringsplan_kolonner 1200 0 2 (Some 2%Z) plan 1 rad Hplan H1)
    as (HA & HM & _).
  exists plan, rad.
  split; [exact Hplan|]. split; [exact H1|]. split; [exact HA | exact HM].
Defined.

Lemma amortiseringsplan_rentekostnad_witness :
  exists terminbelop plan,
    Annuitet.beregn_terminbelop 3200000 4.99 25 = Ok terminbelop
    /\ Annuitet.beregn_amortiseringsplan 3200000 4.99 25 (Some 25%Z) = Ok plan
    /\ Qsum (map Annuitet.Renter plan) == inject_Z (25 * 12) * terminbelop - 3200000
    /\ 0 <= Qsum (map Annuitet.Renter plan)
    /\ (0 < 4.99 -> 0 < Qsum (map Annuitet.Renter plan)).
Proof.
  apply (amortiseringsplan_rentekostnad 3200000 4.99 25);
    [reflexivity | discriminate | reflexivity].
Defined.

Lemma beregn_terminbelop_voksende_i_rente_witness :
  exists T1 T2,
    Annuitet.beregn_terminbelop 3200000 4.99 25 = Ok T1
    /\ Annuitet.beregn_terminbelop 3200000 7.99 25 = Ok T2
    /\ 0 <= T1 <= T2.
Proof.
  apply (beregn_terminbelop_voksende_i_rente 3200000 4.99 7.99 25);
    [discriminate | discriminate | discriminate | reflexivity].
Defined.

(** ** Cost allocator: bounds *)

Section FordelingGrenser.

Import Fordeling.
Local Open Scope string_scope.

(** The shares of an amount that is not negative lie between zero and
    the amount, and add up to it unless both incomes are zero under the
    income-proportional split. *)
Lemma beregn_fordeling_andeler (total inntekt_a inntekt_b : Q)
    (fordeling_type : string) (custom_split : option Q) :
  0 <= total -> 0 <= inntekt_a -> 0 <= inntekt_b ->
  (fordeling_type = "Egendefinert" -> custom_split <> None) ->
  (forall c, custom_split = Some c -> 0 <= c <= 100) ->
  exists andel_a andel_b,
    beregn_fordeling total inntekt_a inntekt_b fordeling_type custom_split
    = Ok (andel_a, andel_b)
    /\ 0 <= andel_a <= total /\ 0 <= andel_b <= total
    /\ (~ (fordeling_type = "Proporsjonal etter inntekt" /\ inntekt_a + inntekt_b == 0) ->
        andel_a + andel_b == total).
Proof.
  intros Ht Ha Hb Hcs Hc. unfold beregn_fordeling.
  assert (forall p, 0 <= p <= 1 ->
            0 <= total * p <= total /\ 0 <= total * (1 - p) <= total
            /\ total * p + total * (1 - p) == total) as Handel.
  { intros p Hp.
    pose proof (Qmult_andel total p Ht Hp).
    assert (0 <= 1 - p <= 1) as Hp' by (destruct Hp; split; lra).
    pose proof (Qmult_andel total (1 - p) Ht Hp').
    repeat split; try tauto. ring. }
  destruct (String.eqb_spec fordeling_type "50/50") as [E1|N1].
  { do 2 eexists. split; [reflexivity|].
    assert (total / 2 == total * (1 # 2)) as Hh by field.
    rewrite Hh.
    pose proof (Qmult_andel total (1 # 2) Ht ltac:(split; discriminate)).
    split; [tauto|]. split; [tauto|]. intros _. ring. }
  destruct (String.eqb_spec fordeling_type "Proporsjonal etter inntekt") as [E2|N2].
  { destruct (Qeq_bool (inntekt_a + inntekt_b) 0) eqn:E0.
    - apply Qeq_bool_iff in E0. do 2 eexists. split; [reflexivity|].
      split; [split; [apply Qle_refl | assumption]|].
      split; [split; [apply Qle_refl | assumption]|].
      intro H. exfalso. apply H. now split.
    - apply Qeq_bool_false_iff in E0.
      assert (0 < inntekt_a + inntekt_b) as Hsum.
      { apply Qlt_leneq. split; [lra|]. intro H. apply E0. now symmetry. }
      assert (0 <= inntekt_a / (inntekt_a + inntekt_b) <= 1) as Hp.
      { split; [apply Qle_shift_div_l | apply Qle_shift_div_r]; lra. }
      destruct (Handel _ Hp) as (H1 & H2 & H3).
      do 2 eexists. split; [reflexivity|]. split; [exact H1|]. split; [exact H2|].
      intros _. exact H3. }
  destruct (String.eqb_spec fordeling_type "Egendefinert") as [E3|N3].
  { destruct custom_split as [c|]; [|now specialize (Hcs E3)].
    destruct (Hc c eq_refl) as [Hc0 Hc1].
    assert (0 <= c / 100 <= 1) as Hp.
    { split; [apply Qle_shift_div_l | apply Qle_shift_div_r]; try reflexivity; lra. }
    destruct (Handel _ Hp) as (H1 & H2 & H3).
    do 2 eexists. split; [reflexivity|]. split; [exact H1|]. split; [exact H2|].
    intros _. exact H3. }
  do 2 eexists. split; [reflexivity|].
  assert (total / 2 == total * (1 # 2)) as Hh by field.
  rewrite Hh.
  pose proof (Qmult_andel total (1 # 2) Ht ltac:(split; discriminate)).
  split; [tauto|]. split; [tauto|]. intros _. ring.
Qed.

(** X10.  Of an amount that is not negative each of the two gets a share
    between zero and the whole amount, for incomes that are not negative
    and a custom split between 0 and 100. *)
Theorem beregn_fordeling_grenser (total inntekt_a inntekt_b : Q)
    (fordeling_type : string) (custom_split : option Q) :
  0 <= total -> 0 <= inntekt_a -> 0 <= inntekt_b ->
  (fordeling_type = "Egendefinert" -> custom_split <> None) ->
  (forall c, custom_split = Some c -> 0 <= c <= 100) ->
  exists andel_a andel_b,
    beregn_fordeling total inntekt_a inntekt_b fordeling_type custom_split
    = Ok (andel_a, andel_b)
    /\ 0 <= andel_a <= total /\ 0 <= andel_b <= total.
Proof.
  intros Ht Ha Hb Hcs Hc.
  destruct (beregn_fordeling_andeler _ _ _ _ _ Ht Ha Hb Hcs Hc)
    as (a & b & H & H1 & H2 & _).
  now exists a, b.
Qed.

End FordelingGrenser.

Lemma beregn_fordeling_grenser_witness :
  exists andel_a andel_b,
    Fordeling.beregn_fordeling 21500 37900 58500 "Egendefinert" (Some 40)
    = Ok (andel_a, andel_b)
    /\ 0 <= andel_a <= 21500 /\ 0 <= andel_b <= 21500.
Proof.
  apply (beregn_fordeling_grenser 21500 37900 58500 "Egendefinert" (Some 40));
    try discriminate.
  intros c Hc. inversion Hc; subst c. split; discriminate.
Defined.

(** ** Debt service ratios *)

Section BelastningProps.

Import Belastning.

(** X11.  [beregn_belastningsgrad] never raises, and an income of zero
    gives the ratio zero.  [beregn_effektiv_belastning] raises a
    division by zero exactly when the income is not zero while income
    plus tax deduction is. *)
Theorem beregn_effektiv_belastning_feil (boligutgifter nettoinntekt skattefradrag_mnd : Q) :
  (exists v, beregn_belastningsgrad boligutgifter nettoinntekt = Ok v
             /\ (nettoinntekt == 0 -> v = 0))
  /\ (beregn_effektiv_belastning boligutgifter nettoinntekt skattefradrag_mnd
      = Raise ZeroDivisionError
      <-> ~ nettoinntekt == 0 /\ nettoinntekt + skattefradrag_mnd == 0)
  /\ (forall e,
        beregn_effektiv_belastning boligutgifter nettoinntekt skattefradrag_mnd
        = Raise e -> e = ZeroDivisionError).
Proof.
  unfold beregn_belastningsgrad, beregn_effektiv_belastning.
  destruct (Qeq_bool nettoinntekt 0) eqn:E.
  - apply Qeq_bool_iff in E. split; [exists 0; now split|].
    split; [|discriminate]. split; [discriminate|]. intros [H _]. contradiction.
  - apply Qeq_bool_false_iff in E. rewrite py_div_ok by assumption. simpl bind.
    split; [eexists; split; [reflexivity | intro; contradiction]|].
    unfold py_div.
    destruct (Qeq_bool (nettoinntekt + skattefradrag_mnd) 0) eqn:E2; simpl bind.
    + apply Qeq_bool_iff in E2. split; [|intros e H; now inversion H].
      split; [intros _; now split | reflexivity].
    + apply Qeq_bool_false_iff in E2. split; [|discriminate].
      split; [discriminate|]. intros [_ H]. contradiction.
Qed.

(** X12.  For a positive income, a tax deduction and a cost that are
    not negative, both ratios are returned, neither is negative, and
    the effective ratio is at most the plain one; the two are equal
    when there is no deduction. *)
Theorem beregn_effektiv_belastning_lavere (boligutgifter nettoinntekt skattefradrag_mnd : Q) :
  0 <= boligutgifter -> 0 < nettoinntekt -> 0 <= skattefradrag_mnd ->
  exists belastning effektiv,
    beregn_belastningsgrad boligutgifter nettoinntekt = Ok belastning
    /\ beregn_effektiv_belastning boligutgifter nettoinntekt skattefradrag_mnd
       = Ok effektiv
    /\ 0 <= effektiv <= belastning
    /\ (skattefradrag_mnd == 0 -> effektiv == belastning).
Proof.
  intros Hb Hn Hs.
  unfold beregn_belastningsgrad, beregn_effektiv_belastning.
  replace (Qeq_bool nettoinntekt 0) with false
    by (symmetry; apply Qeq_bool_false_iff; lra).
  rewrite !py_div_ok by lra. simpl bind.
  do 2 eexists. split; [reflexivity|]. split; [reflexivity|].
  assert (0 <= boligutgifter / (nettoinntekt + skattefradrag_mnd)) as H0
    by (apply Qle_shift_div_l; lra).
  assert (boligutgifter / (nettoinntekt + skattefradrag_mnd)
          <= boligutgifter / nettoinntekt) as H1.
  { apply Qle_shift_div_l; [lra|].
    setoid_replace (boligutgifter / (nettoinntekt + skattefradrag_mnd) * nettoinntekt)
      with (boligutgifter
            - boligutgifter / (nettoinntekt + skattefradrag_mnd) * skattefradrag_mnd)
      by (field; lra).
    assert (0 <= boligutgifter / (nettoinntekt + skattefradrag_mnd) * skattefradrag_mnd)
      by (now apply Qmult_le_0_compat).
    lra. }
  split; [split; lra|].
  intro Hz. rewrite Hz. field. lra.
Qed.

End BelastningProps.

Lemma beregn_effektiv_belastning_feil_witness :
  Belastning.beregn_effektiv_belastning 100 50 (-50) = Raise ZeroDivisionError.
Proof.
  apply (proj1 (proj2 (beregn_effektiv_belastning_feil 100 50 (-50)))).
  split; [discriminate | reflexivity].
Defined.

Lemma beregn_effektiv_belastning_lavere_witness :
  exists belastning effektiv,
    Belastning.beregn_belastningsgrad 8450 37900 = Ok belastning
    /\ Belastning.beregn_effektiv_belastning 8450 37900 1150 = Ok effektiv
    /\ 0 <= effektiv <= belastning.
Proof.
  destruct (beregn_effektiv_belastning_lavere 8450 37900 1150)
    as (b & e & Hb & He & Hle & _); try discriminate; [reflexivity|].
  now exists b, e.
Defined.

(** ** The cost tab and the plan *)

Section KostnaderProps.

Import Annuitet Kostnader.
Local Open Scope string_scope.

Lemma beregn_fordeling_returnerer (total inntekt_a inntekt_b : Q)
    (fordeling_type : string) (custom_split : option Q) :
  (fordeling_type = "Egendefinert" -> custom_split <> None) ->
  exists andeler,
    Fordeling.beregn_fordeling total inntekt_a inntekt_b fordeling_type custom_split
    = Ok andeler.
Proof.
  intro Hcs. unfold Fordeling.beregn_fordeling.
  destruct (String.eqb fordeling_type "50/50"); [eexists; reflexivity|].
  destruct (String.eqb fordeling_type "Proporsjonal etter inntekt").
  { destruct (Qeq_bool (inntekt_a + inntekt_b) 0); eexists; reflexivity. }
  destruct (String.eqb_spec fordeling_type "Egendefinert") as [E|N];
    [|eexists; reflexivity].
  destruct custom_split as [c|]; [eexists; reflexivity | now specialize (Hcs E)].
Qed.

(** X13.  The monthly interest, instalment and tax deduction that the
    cost tab derives from the loan and the rate are those of the first
    row of the amortisation plan, for a positive loan, a rate that is
    not negative and a positive term. *)
Theorem maanedskostnad_foerste_termin (laanebelop rente : Q) (nedbetalingstid : Z)
    (felleskostnader brutto_aar_a brutto_aar_b : Q)
    (fordeling_type : string) (custom_split : option Q) :
  0 < laanebelop -> 0 <= rente -> (0 < nedbetalingstid)%Z ->
  (fordeling_type = "Egendefinert" -> custom_split <> None) ->
  exists m plan rad,
    maanedskostnad laanebelop rente nedbetalingstid felleskostnader
      brutto_aar_a brutto_aar_b fordeling_type custom_split = Ok m
    /\ beregn_amortiseringsplan laanebelop rente nedbetalingstid None = Ok plan
    /\ nth_error plan 0 = Some rad
    /\ terminbelop m = Terminbelop rad
    /\ rentekostnad_mnd m == Renter rad
    /\ avdrag_mnd m == Avdrag rad
    /\ skattefradrag_mnd m == Annuitet.Skattefradrag rad.
Proof.
  intros Hl Hr Hn Hcs.
  unfold maanedskostnad, beregn_amortiseringsplan.
  rewrite beregn_terminbelop_returns by assumption. simpl bind.
  set (T := computeFixedPayment_spec laanebelop rente nedbetalingstid).
  destruct (beregn_fordeling_returnerer (T + felleskostnader) brutto_aar_a brutto_aar_b
              fordeling_type custom_split Hcs) as [kostnad Hk].
  destruct (beregn_fordeling_returnerer
              (Belastning.beregn_skattefradrag (laanebelop * (rente / 100) / 12))
              brutto_aar_a brutto_aar_b fordeling_type custom_split Hcs) as [fradrag Hf].
  rewrite Hk, Hf. simpl bind.
  destruct (Z.to_nat (Z.min 10 nedbetalingstid * 12)) as [|k] eqn:Ek; [lia|].
  rewrite plan_loop_step by assumption.
  do 3 eexists. split; [reflexivity|]. split; [reflexivity|]. split; [reflexivity|].
  simpl. unfold Belastning.beregn_skattefradrag.
  split; [reflexivity|]. split; [field|]. split; [field|]. field.
Qed.

End KostnaderProps.

Lemma maanedskostnad_foerste_termin_witness :
  exists m plan rad,
    Kostnader.maanedskostnad 3200000 4.99 25 3500 37900 58500
      "Proporsjonal etter inntekt" None = Ok m
    /\ Annuitet.beregn_amortiseringsplan 3200000 4.99 25 None = Ok plan
    /\ nth_error plan 0 = Some rad
    /\ Kostnader.rentekostnad_mnd m == Annuitet.Renter rad.
Proof.
  destruct (maanedskostnad_foerste_termin 3200000 4.99 25 3500 37900 58500
              "Proporsjonal etter inntekt" None)
    as (m & plan & rad & Hm & Hp & Hr & _ & HR & _);
    [reflexivity | discriminate | reflexivity | discriminate |].
  exists m, plan, rad.
  split; [exact Hm|]. split; [exact Hp|]. split; [exact Hr | exact HR].
Defined.

(** ** Comprehensions and dict displays *)

Section Hjelpesetninger.

Import Renteprognose Stresstest.

Lemma for_alle_map {A B : Type} (f : A -> result B) (g : A -> B) (xs : list A) :
  (forall x, In x xs -> f x = Ok (g x)) -> for_alle f xs = Ok (map g xs).
Proof.
  induction xs as [|x xs IH]; intro H; [reflexivity|].
  simpl. rewrite (H x) by now left. simpl.
  rewrite IH by (intros y Hy; apply H; now right). reflexivity.
Qed.

Lemma for_alle_inv {A B : Type} (f : A -> result B) (xs : list A) (ys : list B) :
  for_alle f xs = Ok ys -> Forall2 (fun x y => f x = Ok y) xs ys.
Proof.
  revert ys. induction xs as [|x xs IH]; intros ys H; simpl in H.
  - inversion H. constructor.
  - destruct (f x) as [y|e] eqn:Ef; simpl in H; [|discriminate].
    destruct (for_alle f xs) as [ys'|e] eqn:Er; simpl in H; [|discriminate].
    inversion H. constructor; [assumption | now apply IH].
Qed.

Lemma Forall2_In_r {A B : Type} (R : A -> B -> Prop) (xs : list A) (ys : list B) (y : B) :
  Forall2 R xs ys -> In y ys -> exists x, In x xs /\ R x y.
Proof.
  induction 1 as [|x y' xs ys HR _ IH]; intro Hin; [contradiction|].
  destruct Hin as [->|Hin].
  - exists x. split; [now left | assumption].
  - destruct (IH Hin) as (x' & Hx' & HR'). exists x'. split; [now right | assumption].
Qed.

(** Setting a key keeps every value that satisfies [P] if the new value
    does. *)
Lemma dict_sett_Forall {V : Type} (P : V -> Prop) (d : list (string * V))
    (key : string) (v : V) :
  Forall (fun kv => P (snd kv)) d -> P v ->
  Forall (fun kv => P (snd kv)) (dict_sett d key v).
Proof.
  intros Hd Hv. induction Hd as [|[k w] d Hw Hd IH]; simpl.
  - constructor; [assumption | constructor].
  - destruct (String.eqb k key); constructor; assumption.
Qed.

Lemma dict_fra_Forall {V : Type} (P : V -> Prop) (items : list (string * V)) :
  Forall (fun kv => P (snd kv)) items ->
  Forall (fun kv => P (snd kv)) (dict_fra items).
Proof.
  unfold dict_fra.
  assert (forall d, Forall (fun kv => P (snd kv)) d ->
                    Forall (fun kv => P (snd kv)) items ->
                    Forall (fun kv => P (snd kv))
                      (fold_left (fun d kv => dict_sett d (fst kv) (snd kv)) items d))
    as H.
  { induction items as [|[k v] items IH]; intros d Hd Hi; [assumption|].
    simpl. inversion Hi; subst. apply IH; [|assumption].
    now apply dict_sett_Forall. }
  intro Hi. apply H; [constructor | assumption].
Qed.

(** The first entry stays the first as long as no later key equals its
    key. *)
Lemma dict_fra_hode {V : Type} (k : string) (v : V) (items : list (string * V)) :
  Forall (fun kv => String.eqb k (fst kv) = false) items ->
  exists rest, dict_fra ((k, v) :: items) = (k, v) :: rest.
Proof.
  unfold dict_fra. simpl.
  assert (forall d, Forall (fun kv => String.eqb k (fst kv) = false) items ->
                    exists rest,
                      fold_left (fun d kv => dict_sett d (fst kv) (snd kv)) items
                        ((k, v) :: d) = (k, v) :: rest) as H.
  { induction items as [|[k' v'] items IH]; intros d Hi; [now exists d|].
    inversion Hi as [|? ? Hk Hrest]; subst. simpl in *. rewrite Hk.
    now apply IH. }
  apply H.
Qed.

End Hjelpesetninger.

(** ** Stress test *)

Section StresstestProps.

Import Annuitet Stresstest.
Local Open Scope string_scope.

Variable laanebelop : Q.
Variable nedbetalingstid : Z.
Variable felleskostnader : Q.

Lemma stress_rad_inv (scenario : string * StressParams) (r : StressRad) :
  stress_rad laanebelop nedbetalingstid felleskostnader scenario = Ok r ->
  exists T,
    beregn_terminbelop laanebelop (rente (snd scenario)) nedbetalingstid = Ok T
    /\ r = mkStressRad (fst scenario) (beskrivelse (snd scenario))
             (inntekt_a (snd scenario) + inntekt_b (snd scenario))
             (T + felleskostnader)
             (Belastning.beregn_skattefradrag
                (laanebelop * (rente (snd scenario) / 100) / 12))
             (inntekt_a (snd scenario) + inntekt_b (snd scenario)
              - (T + felleskostnader))
             (inntekt_a (snd scenario) + inntekt_b (snd scenario)
              + Belastning.beregn_skattefradrag
                  (laanebelop * (rente (snd scenario) / 100) / 12)
              - (T + felleskostnader))
             (if Qle_bool (T + felleskostnader)
                   (inntekt_a (snd scenario) + inntekt_b (snd scenario))
              then "✅ OK" else "❌ KRITISK").
Proof.
  unfold stress_rad.
  destruct (beregn_terminbelop laanebelop (rente (snd scenario)) nedbetalingstid)
    as [T|e]; simpl bind; [|discriminate].
  intro H. inversion H. now exists T.
Qed.

(** X14.  In every row of the stress table the status is OK exactly when
    the margin before the tax deduction is not negative and KRITISK
    exactly when it is negative, and the margin with the deduction is
    the margin before it plus the deduction; so the number of critical
    scenarios the recommendation counts is the number of rows marked
    KRITISK, and the recommendation is the best one exactly when no row
    is. *)
Theorem stress_status (scenarios : list (string * StressParams))
    (rader : list StressRad) :
  stress_results laanebelop nedbetalingstid felleskostnader scenarios = Ok rader ->
  (forall r, In r rader ->
     (Status r = "✅ OK" <-> 0 <= Margin_foer_fradrag r)
     /\ (Status r = "❌ KRITISK" <-> Margin_foer_fradrag r < 0)
     /\ Margin_med_fradrag r == Margin_foer_fradrag r + Skattefradrag r)
  /\ kritiske rader
     = List.length (filter (fun r => String.eqb (Status r) "❌ KRITISK") rader)
  /\ (anbefaling rader = Utmerket
      <-> Forall (fun r => Status r = "✅ OK") rader).
Proof.
  intro Hres. apply for_alle_inv in Hres.
  assert (forall r, In r rader ->
            (Status r = "✅ OK" <-> 0 <= Margin_foer_fradrag r)
            /\ (Status r = "❌ KRITISK" <-> Margin_foer_fradrag r < 0)
            /\ Margin_med_fradrag r == Margin_foer_fradrag r + Skattefradrag r)
    as Hrad.
  { intros r Hin.
    destruct (Forall2_In_r _ _ _ _ Hres Hin) as (sc & _ & Hsc).
    destruct (stress_rad_inv _ _ Hsc) as (T & _ & ->). simpl.
    destruct (Qle_bool (T + felleskostnader)
                (inntekt_a (snd sc) + inntekt_b (snd sc))) eqn:E.
    - apply Qle_bool_iff in E.
      split; [split; [intros _; lra | reflexivity]|].
      split; [split; [discriminate | intro; lra]|]. ring.
    - apply Qle_bool_false_iff in E.
      split; [split; [discriminate | intro; lra]|].
      split; [split; [intros _; lra | reflexivity]|]. ring. }
  assert (forall r, In r rader ->
            Qlt_bool (Margin_foer_fradrag r) 0
            = String.eqb (Status r) "❌ KRITISK") as Hfilter.
  { intros r Hin. destruct (Hrad r Hin) as (_ & [H1 H2] & _).
    destruct (String.eqb_spec (Status r) "❌ KRITISK") as [E|N].
    - apply Qlt_bool_iff. now apply H1.
    - apply Qlt_bool_false_iff. apply Qnot_lt_le. intro H. apply N. now apply H2. }
  assert (kritiske rader
          = List.length (filter (fun r => String.eqb (Status r) "❌ KRITISK") rader))
    as Hk.
  { unfold kritiske. f_equal. now apply filter_ext_in. }
  split; [exact Hrad|]. split; [exact Hk|].
  unfold anbefaling. rewrite Hk.
  split.
  - intro H.
    destruct (List.length (filter (fun r => String.eqb (Status r) "❌ KRITISK") rader)
              =? 0)%nat eqn:E0.
    + apply Nat.eqb_eq in E0. apply length_zero_iff_nil in E0.
      apply Forall_forall. intros r Hin.
      destruct (Hrad r Hin) as ([_ H1] & [H2 _] & _).
      apply H1. apply Qnot_lt_le. intro Hneg.
      assert (In r (filter (fun r => String.eqb (Status r) "❌ KRITISK") rader)) as Hf.
      { apply filter_In. split; [assumption|].
        rewrite <- Hfilter by assumption. now apply Qlt_bool_iff. }
      rewrite E0 in Hf. contradiction.
    + destruct (_ <=? 2)%nat; discriminate H.
  - intro Hall.
    assert (forall (f : StressRad -> bool) l,
               (forall x, In x l -> f x = false) -> filter f l = []) as Hnil.
    { intros f l. induction l as [|x l IH]; intro H; [reflexivity|].
      simpl. rewrite (H x) by now left. apply IH. intros y Hy. apply H. now right. }
    assert (filter (fun r => String.eqb (Status r) "❌ KRITISK") rader = []) as E0.
    { apply Hnil. intros r Hin. rewrite Forall_forall in Hall.
      now rewrite (Hall r Hin). }
    now rewrite E0.
Qed.

Hypothesis laan_ikke_negativt : 0 <= laanebelop.
Hypothesis tid_positiv : (0 < nedbetalingstid)%Z.

(** The row of a scenario whose rate is not negative. *)
Let rad_for (scenario : string * StressParams) : StressRad :=
  let T := computeFixedPayment_spec laanebelop (rente (snd scenario)) nedbetalingstid in
  mkStressRad (fst scenario) (beskrivelse (snd scenario))
    (inntekt_a (snd scenario) + inntekt_b (snd scenario))
    (T + felleskostnader)
    (Belastning.beregn_skattefradrag (laanebelop * (rente (snd scenario) / 100) / 12))
    (inntekt_a (snd scenario) + inntekt_b (snd scenario) - (T + felleskostnader))
    (inntekt_a (snd scenario) + inntekt_b (snd scenario)
     + Belastning.beregn_skattefradrag (laanebelop * (rente (snd scenario) / 100) / 12)
     - (T + felleskostnader))
    (if Qle_bool (T + felleskostnader)
          (inntekt_a (snd scenario) + inntekt_b (snd scenario))
     then "✅ OK" else "❌ KRITISK").

Lemma stress_rad_gyldig (scenario : string * StressParams) :
  0 <= rente (snd scenario) ->
  stress_rad laanebelop nedbetalingstid felleskostnader scenario
  = Ok (rad_for scenario).
Proof.
  intro Hr. unfold stress_rad.
  now rewrite beregn_terminbelop_returns by assumption.
Qed.

Lemma redusert_inntekt (netto andel : Q) :
  0 <= netto -> 0 <= andel <= 1 ->
  py_min (netto * andel) 22000 <= netto /\ py_min (netto * andel) 22000 <= 22000.
Proof.
  intros Hn Ha. split; [|apply py_min_le_r].
  apply Qle_trans with (netto * andel); [apply py_min_le_l|].
  now apply Qmult_andel.
Qed.

(** X15.  For a loan that is not negative, a positive term, a rate and
    incomes that are not negative, the stress table is returned and its
    first row is the normal situation; no scenario has a higher income,
    a lower cost or a better margin than the normal one, and in every
    row the margin with the tax deduction is at least the margin
    before it. *)
Theorem stress_normal_best (navn_a navn_b : string) (netto_mnd_a netto_mnd_b rente_naa : Q) :
  0 <= rente_naa -> 0 <= netto_mnd_a -> 0 <= netto_mnd_b ->
  exists normal rest,
    stress_results laanebelop nedbetalingstid felleskostnader
      (stress_scenarios navn_a navn_b netto_mnd_a netto_mnd_b rente_naa)
    = Ok (normal :: rest)
    /\ Scenario normal = "✅ Normal situasjon"
    /\ Total_inntekt normal = netto_mnd_a + netto_mnd_b
    /\ forall r, In r (normal :: rest) ->
         Total_inntekt r <= Total_inntekt normal
         /\ Total_kostnad normal <= Total_kostnad r
         /\ Margin_foer_fradrag r <= Margin_foer_fradrag normal
         /\ Margin_foer_fradrag r <= Margin_med_fradrag r.
Proof.
  intros Hr Ha Hb.
  set (P := fun p : StressParams =>
              inntekt_a p <= netto_mnd_a /\ inntekt_b p <= netto_mnd_b
              /\ rente_naa <= rente p).
  destruct (redusert_inntekt netto_mnd_a 0.6 Ha ltac:(split; discriminate)) as [Ha6 _].
  destruct (redusert_inntekt netto_mnd_b 0.6 Hb ltac:(split; discriminate)) as [Hb6 _].
  destruct (redusert_inntekt netto_mnd_a 0.66 Ha ltac:(split; discriminate)) as [Ha66 _].
  assert (Forall (fun kv => P (snd kv))
            (stress_scenarios navn_a navn_b netto_mnd_a netto_mnd_b rente_naa)) as HP.
  { unfold stress_scenarios. apply dict_fra_Forall.
    repeat (apply Forall_cons; [unfold P; simpl; repeat split; lra|]).
    apply Forall_nil. }
  destruct (dict_fra_hode "✅ Normal situasjon"
              (mkStressParams netto_mnd_a netto_mnd_b rente_naa
                 "Begge i full jobb, normal rente")
              [ ("⚠️ " ++ navn_a ++ " mister jobben",
                 mkStressParams (py_min (netto_mnd_a * 0.6) 22000) netto_mnd_b rente_naa
                   ("Kun " ++ navn_b ++ " har inntekt"));
                ("⚠️ " ++ navn_b ++ " mister jobben",
                 mkStressParams netto_mnd_a (py_min (netto_mnd_b * 0.6) 22000) rente_naa
                   ("Kun " ++ navn_a ++ " har inntekt"));
                ("⚠️ Begge mister jobben",
                 mkStressParams (py_min (netto_mnd_a * 0.6) 22000)
                   (py_min (netto_mnd_b * 0.6) 22000) rente_naa
                   "Begge uten jobb, dagpenger");
                ("🤒 " ++ navn_a ++ " langtidssykemeldt",
                 mkStressParams (py_min (netto_mnd_a * 0.66) 22000) netto_mnd_b rente_naa
                   (navn_a ++ " på 66% sykepenger"));
                ("📈 Rentekrise (+3%)",
                 mkStressParams netto_mnd_a netto_mnd_b (rente_naa + 3)
                   "Kraftig renteøkning");
                ("🔥 Perfekt storm",
                 mkStressParams (py_min (netto_mnd_a * 0.6) 22000)
                   (py_min (netto_mnd_b * 0.6) 22000) (rente_naa + 2)
                   "Reduserte inntekter + høyere rente") ]) as [resten Hhode].
  { repeat (apply Forall_cons; [reflexivity|]). apply Forall_nil. }
  fold (stress_scenarios navn_a navn_b netto_mnd_a netto_mnd_b rente_naa) in Hhode.
  rewrite Hhode in *.
  unfold stress_results.
  rewrite (for_alle_map _ rad_for).
  - do 2 eexists. split; [reflexivity|]. split; [reflexivity|]. split; [reflexivity|].
    intros r Hin.
    change (In r (map rad_for
                    (("✅ Normal situasjon",
                      mkStressParams netto_mnd_a netto_mnd_b rente_naa
                        "Begge i full jobb, normal rente") :: resten))) in Hin.
    apply in_map_iff in Hin. destruct Hin as (sc & <- & Hsc).
    rewrite Forall_forall in HP. destruct (HP sc Hsc) as (H1 & H2 & H3).
    pose proof (terminbelop_voksende laanebelop rente_naa (rente (snd sc))
                  nedbetalingstid laan_ikke_negativt Hr H3 tid_positiv) as HT.
    assert (0 <= Belastning.beregn_skattefradrag
                   (laanebelop * (rente (snd sc) / 100) / 12)) as Hs.
    { unfold Belastning.beregn_skattefradrag, Qdiv.
      repeat apply Qmult_le_0_compat; try assumption; try discriminate. lra. }
    simpl. repeat split; lra.
  - intros sc Hsc. apply stress_rad_gyldig.
    rewrite Forall_forall in HP. destruct (HP sc Hsc) as (_ & _ & H3). lra.
Qed.

End StresstestProps.

Lemma stress_status_witness :
  exists rader,
    Stresstest.stress_results 1200 1 0
      [ ("A"%string, Stresstest.mkStressParams 50 40 0 "a");
        ("B"%string, Stresstest.mkStressParams 150 40 0 "b") ] = Ok rader
    /\ Stresstest.kritiske rader
       = List.length
           (filter (fun r => String.eqb (Stresstest.Status r) "❌ KRITISK"%string)
              rader).
Proof.
  eexists. split; [reflexivity|].
  apply (stress_status 1200 1 0
           [ ("A"%string, Stresstest.mkStressParams 50 40 0 "a");
             ("B"%string, Stresstest.mkStressParams 150 40 0 "b") ] _ eq_refl).
Defined.

Lemma stress_normal_best_witness :
  exists normal rest,
    Stresstest.stress_results 3200000 25 3500
      (Stresstest.stress_scenarios "Thale" "Jonas" 37900 58500 4.99)
    = Ok (normal :: rest)
    /\ Stresstest.Scenario normal = "✅ Normal situasjon"%string
    /\ Stresstest.Total_inntekt normal = 37900 + 58500
    /\ forall r, In r (normal :: rest) ->
         Stresstest.Total_inntekt r <= Stresstest.Total_inntekt normal
         /\ Stresstest.Total_kostnad normal <= Stresstest.Total_kostnad r
         /\ Stresstest.Margin_foer_fradrag r <= Stresstest.Margin_foer_fradrag normal
         /\ Stresstest.Margin_foer_fradrag r <= Stresstest.Margin_med_fradrag r.
Proof.
  apply (stress_normal_best 3200000 25 3500); try discriminate. reflexivity.
Defined.

(** ** Stress test: the names of the scenarios *)

Section StressNavn.

Import Stresstest.
Local Open Scope string_scope.

Lemma length_append (a b : string) :
  String.length (a ++ b) = (String.length a + String.length b)%nat.
Proof. induction a as [|c a IH]; simpl; [reflexivity | now rewrite IH]. Qed.

Lemma append_venstre_inj (s a b : string) : a ++ s = b ++ s -> a = b.
Proof.
  revert b. induction a as [|c a IH]; intros [|c' b] H; simpl in H.
  - reflexivity.
  - apply (f_equal String.length) in H. simpl in H. rewrite length_append in H. lia.
  - apply (f_equal String.length) in H. simpl in H. rewrite length_append in H. lia.
  - inversion H. f_equal. now apply IH.
Qed.

Lemma dict_sett_ny {V : Type} (d : list (string * V)) (key : string) (v : V) :
  ~ In key (map fst d) -> dict_sett d key v = (d ++ [(key, v)])%list.
Proof.
  induction d as [|[k w] d IH]; intro H; simpl; [reflexivity|].
  simpl in H. destruct (String.eqb_spec k key) as [E|N]; [tauto|].
  rewrite IH by tauto. reflexivity.
Qed.

Lemma dict_sett_gammel {V : Type} (d : list (string * V)) (key : string) (v : V) :
  In key (map fst d) -> List.length (dict_sett d key v) = List.length d.
Proof.
  induction d as [|[k w] d IH]; intro H; simpl in *; [contradiction|].
  destruct (String.eqb_spec k key) as [E|N]; [reflexivity|].
  simpl. rewrite IH; [reflexivity|]. destruct H; [contradiction | assumption].
Qed.

(** Keys that are all different and all new are appended in order. *)
Lemma dict_fold_distinkt {V : Type} (items d : list (string * V)) :
  NoDup (map fst items) ->
  (forall k, In k (map fst items) -> ~ In k (map fst d)) ->
  fold_left (fun d kv => dict_sett d (fst kv) (snd kv)) items d = (d ++ items)%list.
Proof.
  revert d. induction items as [|[k v] items IH]; intros d Hnd Hdis; simpl.
  - now rewrite app_nil_r.
  - inversion Hnd as [|? ? Hk Hnd']; subst.
    rewrite dict_sett_ny by (apply Hdis; now left).
    rewrite IH; [now rewrite <- app_assoc|assumption|].
    intros k' Hk' Hin. rewrite map_app in Hin. apply in_app_or in Hin.
    destruct Hin as [Hin|[<-|[]]].
    + apply (Hdis k'); [now right | assumption].
    + contradiction.
Qed.

Lemma dict_fold_lengde_le {V : Type} (items d : list (string * V)) :
  (List.length (fold_left (fun d kv => dict_sett d (fst kv) (snd kv)) items d)
   <= List.length d + List.length items)%nat.
Proof.
  revert d. induction items as [|[k v] items IH]; intro d; simpl; [lia|].
  specialize (IH (dict_sett d k v)).
  destruct (in_dec String.string_dec k (map fst d)) as [Hin|Hnin].
  - rewrite dict_sett_gammel in IH by assumption. lia.
  - rewrite dict_sett_ny in * by assumption. rewrite length_app in IH. simpl in IH. lia.
Qed.

(** The dict has an entry per item only if no key comes twice. *)
Lemma dict_fold_lengde {V : Type} (items d : list (string * V)) :
  List.length (fold_left (fun d kv => dict_sett d (fst kv) (snd kv)) items d)
  = (List.length d + List.length items)%nat ->
  NoDup (map fst items)
  /\ forall k, In k (map fst items) -> ~ In k (map fst d).
Proof.
  revert d. induction items as [|[k v] items IH]; intros d Hlen; simpl in *.
  - split; [constructor | intros k []].
  - destruct (in_dec String.string_dec k (map fst d)) as [Hin|Hnin].
    + pose proof (dict_fold_lengde_le items (dict_sett d k v)) as Hle.
      rewrite dict_sett_gammel in Hle by assumption. lia.
    + rewrite dict_sett_ny in Hlen by assumption.
      destruct (IH (d ++ [(k, v)])%list) as [Hnd Hdis].
      { rewrite length_app. simpl. lia. }
      assert (forall k', In k' (map fst items) -> k' <> k /\ ~ In k' (map fst d))
        as Hny.
      { intros k' Hk'. specialize (Hdis k' Hk'). rewrite map_app in Hdis.
        split.
        - intros ->. apply Hdis. apply in_or_app. right. now left.
        - intro H. apply Hdis. apply in_or_app. now left. }
      split.
      * constructor; [|assumption]. intro Hk. now destruct (Hny k Hk).
      * intros k' [<-|Hk']; [assumption | now destruct (Hny k' Hk')].
Qed.

(** X16.  The stress table has its seven scenarios exactly when the two
    names differ and neither is "Begge": the scenario names are built
    from the names and used as dict keys, so with equal names, or the
    name "Begge", a scenario takes the place of another.  With seven,
    they come in the order written. *)
Theorem stress_scenarios_navn (navn_a navn_b : string)
    (netto_mnd_a netto_mnd_b rente_naa : Q) :
  (List.length (stress_scenarios navn_a navn_b netto_mnd_a netto_mnd_b rente_naa)
   <= 7)%nat
  /\ (List.length (stress_scenarios navn_a navn_b netto_mnd_a netto_mnd_b rente_naa)
      = 7%nat
      <-> navn_a <> navn_b /\ navn_a <> "Begge" /\ navn_b <> "Begge")
  /\ (navn_a <> navn_b -> navn_a <> "Begge" -> navn_b <> "Begge" ->
      map fst (stress_scenarios navn_a navn_b netto_mnd_a netto_mnd_b rente_naa)
      = [ "✅ Normal situasjon";
          "⚠️ " ++ navn_a ++ " mister jobben";
          "⚠️ " ++ navn_b ++ " mister jobben";
          "⚠️ Begge mister jobben";
          "🤒 " ++ navn_a ++ " langtidssykemeldt";
          "📈 Rentekrise (+3%)";
          "🔥 Perfekt storm" ]).
Proof.
  unfold stress_scenarios, dict_fra.
  match goal with
  | |- context [fold_left _ ?items []] => set (alle := items)
  end.
  assert (navn_a <> navn_b -> navn_a <> "Begge" -> navn_b <> "Begge" ->
          NoDup (map fst alle)) as Hnodup.
  { intros Hab Ha Hb. unfold alle. simpl map.
    assert (forall x y, "⚠️ " ++ x ++ " mister jobben" = "⚠️ " ++ y ++ " mister jobben"
                        -> x = y) as Hinj.
    { intros x y H. simpl in H. inversion H.
      now apply append_venstre_inj with " mister jobben". }
    assert (forall x, "⚠️ " ++ x ++ " mister jobben" = "⚠️ Begge mister jobben"
                      -> x = "Begge") as Hbegge.
    { intros x H. apply (Hinj x "Begge"). exact H. }
    repeat constructor; simpl; intro H;
      repeat (destruct H as [H|H]); try discriminate H; try contradiction.
    - apply Hab. now apply Hinj.
    - apply Ha. apply Hbegge. now symmetry.
    - apply Hb. apply Hbegge. now symmetry. }
  split; [apply (dict_fold_lengde_le alle [])|].
  split; [split|].
  - intro Hlen. destruct (dict_fold_lengde alle [] Hlen) as [Hnd _].
    unfold alle in Hnd. simpl map in Hnd.
    inversion Hnd as [|? ? _ Hnd1]; subst.
    inversion Hnd1 as [|? ? H2 Hnd2]; subst.
    inversion Hnd2 as [|? ? H3 _]; subst.
    split; [|split].
    + intros ->. apply H2. now left.
    + intros ->. apply H2. right. now left.
    + intros ->. apply H3. now left.
  - intros (Hab & Ha & Hb).
    rewrite dict_fold_distinkt; [reflexivity | now apply Hnodup | intros k _ []].
  - intros Hab Ha Hb.
    rewrite dict_fold_distinkt; [reflexivity | now apply Hnodup | intros k _ []].
Qed.

End StressNavn.

Lemma stress_scenarios_navn_witness :
  List.length (Stresstest.stress_scenarios "Thale" "Jonas" 37900 58500 4.99) = 7%nat
  /\ (List.length (Stresstest.stress_scenarios "Thale" "Thale" 37900 58500 4.99)
      < 7)%nat.
Proof.
  destruct (stress_scenarios_navn "Thale" "Jonas" 37900 58500 4.99) as (_ & [_ H] & _).
  destruct (stress_scenarios_navn "Thale" "Thale" 37900 58500 4.99) as (Hle & [H' _] & _).
  split.
  - apply H. repeat split; discriminate.
  - destruct (Nat.eq_dec
                (List.length
                   (Stresstest.stress_scenarios "Thale" "Thale" 37900 58500 4.99)) 7)
      as [E|N]; [|lia].
    destruct (H' E) as (Hab & _). now contradiction Hab.
Defined.

(** ** Budget tab *)

Section BudsjettProps.

Import Budsjett.
Local Open Scope string_scope.


End BudsjettProps.

(** ** Sale tab: who gets what, and the cash-flow chart *)

Section OppgjorMer.

Import Salg Pengestroem.
Local Open Scope string_scope.

Variable d : Salgsdata.

Lemma utbetaling_deler_netto (fordelingsmodell : string) :
  egenkapital_a d + egenkapital_b d == egenkapital d ->
  fst (utbetaling d fordelingsmodell) + snd (utbetaling d fordelingsmodell)
  == netto_salgssum d.
Proof.
  intro Hek. unfold utbetaling.
  destruct (inneholder "Modell 1" fordelingsmodell); [apply etter_investering_sum|].
  destruct (inneholder "Modell 2" fordelingsmodell);
    [now apply etter_egenkapital_sum|].
  destruct (inneholder "Modell 3" fordelingsmodell); [apply likt_paa_gevinst_sum|].
  destruct (Qlt_bool 0 (verdiendring_kr d));
    [now apply etter_egenkapital_sum | apply etter_investering_sum].
Qed.

Lemma ek_andel_ikke_negativ (x : Q) :
  0 <= x -> 0 <= (if Qlt_bool 0 (egenkapital d) then x / egenkapital d else 0.5).
Proof.
  intro Hx. destruct (Qlt_bool 0 (egenkapital d)) eqn:E; [|discriminate].
  apply Qlt_bool_iff in E. apply Qle_shift_div_l; lra.
Qed.

Lemma uten_gevinst_tap (netto : Q) :
  netto <= total_investert d -> 0 < total_investert d ->
  0 <= total_investert_a d -> 0 <= total_investert_b d ->
  fst (uten_gevinst d netto) <= total_investert_a d
  /\ snd (uten_gevinst d netto) <= total_investert_b d.
Proof.
  intros Hn Hti Ha Hb. unfold uten_gevinst. simpl.
  apply Qlt_bool_iff in Hti. rewrite Hti. apply Qlt_bool_iff in Hti.
  assert (forall x, 0 <= x -> netto * (x / total_investert d) <= x) as H.
  { intros x Hx.
    setoid_replace (netto * (x / total_investert d))
      with (x * netto / total_investert d) by (field; lra).
    apply Qle_shift_div_r; [assumption|].
    rewrite (Qmult_comm x netto), (Qmult_comm x (total_investert d)).
    now apply Qmult_le_compat_r. }
  split; now apply H.
Qed.

(** X18.  Under models 2 and 3, when the net proceeds exceed what the
    two have invested and the equity parts are not negative, each gets
    at least the own investment back, and under model 3 the two gains
    are equal.  When the proceeds do not exceed the investment, each
    gets at most the own investment (investments not negative, total
    positive). *)
Theorem utbetaling_investering_foerst :
  (0 <= egenkapital_a d -> 0 <= egenkapital_b d ->
   total_investert d < netto_salgssum d ->
   (total_investert_a d <= fst (utbetaling d modell_2)
    /\ total_investert_b d <= snd (utbetaling d modell_2))
   /\ (total_investert_a d < fst (utbetaling d modell_3)
       /\ total_investert_b d < snd (utbetaling d modell_3)
       /\ fst (utbetaling d modell_3) - total_investert_a d
          == snd (utbetaling d modell_3) - total_investert_b d))
  /\ (netto_salgssum d <= total_investert d -> 0 < total_investert d ->
      0 <= total_investert_a d -> 0 <= total_investert_b d ->
      forall modell, In modell [modell_2; modell_3] ->
        fst (utbetaling d modell) <= total_investert_a d
        /\ snd (utbetaling d modell) <= total_investert_b d).
Proof.
  split.
  - intros Ha Hb Hg.
    change (utbetaling d modell_2) with (etter_egenkapital d (netto_salgssum d)).
    change (utbetaling d modell_3) with (likt_paa_gevinst d (netto_salgssum d)).
    unfold etter_egenkapital, likt_paa_gevinst.
    pose proof Hg as Hg'. apply Qlt_bool_iff in Hg'. rewrite Hg'. simpl.
    pose proof (ek_andel_ikke_negativ _ Ha) as Ea.
    pose proof (ek_andel_ikke_negativ _ Hb) as Eb.
    assert (forall e, 0 <= e -> 0 <= (netto_salgssum d - total_investert d) * e) as Hp
      by (intros e He; apply Qmult_le_0_compat; lra).
    pose proof (Hp _ Ea). pose proof (Hp _ Eb).
    assert (0 < (netto_salgssum d - total_investert d) * 0.5) as Hh
      by (apply Qmult_lt_0_compat; [lra | reflexivity]).
    split; [split; lra|]. split; [lra|]. split; [lra | ring].
  - intros Hn Hti Ha Hb modell Hin.
    assert (utbetaling d modell = uten_gevinst d (netto_salgssum d)) as ->.
    { apply Qlt_bool_false_iff in Hn.
      destruct Hin as [<-|[<-|[]]].
      - change (utbetaling d modell_2) with (etter_egenkapital d (netto_salgssum d)).
        unfold etter_egenkapital. now rewrite Hn.
      - change (utbetaling d modell_3) with (likt_paa_gevinst d (netto_salgssum d)).
        unfold likt_paa_gevinst. now rewrite Hn. }
    now apply uten_gevinst_tap.
Qed.

Lemma cumulative_loop_nth (ys : list Q) :
  forall (r : Q) (i : nat), (i < List.length ys)%nat ->
    nth i (cumulative_loop ys r) 0 == r + Qsum (firstn (S i) ys).
Proof.
  induction ys as [|y ys IH]; intros r i Hi; simpl in Hi; [lia|].
  cbn [cumulative_loop firstn Qsum fold_right].
  fold (Qsum (firstn i ys)).
  destruct (Qeq_bool y 0) eqn:E; cbn [negb].
  - apply Qeq_bool_iff in E.
    destruct i as [|i]; cbn [nth].
    + simpl. rewrite E. ring.
    + rewrite IH by lia. rewrite E. ring.
  - destruct i as [|i]; cbn [nth].
    + simpl. ring.
    + rewrite IH by lia. ring.
Qed.

(** X19.  The cash-flow chart of the sale accumulates its six bars to
    sale price, price less costs, net proceeds (twice) and, after the
    two payouts, zero: everything that comes in is handed out. *)
Theorem pengestroem_gaar_opp (fordelingsmodell : string) :
  egenkapital_a d + egenkapital_b d == egenkapital d ->
  List.length (cumulative d fordelingsmodell) = 6%nat
  /\ nth 0 (cumulative d fordelingsmodell) 0 == salgspris d
  /\ nth 1 (cumulative d fordelingsmodell) 0 == salgspris d - salgskostnader d
  /\ nth 2 (cumulative d fordelingsmodell) 0 == netto_salgssum d
  /\ nth 3 (cumulative d fordelingsmodell) 0 == netto_salgssum d
  /\ nth 4 (cumulative d fordelingsmodell) 0
     == snd (utbetaling d fordelingsmodell)
  /\ nth 5 (cumulative d fordelingsmodell) 0 == 0.
Proof.
  intro Hek.
  pose proof (utbetaling_deler_netto fordelingsmodell Hek) as Hsum.
  unfold cumulative.
  assert (List.length (cumulative_loop (y_values d fordelingsmodell) 0) = 6%nat) as Hlen.
  { unfold y_values. cbn [cumulative_loop].
    repeat match goal with
           | |- context [if ?c then _ else _] => destruct c
           end; reflexivity. }
  split; [exact Hlen|].
  rewrite !cumulative_loop_nth by (simpl; lia).
  unfold y_values. cbn [firstn Qsum fold_right]. unfold netto_salgssum in *.
  repeat split; lra.
Qed.

End OppgjorMer.

Lemma utbetaling_investering_foerst_witness :
  Salg.total_investert_a Salg.eksempel_salg
  <= fst (Salg.utbetaling Salg.eksempel_salg Salg.modell_2)
  /\ Salg.total_investert_b Salg.eksempel_salg
     <= snd (Salg.utbetaling Salg.eksempel_salg Salg.modell_2).
Proof.
  apply (proj1 (utbetaling_investering_foerst Salg.eksempel_salg));
    [discriminate | discriminate | reflexivity].
Defined.

Lemma pengestroem_gaar_opp_witness :
  nth 5 (Pengestroem.cumulative Salg.eksempel_salg Salg.modell_1) 0 == 0.
Proof.
  apply (pengestroem_gaar_opp Salg.eksempel_salg Salg.modell_1). reflexivity.
Defined.

(** ** Extra repayment tab *)

Section EkstraProps.

Import Ekstra.
Local Open Scope string_scope.

(** X20.  The estimate of the interest saved divides by the loan: with a
    loan of zero the tab raises a division by zero.  Otherwise the
    saving is 0.6 * rente/100 * years * total extra, whatever the size
    of the loan, so the return shown is 60 * rente/100 * years per cent
    for every positive extra amount, and zero without extra
    repayment. *)
Theorem ekstra_rentesparing (laanebelop rente : Q) (nedbetalingstid aar : Z)
    (ekstra_per_mnd_a ekstra_per_mnd_b : Q) :
  (laanebelop == 0 ->
   effekt laanebelop rente nedbetalingstid aar ekstra_per_mnd_a ekstra_per_mnd_b
   = Raise ZeroDivisionError)
  /\ (~ laanebelop == 0 ->
      ~ laanebelop + (ekstra_per_mnd_a * 12 * inject_Z aar
                      + ekstra_per_mnd_b * 12 * inject_Z aar) == 0 ->
      exists e,
        effekt laanebelop rente nedbetalingstid aar ekstra_per_mnd_a ekstra_per_mnd_b
        = Ok e
        /\ total_ekstra e == (ekstra_per_mnd_a + ekstra_per_mnd_b) * 12 * inject_Z aar
        /\ rentesparing e == 0.6 * (rente / 100) * inject_Z aar * total_ekstra e
        /\ (0 < total_ekstra e -> roi e == 60 * (rente / 100) * inject_Z aar)
        /\ (total_ekstra e <= 0 -> roi e = 0)).
Proof.
  unfold effekt. split.
  - intro H0. now rewrite py_div_zero.
  - intros Hl Hs. rewrite !py_div_ok by assumption. simpl bind.
    eexists. split; [reflexivity|]. cbn [total_ekstra rentesparing roi].
    split; [ring|]. split; [field; assumption|].
    set (te := ekstra_per_mnd_a * 12 * inject_Z aar
               + ekstra_per_mnd_b * 12 * inject_Z aar) in *.
    destruct (Qlt_bool 0 te) eqn:E.
    + apply Qlt_bool_iff in E. split; [intros _; field; split; lra|].
      intro H. lra.
    + apply Qlt_bool_false_iff in E. split; [intro H; lra | reflexivity].
Qed.

(** X21.  For a positive loan and extra payments that are not negative
    the new repayment time is returned; it is positive, at most the
    agreed time, and shrinks in the proportion loan to loan plus extra
    repayment. *)
Theorem ekstra_ny_nedbetalingstid (laanebelop rente : Q) (nedbetalingstid aar : Z)
    (ekstra_per_mnd_a ekstra_per_mnd_b : Q) :
  0 < laanebelop -> (0 < nedbetalingstid)%Z -> (0 <= aar)%Z ->
  0 <= ekstra_per_mnd_a -> 0 <= ekstra_per_mnd_b ->
  exists e,
    effekt laanebelop rente nedbetalingstid aar ekstra_per_mnd_a ekstra_per_mnd_b = Ok e
    /\ 0 <= total_ekstra e
    /\ 0 < ny_nedbetalingstid e <= inject_Z nedbetalingstid
    /\ ny_nedbetalingstid e * (laanebelop + total_ekstra e)
       == inject_Z nedbetalingstid * laanebelop
    /\ (total_ekstra e == 0 -> ny_nedbetalingstid e == inject_Z nedbetalingstid).
Proof.
  intros Hl Hn Ha Hea Heb.
  assert (inject_Z 0 <= inject_Z aar) as HaQ by (rewrite <- Zle_Qle; lia).
  assert (inject_Z 0 < inject_Z nedbetalingstid) as HnQ by (rewrite <- Zlt_Qlt; lia).
  assert (0 <= ekstra_per_mnd_a * 12 * inject_Z aar
               + ekstra_per_mnd_b * 12 * inject_Z aar) as Hte.
  { assert (forall x, 0 <= x -> 0 <= x * 12 * inject_Z aar) as H
      by (intros x Hx; repeat apply Qmult_le_0_compat; try assumption; discriminate).
    pose proof (H _ Hea). pose proof (H _ Heb). lra. }
  unfold effekt. rewrite !py_div_ok by lra. simpl bind.
  eexists. split; [reflexivity|]. cbn [total_ekstra ny_nedbetalingstid].
  set (te := ekstra_per_mnd_a * 12 * inject_Z aar
             + ekstra_per_mnd_b * 12 * inject_Z aar) in *.
  assert (0 < laanebelop / (laanebelop + te) <= 1) as [Hf0 Hf1].
  { split; [apply Qlt_shift_div_l | apply Qle_shift_div_r]; lra. }
  split; [assumption|].
  split; [split|].
  - apply Qmult_lt_0_compat; assumption.
  - setoid_replace (inject_Z nedbetalingstid) with (inject_Z nedbetalingstid * 1) at 2
      by ring.
    rewrite (Qmult_comm _ (laanebelop / _)), (Qmult_comm _ 1).
    apply Qmult_le_compat_r; [assumption | now apply Qlt_le_weak].
  - split; [field; lra|]. intro H0. rewrite H0. field. lra.
Qed.

(** X22.  Model A: whatever the division of the ordinary instalments,
    the two new ownership shares together are a hundred times (equity +
    straight-line instalments of the years + extra repayment) / price.
    Nothing caps them: when equity and loan make up a positive price,
    the shares add up to more than 100 per cent exactly when the extra
    repayment exceeds the loan not yet repaid by the straight line. *)
Theorem ny_eierandel_sum (laanebelop : Q) (nedbetalingstid aar : Z)
    (fordeling_type : string) (kostnad_a kostnad_b : Q)
    (egenkapital_a egenkapital_b boligpris total_ekstra_a total_ekstra_b : Q) :
  (nedbetalingstid <> 0)%Z -> ~ boligpris == 0 ->
  exists ny_a ny_b,
    ny_eierandel laanebelop nedbetalingstid aar fordeling_type kostnad_a kostnad_b
      egenkapital_a egenkapital_b boligpris total_ekstra_a total_ekstra_b
    = Ok (ny_a, ny_b)
    /\ (ny_a + ny_b) * boligpris
       == 100 * (egenkapital_a + egenkapital_b
                 + laanebelop / inject_Z nedbetalingstid * inject_Z aar
                 + total_ekstra_a + total_ekstra_b)
    /\ (0 < boligpris -> egenkapital_a + egenkapital_b + laanebelop == boligpris ->
        (100 < ny_a + ny_b
         <-> laanebelop - laanebelop / inject_Z nedbetalingstid * inject_Z aar
             < total_ekstra_a + total_ekstra_b)).
Proof.
  intros Hn Hbp.
  assert (~ inject_Z nedbetalingstid == 0) as HnQ.
  { intro H. apply Hn. now apply inject_Z_injective. }
  unfold ny_eierandel. rewrite py_div_ok by assumption. simpl bind.
  rewrite py_div_ok by assumption. simpl bind.
  rewrite py_div_ok by assumption. simpl bind.
  do 2 eexists. split; [reflexivity|].
  set (X := laanebelop / inject_Z nedbetalingstid * inject_Z aar).
  assert (forall andel : Q,
            X * 0.5 * (andel / 0.5) + X * 0.5 * ((1 - andel) / 0.5) == X) as Hnorm
    by (intro andel; field).
  set (normal := if String.eqb fordeling_type "Proporsjonal etter inntekt"
                 then _ else _).
  assert (fst normal + snd normal == X) as Hsum.
  { unfold normal. destruct (String.eqb fordeling_type "Proporsjonal etter inntekt").
    - cbn [fst snd]. apply Hnorm.
    - cbn [fst snd]. apply halvparten. }
  assert ((egenkapital_a + fst normal + total_ekstra_a) / boligpris * 100
          + (egenkapital_b + snd normal + total_ekstra_b) / boligpris * 100
          == (egenkapital_a + egenkapital_b + X + total_ekstra_a + total_ekstra_b)
             / boligpris * 100) as Htot.
  { rewrite <- Hsum. field. assumption. }
  split.
  - rewrite Htot. field. assumption.
  - intros Hpos Hpris. rewrite Htot.
    set (S := egenkapital_a + egenkapital_b + X + total_ekstra_a + total_ekstra_b) in *.
    assert (S / boligpris * boligpris == S) as HY by (field; assumption).
    set (Y := S / boligpris) in *.
    split; intro H.
    + assert (1 < Y) as H1 by lra.
      assert (1 * boligpris < Y * boligpris) as H2
        by (apply Qmult_lt_compat_r; assumption).
      unfold S in HY. lra.
    + assert (1 < Y) as H1
        by (unfold Y; apply Qlt_shift_div_l; [assumption | unfold S; lra]).
      lra.
Qed.

End EkstraProps.

Lemma ekstra_rentesparing_witness :
  exists e,
    Ekstra.effekt 3200000 4.99 25 5 5000 3000 = Ok e
    /\ Ekstra.rentesparing e == 0.6 * (4.99 / 100) * inject_Z 5 * Ekstra.total_ekstra e.
Proof.
  destruct (proj2 (ekstra_rentesparing 3200000 4.99 25 5 5000 3000))
    as (e & He & _ & Hr & _); [discriminate | discriminate |].
  now exists e.
Defined.

Lemma ekstra_ny_nedbetalingstid_witness :
  exists e,
    Ekstra.effekt 3200000 4.99 25 5 5000 3000 = Ok e
    /\ 0 < Ekstra.ny_nedbetalingstid e <= inject_Z 25.
Proof.
  destruct (ekstra_ny_nedbetalingstid 3200000 4.99 25 5 5000 3000)
    as (e & He & _ & Hn & _); try discriminate; try reflexivity.
  now exists e.
Defined.

Lemma ny_eierandel_sum_witness :
  exists ny_a ny_b,
    Ekstra.ny_eierandel 425000 25 10 "50/50" 0 0 37500 37500 500000 6000000 0
    = Ok (ny_a, ny_b)
    /\ 100 < ny_a + ny_b.
Proof.
  destruct (ny_eierandel_sum 425000 25 10 "50/50" 0 0 37500 37500 500000 6000000 0)
    as (a & b & H & _ & Hover); [discriminate | discriminate |].
  exists a, b. split; [exact H|].
  apply Hover; reflexivity.
Defined.

(** ** Quick saves *)

Section RasklagringProps.

Import Rasklagring.

Lemma rask_lagre_lengde (quick_saves : list QuickSave) (q : QuickSave) :
  (List.length quick_saves <= 5)%nat ->
  (List.length (rask_lagre quick_saves q) <= 5)%nat.
Proof.
  intro H. unfold rask_lagre. destruct (navn q); [assumption|].
  destruct (5 <? List.length (quick_saves ++ [q]))%nat eqn:E.
  - rewrite length_app in E. simpl in E.
    destruct quick_saves as [|x l]; simpl in *; [lia|].
    rewrite length_app. simpl. lia.
  - apply Nat.ltb_ge in E. assumption.
Qed.

Lemma skipn_tl {A : Type} (k : nat) (l : list A) : tl (skipn k l) = skipn (S k) l.
Proof.
  revert l. induction k as [|k IH]; intros [|x l]; try reflexivity.
  simpl. destruct l; [|apply IH]. now destruct k.
Qed.

(** A named save on a list that holds the last five of [qs] gives the
    last five of [qs ++ [q]]. *)
Lemma rask_lagre_siste (qs : list QuickSave) (q : QuickSave) :
  navn q <> EmptyString ->
  rask_lagre (skipn (List.length qs - 5) qs) q
  = skipn (List.length (qs ++ [q]) - 5) (qs ++ [q]).
Proof.
  intro Hn. unfold rask_lagre. destruct (navn q) eqn:En; [contradiction|].
  rewrite !length_app, length_skipn. simpl List.length.
  destruct (Nat.le_gt_cases 5 (List.length qs)) as [Hge|Hlt].
  - replace (5 <? List.length qs - (List.length qs - 5) + 1)%nat with true
      by (symmetry; apply Nat.ltb_lt; lia).
    replace (List.length qs + 1 - 5)%nat with (S (List.length qs - 5)) by lia.
    rewrite <- skipn_tl. f_equal.
    rewrite skipn_app.
    replace (List.length qs - 5 - List.length qs)%nat with 0%nat by lia.
    reflexivity.
  - replace (5 <? List.length qs - (List.length qs - 5) + 1)%nat with false
      by (symmetry; apply Nat.ltb_ge; lia).
    replace (List.length qs - 5)%nat with 0%nat by lia.
    replace (List.length qs + 1 - 5)%nat with 0%nat by lia.
    reflexivity.
Qed.

(** X23.  Whatever buttons are pressed, there are never more than five
    quick saves.  After a run of saves that all have a name, the list
    holds the last five of them (all, if fewer) in the order saved; a
    save without a name changes nothing, and "Tøm alle" empties the
    list. *)
Theorem rask_lagring_maks_fem :
  (forall knapper, (List.length (sesjon knapper) <= 5)%nat)
  /\ (forall qs,
        Forall (fun q => navn q <> EmptyString) qs ->
        sesjon (map RaskLagre qs) = skipn (List.length qs - 5) qs)
  /\ (forall quick_saves q,
        navn q = EmptyString -> rask_lagre quick_saves q = quick_saves)
  /\ (forall knapper, sesjon (knapper ++ [ToemAlle]) = []).
Proof.
  split; [|split; [|split]].
  - intro knapper. unfold sesjon.
    assert (forall s, (List.length s <= 5)%nat ->
                      (List.length (fold_left trykk knapper s) <= 5)%nat) as H.
    { induction knapper as [|k knapper IH]; intros s Hs; [assumption|].
      simpl. apply IH. destruct k; simpl; [now apply rask_lagre_lengde | lia]. }
    apply H. simpl. lia.
  - intros qs. induction qs as [|q qs IH] using rev_ind; intro Hall; [reflexivity|].
    apply Forall_app in Hall. destruct Hall as [Hqs Hq].
    inversion Hq as [|? ? Hn _]; subst.
    unfold sesjon in *. rewrite map_app, fold_left_app. simpl.
    rewrite IH by assumption. now apply rask_lagre_siste.
  - intros quick_saves q Hn. unfold rask_lagre. now rewrite Hn.
  - intro knapper. unfold sesjon. now rewrite fold_left_app.
Qed.

End RasklagringProps.

Lemma rask_lagring_maks_fem_witness :
  Rasklagring.sesjon
    (map Rasklagring.RaskLagre
       [ Rasklagring.mkQuickSave "a" "10:00:00" 4500000 4.99 22000;
         Rasklagring.mkQuickSave "b" "10:01:00" 4600000 4.99 22500 ])
  = [ Rasklagring.mkQuickSave "a" "10:00:00" 4500000 4.99 22000;
      Rasklagring.mkQuickSave "b" "10:01:00" 4600000 4.99 22500 ].
Proof.
  apply (proj1 (proj2 rask_lagring_maks_fem)
           [ Rasklagring.mkQuickSave "a" "10:00:00" 4500000 4.99 22000;
             Rasklagring.mkQuickSave "b" "10:01:00" 4600000 4.99 22500 ]).
  repeat constructor; discriminate.
Defined.

(** ** Ownership share over time: the end of the term *)

Section EierandelSlutt.

Import Eierandel Oversikt.
Local Open Scope string_scope.

Lemma utvikling_loop_nedbetalt (laanebelop aarlig_avdrag ia ib la lb : Q)
    (years : list Z) :
  forall (i : Z) (t : nat), (t < List.length years)%nat ->
    nth t (total_nedbetalt
             (utvikling_loop laanebelop aarlig_avdrag ia ib la lb years i)) 0
    = (if (i + Z.of_nat t =? 0)%Z then 0
       else py_min (aarlig_avdrag * inject_Z (i + Z.of_nat t)) laanebelop)
    /\ nth t (gjenstaaende
                (utvikling_loop laanebelop aarlig_avdrag ia ib la lb years i)) 0
       = (if (i + Z.of_nat t =? 0)%Z then laanebelop
          else laanebelop
               - py_min (aarlig_avdrag * inject_Z (i + Z.of_nat t)) laanebelop).
Proof.
  induction years as [|year years IH]; intros i t Ht; simpl in Ht; [lia|].
  destruct t as [|t].
  - rewrite Z.add_0_r. simpl.
    destruct (i =? 0)%Z; simpl; split; reflexivity.
  - replace (i + Z.of_nat (S t))%Z with ((i + 1) + Z.of_nat t)%Z by lia.
    destruct (IH (i + 1)%Z t ltac:(lia)) as [Ha Hb].
    simpl. destruct (i =? 0)%Z; simpl; split; assumption.
Qed.

Lemma utvikling_loop_nedbetalt_length (laanebelop aarlig_avdrag ia ib la lb : Q)
    (years : list Z) (i : Z) :
  List.length (total_nedbetalt
                 (utvikling_loop laanebelop aarlig_avdrag ia ib la lb years i))
  = List.length years.
Proof.
  revert i. induction years as [|year years IH]; intro i; [reflexivity|].
  specialize (IH (i + 1)%Z). simpl. destruct (i =? 0)%Z; simpl; congruence.
Qed.

Lemma py_min_lik (x y : Q) : x == y -> py_min x y == y.
Proof.
  intro H. apply Qle_antisym; [apply py_min_le_r|].
  apply py_min_glb; [rewrite H|]; apply Qle_refl.
Qed.

(** X24.  In every year the instalments so far and the loan left add up
    to the loan.  At the end of the term the whole loan is repaid, and
    when equity and loan make up the price the two ownership shares
    add up to 100 per cent (positive price, loan and term). *)
Theorem eierandel_utvikling_slutt (nedbetalingstid : Z)
    (egenkapital_a egenkapital_b boligpris laanebelop : Q)
    (fordeling_type : string) (kostnad_a kostnad_b : Q) (custom_split : option Q) :
  (0 < nedbetalingstid)%Z -> 0 < boligpris -> 0 < laanebelop ->
  egenkapital_a + egenkapital_b + laanebelop == boligpris ->
  exists u,
    eierandel_utvikling nedbetalingstid egenkapital_a egenkapital_b boligpris
      laanebelop fordeling_type kostnad_a kostnad_b custom_split = Ok u
    /\ List.length (total_nedbetalt u) = S (Z.to_nat nedbetalingstid)
    /\ (forall t : nat, (t <= Z.to_nat nedbetalingstid)%nat ->
         nth t (total_nedbetalt u) 0 + nth t (gjenstaaende u) 0 == laanebelop)
    /\ nth 0 (total_nedbetalt u) 0 == 0
    /\ nth (Z.to_nat nedbetalingstid) (total_nedbetalt u) 0 == laanebelop
    /\ nth (Z.to_nat nedbetalingstid) (gjenstaaende u) 0 == 0
    /\ nth (Z.to_nat nedbetalingstid) (eierandel_a_over_tid u) 0
       + nth (Z.to_nat nedbetalingstid) (eierandel_b_over_tid u) 0 == 100.
Proof.
  intros Hn Hbp Hl Hsum.
  assert (~ boligpris == 0) as Hbp0 by lra.
  assert (inject_Z 0 < inject_Z (nedbetalingstid * 12)) as HnQ
    by (rewrite <- Zlt_Qlt; lia).
  assert (~ inject_Z (nedbetalingstid * 12) == 0) as Hn0
    by (intro H; rewrite H in HnQ; now apply Qlt_irrefl in HnQ).
  unfold eierandel_utvikling.
  rewrite !(py_div_ok _ boligpris) by assumption.
  rewrite py_div_ok by assumption. simpl bind.
  eexists. split; [reflexivity|].
  set (s := avdrag_andel fordeling_type kostnad_a kostnad_b custom_split).
  set (ia := egenkapital_a / boligpris * 100).
  set (ib := egenkapital_b / boligpris * 100).
  set (tl := laanebelop / boligpris * 100).
  set (aarlig := laanebelop / inject_Z (nedbetalingstid * 12) * 12).
  set (years := py_range 2025 (Z.to_nat (nedbetalingstid + 1))).
  assert (List.length years = S (Z.to_nat nedbetalingstid)) as Hlen
    by (unfold years; rewrite py_range_length, Z2Nat.inj_add by lia; simpl; lia).
  assert (forall t, (t <= Z.to_nat nedbetalingstid)%nat ->
            nth t (total_nedbetalt
                     (utvikling_loop laanebelop aarlig ia ib (tl * s) (tl * (1 - s))
                        years 0)) 0
            + nth t (gjenstaaende
                       (utvikling_loop laanebelop aarlig ia ib (tl * s) (tl * (1 - s))
                          years 0)) 0 == laanebelop) as Hbalanse.
  { intros t Ht.
    destruct (utvikling_loop_nedbetalt laanebelop aarlig ia ib (tl * s) (tl * (1 - s))
                years 0 t ltac:(lia)) as [-> ->].
    destruct (0 + Z.of_nat t =? 0)%Z; ring. }
  assert (aarlig * inject_Z (0 + Z.of_nat (Z.to_nat nedbetalingstid)) == laanebelop)
    as Hfull.
  { simpl (0 + _)%Z. rewrite Z2Nat.id by lia. unfold aarlig.
    rewrite inject_Z_mult. field.
    intro H. apply Hn0. rewrite inject_Z_mult, H. ring. }
  assert ((0 + Z.of_nat (Z.to_nat nedbetalingstid) =? 0)%Z = false) as Hikke0
    by (apply Z.eqb_neq; lia).
  destruct (utvikling_loop_nedbetalt laanebelop aarlig ia ib (tl * s) (tl * (1 - s))
              years 0 (Z.to_nat nedbetalingstid) ltac:(lia)) as [En Eg].
  destruct (utvikling_loop_nedbetalt laanebelop aarlig ia ib (tl * s) (tl * (1 - s))
              years 0 0%nat ltac:(lia)) as [E0 _].
  destruct (utvikling_loop_nth laanebelop aarlig ia ib (tl * s) (tl * (1 - s))
              years 0 (Z.to_nat nedbetalingstid) ltac:(lia)) as [Ea Eb].
  rewrite Hikke0 in En, Eg.
  pose proof (py_min_lik _ _ Hfull) as Hmin.
  split; [now rewrite utvikling_loop_nedbetalt_length|].
  split; [exact Hbalanse|].
  split; [rewrite E0; reflexivity|].
  split; [rewrite En; exact Hmin|].
  split; [rewrite Eg, Hmin; ring|].
  rewrite Ea, Eb. unfold eierandel_ved, prosent_nedbetalt_ved.
  rewrite Hikke0.
  pose proof Hl as Hl'. apply Qlt_bool_iff in Hl'. rewrite Hl'.
  rewrite Hmin.
  setoid_replace (ia + tl * s * (laanebelop / laanebelop)
                  + (ib + tl * (1 - s) * (laanebelop / laanebelop)))
    with ((egenkapital_a + egenkapital_b + laanebelop) / boligpris * 100)
    by (unfold ia, ib, tl; field; split; lra).
  rewrite Hsum. field. assumption.
Qed.

Lemma halvveis_aar_spec (laanebelop : Q) (total_nedbetalt : list Q) :
  forall years : list Z,
    List.length years = List.length total_nedbetalt ->
    match halvveis_aar years total_nedbetalt laanebelop with
    | HalvveisAar aar =>
        exists i nedbetalt,
          nth_error years i = Some aar
          /\ nth_error total_nedbetalt i = Some nedbetalt
          /\ laanebelop / 2 <= nedbetalt
          /\ forall j x, (j < i)%nat -> nth_error total_nedbetalt j = Some x ->
                         x < laanebelop / 2
    | IkkeInnenPeriode => Forall (fun x => x < laanebelop / 2) total_nedbetalt
    | IndexError => False
    end.
Proof.
  induction total_nedbetalt as [|x rest IH]; intros years Hlen; simpl.
  - constructor.
  - destruct years as [|y years]; [discriminate Hlen|].
    simpl in Hlen. injection Hlen as Hlen.
    destruct (Qle_bool (laanebelop / 2) x) eqn:E.
    + apply Qle_bool_iff in E. exists 0%nat, x.
      repeat split; try assumption. intros j z Hj. lia.
    + apply Qle_bool_false_iff in E. simpl tl.
      specialize (IH years Hlen).
      destruct (halvveis_aar years rest laanebelop) as [aar| |].
      * destruct IH as (i & nedbetalt & Hy & Hx & Hhalv & Hfoer).
        exists (S i), nedbetalt. repeat split; try assumption.
        intros [|j] z Hj Hz; simpl in Hz.
        -- now inversion Hz; subst.
        -- apply (Hfoer j); [lia | assumption].
      * now constructor.
      * assumption.
Qed.

(** X25.  The search for the year in which half the loan is repaid never
    fails on lists of equal length: it returns the first year whose
    instalments so far reach half the loan, or reports that no year of
    the period does, and then every year is below half. *)
Theorem halvveis_aar_foerste (laanebelop : Q) (years : list Z) (total_nedbetalt : list Q) :
  List.length years = List.length total_nedbetalt ->
  halvveis_aar years total_nedbetalt laanebelop <> IndexError
  /\ (forall aar, halvveis_aar years total_nedbetalt laanebelop = HalvveisAar aar ->
       exists i nedbetalt,
         nth_error years i = Some aar
         /\ nth_error total_nedbetalt i = Some nedbetalt
         /\ laanebelop / 2 <= nedbetalt
         /\ forall j x, (j < i)%nat -> nth_error total_nedbetalt j = Some x ->
                        x < laanebelop / 2)
  /\ (halvveis_aar years total_nedbetalt laanebelop = IkkeInnenPeriode
      <-> Forall (fun x => x < laanebelop / 2) total_nedbetalt).
Proof.
  intro Hlen.
  pose proof (halvveis_aar_spec laanebelop total_nedbetalt years Hlen) as H.
  split; [|split; [|split]].
  - intro E. now rewrite E in H.
  - intros aar E. now rewrite E in H.
  - intro E. now rewrite E in H.
  - intro Hall.
    destruct (halvveis_aar years total_nedbetalt laanebelop) as [aar| |];
      [|reflexivity|contradiction].
    destruct H as (i & x & _ & Hx & Hhalv & _).
    rewrite Forall_forall in Hall.
    specialize (Hall x (nth_error_In _ _ Hx)). lra.
Qed.

End EierandelSlutt.

Lemma eierandel_utvikling_slutt_witness :
  exists u,
    Eierandel.eierandel_utvikling 25 520000 780000 4500000 3200000
      "Proporsjonal etter inntekt" 8000 12000 None = Ok u
    /\ nth 25 (Eierandel.eierandel_a_over_tid u) 0
       + nth 25 (Eierandel.eierandel_b_over_tid u) 0 == 100.
Proof.
  destruct (eierandel_utvikling_slutt 25 520000 780000 4500000 3200000
              "Proporsjonal etter inntekt" 8000 12000 None)
    as (u & Hu & _ & _ & _ & _ & _ & H); try reflexivity.
  now exists u.
Defined.

Lemma halvveis_aar_foerste_witness :
  Oversikt.halvveis_aar [2025; 2026; 2027]%Z [0; 50; 100] 100
  <> Oversikt.IndexError.
Proof.
  apply (halvveis_aar_foerste 100 [2025; 2026; 2027]%Z [0; 50; 100]). reflexivity.
Defined.

(** ** The rate forecast: every policy *)

Section PrognoseProps.

Import Renteprognose.
Local Open Scope string_scope.

Lemma moderat_loop_tak (indekser : list Z) :
  forall current,
    Forall (fun r => r <= 6) (moderat_loop indekser current)
    /\ List.length (moderat_loop indekser current) = List.length indekser.
Proof.
  induction indekser as [|i rest IH]; intro current; simpl.
  - split; [apply Forall_nil | reflexivity].
  - match goal with
    | |- context [moderat_loop rest ?c] => destruct (IH c) as [Hf Hl]
    end.
    split; [apply Forall_cons; [eapply Qle_trans; [apply py_min_le_l | discriminate] | exact Hf]
          | now rewrite Hl].
Qed.

Lemma hoy_loop_tak (indekser : list Z) :
  forall current,
    Forall (fun r => r <= 8) (hoy_loop indekser current)
    /\ List.length (hoy_loop indekser current) = List.length indekser.
Proof.
  induction indekser as [|i rest IH]; intro current; simpl.
  - split; [apply Forall_nil | reflexivity].
  - match goal with
    | |- context [hoy_loop rest ?c] => destruct (IH c) as [Hf Hl]
    end.
    split; [apply Forall_cons; [eapply Qle_trans; [apply py_min_le_l | discriminate] | exact Hf]
          | now rewrite Hl].
Qed.

Lemma py_max_grenser (a b c : Q) :
  c <= b -> a <= py_max a c /\ py_max a c <= py_max a b.
Proof.
  intro H. unfold py_max.
  destruct (Qlt_bool a c) eqn:Ec; destruct (Qlt_bool a b) eqn:Eb;
    try apply Qlt_bool_iff in Ec; try apply Qlt_bool_iff in Eb;
    try apply Qlt_bool_false_iff in Ec; try apply Qlt_bool_false_iff in Eb;
    split; lra.
Qed.

Ltac lukket_tak :=
  repeat (apply Forall_cons; [vm_compute; discriminate|]); apply Forall_nil.

(** X26.  The forecast never raises, whatever the policy name and the
    base rate: the table has the ten years 2025 to 2034 and ten rates.
    Under every policy but [lav] no rate is above 8 per cent, under
    [moderat] none is above 6; under [lav] every rate is at least 1.5
    and at most the larger of 1.5 and the base rate. *)
Theorem generer_renteprognose_tabell (basis_rente : Q) (prognose_type : string) :
  exists renter,
    generer_renteprognose basis_rente prognose_type
    = Ok (mkPrognose [2025; 2026; 2027; 2028; 2029; 2030; 2031; 2032; 2033; 2034]%Z
            renter)
    /\ List.length renter = 10%nat
    /\ (prognose_type <> "lav" -> Forall (fun r => r <= 8) renter)
    /\ (prognose_type = "moderat" -> Forall (fun r => r <= 6) renter)
    /\ (prognose_type = "lav" ->
        Forall (fun r => 1.5 <= r <= py_max 1.5 basis_rente) renter).
Proof.
  unfold generer_renteprognose.
  destruct (String.eqb_spec prognose_type "norges_bank") as [E|N1].
  { subst. eexists. split; [reflexivity|]. split; [reflexivity|].
    split; [intros _; lukket_tak|]. split; discriminate. }
  destruct (String.eqb_spec prognose_type "optimistisk") as [E|N2].
  { subst. eexists. split; [reflexivity|]. split; [reflexivity|].
    split; [intros _; lukket_tak|]. split; discriminate. }
  destruct (String.eqb_spec prognose_type "pessimistisk") as [E|N3].
  { subst. eexists. split; [reflexivity|]. split; [reflexivity|].
    split; [intros _; lukket_tak|]. split; discriminate. }
  destruct (String.eqb_spec prognose_type "lav") as [E|N4].
  { subst. eexists. split; [reflexivity|]. split; [reflexivity|].
    split; [intro H; now contradiction H|]. split; [discriminate|].
    intros _. simpl map.
    repeat (apply Forall_cons;
            [apply py_max_grenser;
             match goal with
             | |- _ - _ * inject_Z ?k <= _ =>
                 assert (0 <= inject_Z k) by discriminate; lra
             end|]).
    apply Forall_nil. }
  destruct (String.eqb_spec prognose_type "moderat") as [E|N5].
  { destruct (moderat_loop_tak (py_range 0 10) basis_rente) as [Hf Hl].
    eexists. split; [reflexivity|]. split; [exact Hl|].
    split; [intros _; eapply Forall_impl; [|exact Hf]; intros r Hr; simpl in Hr; lra|].
    split; [intros _; exact Hf|]. intro H. congruence. }
  destruct (hoy_loop_tak (py_range 0 10) basis_rente) as [Hf Hl].
  eexists. split; [reflexivity|]. split; [exact Hl|].
  split; [intros _; exact Hf|]. split; intro H; congruence.
Qed.

End PrognoseProps.

Lemma generer_renteprognose_tabell_witness :
  exists renter,
    Renteprognose.generer_renteprognose 4.99 "lav"
    = Ok (Renteprognose.mkPrognose
            [2025; 2026; 2027; 2028; 2029; 2030; 2031; 2032; 2033; 2034]%Z renter)
    /\ Forall (fun r => 1.5 <= r <= py_max 1.5 4.99) renter.
Proof.
  destruct (generer_renteprognose_tabell 4.99 "lav") as (renter & H & _ & _ & _ & Hlav).
  exists renter. split; [exact H | exact (Hlav eq_refl)].
Defined.

(** ** Cost effect of the rate scenarios *)

Section RentescenarierProps.

Import Annuitet Rentescenarier.
Local Open Scope string_scope.

Lemma for_alle_Forall2 {A B : Type} (f : A -> result B) (P : A -> B -> Prop)
    (xs : list A) :
  (forall x, In x xs -> exists y, f x = Ok y /\ P x y) ->
  exists ys, Renteprognose.for_alle f xs = Ok ys /\ Forall2 P xs ys.
Proof.
  induction xs as [|x xs IH]; intro H.
  - exists []. split; [reflexivity | constructor].
  - destruct (H x ltac:(now left)) as (y & Hy & HP).
    destruct IH as (ys & Hys & HF); [intros z Hz; apply H; now right|].
    exists (y :: ys). simpl. rewrite Hy. simpl. rewrite Hys. simpl.
    split; [reflexivity | now constructor].
Qed.

Variables laanebelop : Q.
Variable nedbetalingstid : Z.
Variables felleskostnader brutto_aar_a brutto_aar_b netto_mnd_a netto_mnd_b : Q.
Variable fordeling_type : string.
Variable custom_split : option Q.

Hypothesis laan_ok : 0 <= laanebelop.
Hypothesis tid_ok : (0 < nedbetalingstid)%Z.
Hypothesis felles_ok : 0 <= felleskostnader.
Hypothesis brutto_a_ok : 0 <= brutto_aar_a.
Hypothesis brutto_b_ok : 0 <= brutto_aar_b.
Hypothesis netto_a_ok : 0 < netto_mnd_a.
Hypothesis netto_b_ok : 0 < netto_mnd_b.
Hypothesis split_gitt : fordeling_type = "Egendefinert" -> custom_split <> None.
Hypothesis split_ok : forall c, custom_split = Some c -> 0 <= c <= 100.

(** One row: with a rate that is not negative the row is produced, and
    its total is the payment at that rate plus the shared costs. *)
Lemma scenario_rad_returnerer (total_mnd_kostnad : Q) (navn : string) (r : Q) :
  0 <= r ->
  exists rad,
    scenario_rad laanebelop nedbetalingstid felleskostnader brutto_aar_a brutto_aar_b
      netto_mnd_a netto_mnd_b fordeling_type custom_split total_mnd_kostnad (navn, r)
    = Ok rad
    /\ Scenario rad = navn /\ Rente rad = r
    /\ Total_mnd rad
       = computeFixedPayment_spec laanebelop r nedbetalingstid + felleskostnader
    /\ Endring rad
       = computeFixedPayment_spec laanebelop r nedbetalingstid + felleskostnader
         - total_mnd_kostnad.
Proof.
  intro Hr. unfold scenario_rad. simpl fst. simpl snd.
  rewrite beregn_terminbelop_returns by assumption. simpl bind.
  pose proof (terminbelop_ikke_negativt laanebelop r nedbetalingstid laan_ok Hr tid_ok)
    as HT.
  set (T := computeFixedPayment_spec laanebelop r nedbetalingstid) in *.
  assert (0 <= Belastning.beregn_skattefradrag (laanebelop * (r / 100) / 12)) as Hs.
  { unfold Belastning.beregn_skattefradrag, Qdiv.
    repeat apply Qmult_le_0_compat; try assumption; discriminate. }
  destruct (beregn_fordeling_andeler (T + felleskostnader) brutto_aar_a brutto_aar_b
              fordeling_type custom_split ltac:(lra) brutto_a_ok brutto_b_ok
              split_gitt split_ok) as (ka & kb & Hk & _).
  destruct (beregn_fordeling_andeler _ brutto_aar_a brutto_aar_b
              fordeling_type custom_split Hs brutto_a_ok brutto_b_ok
              split_gitt split_ok) as (sa & sb & Hf & [Hsa _] & [Hsb _] & _).
  rewrite Hk, Hf. simpl bind. simpl fst. simpl snd.
  unfold Belastning.beregn_belastningsgrad, Belastning.beregn_effektiv_belastning.
  assert (Qeq_bool netto_mnd_a 0 = false) as Ea by (apply Qeq_bool_false_iff; lra).
  assert (Qeq_bool netto_mnd_b 0 = false) as Eb by (apply Qeq_bool_false_iff; lra).
  rewrite Ea, Eb.
  rewrite (py_div_ok ka netto_mnd_a) by lra. simpl bind.
  rewrite (py_div_ok kb netto_mnd_b) by lra. simpl bind.
  rewrite (py_div_ok ka (netto_mnd_a + sa)) by lra. simpl bind.
  rewrite (py_div_ok kb (netto_mnd_b + sb)) by lra. simpl bind.
  eexists. split; [reflexivity|]. simpl. repeat split; reflexivity.
Qed.

(** X27.  With incomes and costs that are not negative, positive net
    incomes, a positive term and a custom split between 0 and 100, the
    table of rate scenarios is produced with its eight rows in the order
    of the list.  Measured against today's monthly cost, the row at
    today's rate shows no change, a scenario whose rate is at least
    today's never shows a lower cost, and one whose rate is at most
    today's never a higher one. *)
Theorem rentescenarier_endring (rente : Q) :
  0 <= rente ->
  exists terminbelop rader,
    beregn_terminbelop laanebelop rente nedbetalingstid = Ok terminbelop
    /\ scenario_data laanebelop nedbetalingstid felleskostnader brutto_aar_a
         brutto_aar_b netto_mnd_a netto_mnd_b fordeling_type custom_split
         (terminbelop + felleskostnader) rente = Ok rader
    /\ map Scenario rader = map fst (rente_scenarios rente)
    /\ map Rente rader = map snd (rente_scenarios rente)
    /\ (exists rad, nth_error rader 0 = Some rad /\ Endring rad == 0)
    /\ Forall (fun rad =>
                 (rente <= Rente rad -> 0 <= Endring rad)
                 /\ (Rente rad <= rente -> Endring rad <= 0)) rader.
Proof.
  intro Hr.
  set (T := computeFixedPayment_spec laanebelop rente nedbetalingstid).
  exists T.
  set (P := fun (x : string * Q) (rad : ScenarioRad) =>
              Scenario rad = fst x /\ Rente rad = snd x
              /\ Endring rad
                 = computeFixedPayment_spec laanebelop (snd x) nedbetalingstid
                   + felleskostnader - (T + felleskostnader)).
  destruct (for_alle_Forall2
              (scenario_rad laanebelop nedbetalingstid felleskostnader brutto_aar_a
                 brutto_aar_b netto_mnd_a netto_mnd_b fordeling_type custom_split
                 (T + felleskostnader))
              P (rente_scenarios rente)) as (rader & Hrader & HF).
  { intros [navn r] Hin.
    assert (0 <= r) as Hr0.
    { simpl in Hin.
      repeat (destruct Hin as [Hin|Hin];
              [injection Hin as _ <-; first [exact Hr | lra | discriminate]|]).
      contradiction. }
    destruct (scenario_rad_returnerer (T + felleskostnader) navn r Hr0)
      as (rad & Hrad & Hn & Hre & _ & He).
    exists rad. split; [exact Hrad|]. unfold P. simpl. now repeat split. }
  exists rader.
  split; [now apply beregn_terminbelop_returns|].
  split; [exact Hrader|].
  assert (forall xs ys, Forall2 P xs ys ->
            map Scenario ys = map fst xs /\ map Rente ys = map snd xs) as Hkol.
  { induction 1 as [|x y xs ys (Hn & Hre & _) _ [IH1 IH2]]; [now split|].
    simpl. now rewrite Hn, Hre, IH1, IH2. }
  destruct (Hkol _ _ HF) as [Hnavn Hrente].
  split; [exact Hnavn|]. split; [exact Hrente|].
  split.
  - unfold rente_scenarios in HF. inversion HF as [|x rad xs ys (_ & _ & He) _]; subst.
    exists rad. split; [reflexivity|]. rewrite He. simpl snd. fold T. ring.
  - apply Forall_forall. intros rad Hin.
    destruct (Forall2_In_r _ _ _ rad HF Hin) as ([navn r] & Hx & _ & Hre & He).
    simpl in Hre, He. rewrite Hre, He.
    assert (0 <= r) as Hr0.
    { simpl in Hx.
      repeat (destruct Hx as [Hx|Hx];
              [injection Hx as _ <-; first [exact Hr | lra | discriminate]|]).
      contradiction. }
    split; intro Hle.
    + pose proof (terminbelop_voksende laanebelop rente r nedbetalingstid
                    laan_ok Hr Hle tid_ok) as Hv.
      fold T in Hv. lra.
    + pose proof (terminbelop_voksende laanebelop r rente nedbetalingstid
                    laan_ok Hr0 Hle tid_ok) as Hv.
      fold T in Hv. lra.
Qed.

End RentescenarierProps.

Lemma rentescenarier_endring_witness :
  exists terminbelop rader,
    Annuitet.beregn_terminbelop 3200000 4.99 25 = Ok terminbelop
    /\ Rentescenarier.scenario_data 3200000 25 3500 650000 850000 37900 58500
         "Proporsjonal etter inntekt" None (terminbelop + 3500) 4.99 = Ok rader
    /\ map Rentescenarier.Scenario rader
       = map fst (Rentescenarier.rente_scenarios 4.99).
Proof.
  destruct (rentescenarier_endring 3200000 25 3500 650000 850000 37900 58500
              "Proporsjonal etter inntekt" None
              ltac:(discriminate) ltac:(reflexivity) ltac:(discriminate)
              ltac:(discriminate) ltac:(discriminate) ltac:(reflexivity)
              ltac:(reflexivity) ltac:(discriminate) ltac:(discriminate)
              4.99 ltac:(discriminate))
    as (T & rader & HT & Hrader & Hnavn & _).
  exists T, rader. split; [exact HT|]. split; [exact Hrader | exact Hnavn].
Defined.
